(** * LogDevice: the ZooKeeper epoch store and the server health monitor

    A shallow embedding of
      - logdevice/common/ZookeeperEpochStore.cpp  (module [EpochStore])
      - logdevice/server/ServerHealthMonitor.cpp  (module [HealthMonitor])
    and the properties of the design document that are about them.

    Conventions of the embedding.
      - Asynchronous calls are effects: a function that issues a ZooKeeper
        call or posts a completion returns the list of effects it performs,
        in program order.  A callback is a constructor of [Callback] holding
        what the C++ closure captures; [invoke] runs it on a result.
      - [ld_check] and [ld_assert] are debug-build assertions; the embedding
        follows the release build, where they are no-ops.  Logging is not
        an effect of the model.
      - Behaviour that C++ leaves undefined (dereferencing a null request,
        [top()] of an empty stack, integer division by zero) is [None]. *)

From Stdlib Require Import ZArith NArith Ascii Decimal DecimalString DecimalN.
From Stdlib Require Import Floats.PrimFloat Numbers.Cyclic.Int63.Uint63.
From stdpp Require Import base option list strings numbers.

Open Scope Z_scope.

(* ================================================================== *)
(** ** logdevice/include/Err.h: the status codes used by the two files *)

Module Err.

Inductive Status : Type :=
| OK | NOTFOUND | EXISTS | AGAIN | UPTODATE | STALE | INVALID_PARAM
| ABORTED | BADMSG | EMPTY | DISABLED | TOOBIG | FAILED | INTERNAL
| NOTCONN | ACCESS | SHUTDOWN | VERSION_MISMATCH | UNKNOWN
| OTHER (code : nat). (* the remaining members of the E enumeration *)

#[global] Instance Status_eq_dec : EqDecision Status.
Proof. solve_decision. Defined.

End Err.
Export Err.

(* ================================================================== *)
(** ** zookeeper.h: return codes and session states of the C client *)

Module Zk.

Definition ZOK : Z := 0.
Definition ZRUNTIMEINCONSISTENCY : Z := -2.
Definition ZBADARGUMENTS : Z := -8.
Definition ZINVALIDSTATE : Z := -9.
Definition ZNONODE : Z := -101.
Definition ZBADVERSION : Z := -103.
Definition ZNODEEXISTS : Z := -110.
Definition ZCLOSING : Z := -116.

Definition ZOO_EXPIRED_SESSION_STATE : Z := -112.
Definition ZOO_AUTH_FAILED_STATE : Z := -113.
Definition ZOO_CONNECTING_STATE : Z := 1.
Definition ZOO_CONNECTED_STATE : Z := 3.

(** zk::Op as built by ZookeeperClientBase::makeCreateOp. *)
Record Op : Type := makeCreateOp { op_path : string; op_value : string }.

(** zk::OpResponse and zk::Stat, as far as the epoch store reads them. *)
Record OpResponse : Type := { rc_ : Z }.
Record Stat : Type := { version_ : Z }.

#[global] Instance Op_eq_dec : EqDecision Op.
Proof. solve_decision. Defined.

End Zk.
Export Zk.

(* ================================================================== *)
(** ** boost::filesystem::path

    A path is modelled by its decomposition: whether it has a root
    directory, and its elements in order.  [string] renders the generic
    format, [parent_path] drops the last element ([parent_path] of "/" and
    of a single relative element is the empty path). *)

Module fs.

Record path : Type := { has_root_directory : bool; elements : list string }.

Definition empty (p : path) : bool :=
  negb (has_root_directory p) && bool_decide (elements p = []).

Fixpoint join (es : list string) : string :=
  match es with
  | [] => ""
  | [e] => e
  | e :: es' => e +:+ "/" +:+ join es'
  end.

Definition string (p : path) : string :=
  (if has_root_directory p then "/" else "") +:+ join (elements p).

Definition parent_path (p : path) : path :=
  match elements p with
  | [] => {| has_root_directory := false; elements := [] |}
  | _ :: _ =>
      {| has_root_directory := has_root_directory p;
         elements := removelast (elements p) |}
  end.

(** Elements are file names: not empty, and without a separator. *)
Fixpoint has_slash (s : String.string) : bool :=
  match s with
  | EmptyString => false
  | String c s' => bool_decide (c = "/"%char) || has_slash s'
  end.

Definition element_ok (e : String.string) : Prop :=
  e ≠ "" ∧ has_slash e = false.

Definition wf (p : path) : Prop := Forall element_ok (elements p).

(** The path made of the first [j] elements of [p]. *)
Definition prefix (p : path) (j : nat) : path :=
  {| has_root_directory := has_root_directory p;
     elements := take j (elements p) |}.

(** [q] lies strictly between the root directory and [p]. *)
Definition proper_ancestor (q p : path) : Prop :=
  ∃ j : nat, (0 < j < length (elements p))%nat ∧ q = prefix p j.

(** The paths from the shallowest ancestor of [p] below the root
    directory down to [p] itself. *)
Definition lineage (p : path) : list path :=
  (λ j : nat, prefix p (S j)) <$> seq 0 (length (elements p)).

End fs.

(* ================================================================== *)
(** ** logdevice/common/ZookeeperEpochStore.cpp *)

Module EpochStore.

(** logid_t is an unsigned 64-bit strong typedef, epoch_t a 32-bit one. *)
Definition logid_t : Type := N.
Definition epoch_t : Type := N.
Definition LOGID_INVALID : logid_t := 0%N.
Definition EPOCH_INVALID : epoch_t := 0%N.

(** ZookeeperEpochStoreRequest::NextStep. *)
Inductive NextStep : Type := PROVISION | MODIFY | STOP | STEP_FAILED.

(** The dynamic type of a request, which the code inspects with
    dynamic_cast. *)
Inductive RequestKind : Type :=
| GetLastCleanEpochZRQ | SetLastCleanEpochZRQ | EpochMetaDataZRQ.

(** The interface of ZookeeperEpochStoreRequest.  The thread-local [err]
    is passed through [onGotZnodeValue], which may set it.
    [composeZnodeValue] is given the buffer size and returns the size it
    reports and the buffer it has filled. *)
Record Request : Type := {
  kind : RequestKind;
  logid_ : logid_t;
  getZnodePath : string;
  onGotZnodeValue : option string → nat → Status → NextStep * Status;
  composeZnodeValue : Z → Z * string;
}.

(** ZookeeperEpochStore::MultiOpState.  [zrq] may be null. *)
Record MultiOpState : Type := {
  zrq : option Request;
  operations_ : list Op;
  op_results_ : list OpResponse;
}.

Definition newMultiOpState (rq : option Request) : MultiOpState :=
  {| zrq := rq; operations_ := []; op_results_ := [] |}.

Definition addCreateOp (path value : string) (s : MultiOpState)
  : MultiOpState :=
  {| zrq := zrq s;
     operations_ := operations_ s ++ [makeCreateOp path value];
     op_results_ := op_results_ s |}.

(** ZookeeperEpochStore::CreateRootsState.  The stack is a list whose head
    is [top()]. *)
Record CreateRootsState : Type := {
  deferred_multi_op_state_ : MultiOpState;
  paths_to_create_ : list string;
  current_op_ : option MultiOpState;
}.

(** What a completion closure captures. *)
Inductive Callback : Type :=
| cb_onGetZnodeComplete (req : Request)
| cb_postRequestCompletion (req : Request)
| cb_zkLogMultiCreateCF (state : MultiOpState)
| cb_CreateRoots_multiOpCF (state : CreateRootsState).

(** What a function does, in order.  A ZooKeeper call is made on the
    client that zkclient_.get() returns at that moment; the effect records
    the call and its callback, not the client. *)
Inductive Effect : Type :=
| StatIncr (counter : string)
| GetData (path : string) (cb : Callback)
| SetData (path value : string) (version : Z) (cb : Callback)
| MultiOp (ops : list Op) (cb : Callback)
| PostCompletion (req : Request) (st : Status).

(** The statuses posted to callers by a list of effects, in order. *)
Definition posted (effs : list Effect) : list Status :=
  omap (λ e, match e with PostCompletion _ st => Some st | _ => None end) effs.

(** The ZooKeeper calls issued by a list of effects. *)
Definition is_zk_call (e : Effect) : bool :=
  match e with
  | GetData _ _ | SetData _ _ _ _ | MultiOp _ _ => true
  | _ => false
  end.

Definition zk_calls (effs : list Effect) : list Effect :=
  filter (λ e, is_zk_call e = true) effs.

(** ZookeeperClientBase, as far as the store reads it. *)
Record ZookeeperClientBase : Type := {
  state : Z;             (* state(): the current session state *)
  getQuorum : string;
}.

(** The store: what the member functions below read of it.  [stats_] is
    false when processor_->stats_ is null.  [rootPath] is the path that
    rootPath() returns, decomposed (see [fs]). *)
Record ZookeeperEpochStore : Type := {
  rootPath : fs.path;
  zk_create_root_znodes : bool;
  zkclient_ : ZookeeperClientBase;
  stats_ : bool;
}.

(** std::to_string on an unsigned 64-bit value. *)
Definition to_string (n : N) : string :=
  NilEmpty.string_of_uint (N.to_uint n).

Section Store.

(** Declared outside this file: the client library's own translation of
    return codes, the size of the write buffer, the largest data log id,
    the znode names and the constructors of the three request kinds. *)
Variable toStatus : Z → Status.
Variable ZNODE_VALUE_WRITE_LEN_MAX : Z.
Variable LOGID_MAX : logid_t.
Variable EpochMetaDataZRQ_znodeName : string.
Variable LastCleanEpochZRQ_znodeNameDataLog : string.
Variable LastCleanEpochZRQ_znodeNameMetaDataLog : string.

(** *** zkOpStatus (lines 120-158) *)
Definition zkOpStatus (self : ZookeeperEpochStore) (rc : Z) : Status :=
  let zkclient := zkclient_ self in
  if bool_decide (rc = ZBADARGUMENTS) then INTERNAL
  else if bool_decide (rc = ZINVALIDSTATE) then
    let zstate := state zkclient in
    if bool_decide (zstate = ZOO_EXPIRED_SESSION_STATE) then NOTCONN
    else if bool_decide (zstate = ZOO_AUTH_FAILED_STATE) then ACCESS
    else FAILED
  else toStatus rc.

(** *** zkCfStatus (lines 160-188)

    [stats] is false for a null StatsHolder, and STAT_INCR then does
    nothing. *)
Definition zkCfStatus (rc : Z) (stats : bool) : Status * list Effect :=
  if bool_decide (rc = ZRUNTIMEINCONSISTENCY) then
    (FAILED,
     if stats
     then [StatIncr "zookeeper_epoch_store_internal_inconsistency_error"]
     else [])
  else
    let status := toStatus rc in
    if bool_decide (status = VERSION_MISMATCH) then (AGAIN, [])
    else (status, []).

(** *** znodePathForLog (lines 190-193) *)
Definition znodePathForLog (self : ZookeeperEpochStore) (logid : logid_t)
  : string :=
  fs.string (rootPath self) +:+ "/" +:+ to_string logid.

(** *** MultiOpState::runMultiOp (lines 214-223)

    The operations are moved into the call (std::move), which leaves
    [operations_] empty in the state that the callback gets. *)
Definition runMultiOp (s : MultiOpState) (cf : MultiOpState → Callback)
  : Effect :=
  MultiOp (operations_ s)
          (cf {| zrq := zrq s; operations_ := [];
                 op_results_ := op_results_ s |}).

(** The callback of runMultiOp stores the results before it calls [cf]. *)
Definition set_results (results : list OpResponse) (s : MultiOpState)
  : MultiOpState :=
  {| zrq := zrq s; operations_ := operations_ s; op_results_ := results |}.

(** *** The test that guards every completion (lines 454-461, 470-477)

    [shutting_down] is the value that
    zrq->epoch_store_shutting_down_->load() returns at that moment. *)
Definition complete (st : Status) (shutting_down : bool) (zrq : Request)
  : list Effect :=
  if negb (bool_decide (st = SHUTDOWN)) || negb shutting_down
  then [PostCompletion zrq st]
  else [].

(** *** postRequestCompletion (lines 464-478) *)
Definition postRequestCompletion (self : ZookeeperEpochStore) (rc : Z)
    (shutting_down : bool) (zrq : Request) : list Effect :=
  let '(st, effs) := zkCfStatus rc (stats_ self) in
  effs ++ complete st shutting_down zrq.

(** *** provisionLogZnodes (lines 320-349) *)
Definition provisionLogZnodes (self : ZookeeperEpochStore) (zrq : Request)
    (sequencer_znode_value : string) : list Effect :=
  let log_id := logid_ zrq in
  let logroot := znodePathForLog self log_id in
  let state := newMultiOpState (Some zrq) in
  let state := addCreateOp logroot "" state in
  let state :=
    addCreateOp (logroot +:+ "/" +:+ EpochMetaDataZRQ_znodeName)
                sequencer_znode_value state in
  let state :=
    addCreateOp (logroot +:+ "/" +:+ LastCleanEpochZRQ_znodeNameDataLog)
                "" state in
  let state :=
    addCreateOp (logroot +:+ "/" +:+ LastCleanEpochZRQ_znodeNameMetaDataLog)
                "" state in
  [runMultiOp state cb_zkLogMultiCreateCF].

(** *** onGetZnodeComplete (lines 351-462)

    [err] is the thread-local error code on entry. *)
Definition onGetZnodeComplete (self : ZookeeperEpochStore) (rc : Z)
    (value_from_zk : string) (stat : Stat) (zrq : Request)
    (err : Status) (shutting_down : bool) : list Effect :=
  let '(st, effs) := zkCfStatus rc (stats_ self) in
  if negb (bool_decide (st = OK)) && negb (bool_decide (st = NOTFOUND)) then
    (* goto err *)
    effs ++ complete st shutting_down zrq
  else
    let value_for_zrq :=
      if bool_decide (st = NOTFOUND) then None else Some value_from_zk in
    let '(next_step, err) :=
      onGotZnodeValue zrq value_for_zrq (String.length value_from_zk) err in
    match next_step with
    | STOP | STEP_FAILED =>
        (* st = err; goto done *)
        effs ++ complete err shutting_down zrq
    | PROVISION | MODIFY =>
        let do_provision :=
          match next_step with PROVISION => true | _ => false end in
        let '(znode_value_size, znode_value) :=
          composeZnodeValue zrq ZNODE_VALUE_WRITE_LEN_MAX in
        if (znode_value_size <? 0)
           || (znode_value_size >=? ZNODE_VALUE_WRITE_LEN_MAX) then
          (* st = E::INTERNAL; goto err *)
          effs ++ complete INTERNAL shutting_down zrq
        else
          let znode_value_str :=
            String.substring 0 (Z.to_nat znode_value_size) znode_value in
          if do_provision then
            effs ++ provisionLogZnodes self zrq znode_value_str
          else
            let znode_path := getZnodePath zrq in
            effs ++ [SetData znode_path znode_value_str (version_ stat)
                             (cb_postRequestCompletion zrq)]
    end.

(** *** CreateRootsState (lines 244-318) *)

(** The loop of the constructor (lines 250-253).  [fuel] bounds the
    number of iterations; a path has one more ancestor than elements. *)
Fixpoint enumerate_parents (fuel : nat) (path : fs.path)
    (stack : list string) : list string :=
  match fuel with
  | O => stack
  | S fuel' =>
      if negb (fs.empty path) && negb (String.eqb (fs.string path) "/")
      then enumerate_parents fuel' (fs.parent_path path)
                             (fs.string path :: stack)
      else stack
  end.

Definition newCreateRootsState (mos : MultiOpState) (root_path : fs.path)
  : CreateRootsState :=
  {| deferred_multi_op_state_ := mos;
     paths_to_create_ :=
       enumerate_parents (S (length (fs.elements root_path))) root_path [];
     current_op_ := None |}.

(** getNextPathToCreate: [top()], undefined on an empty stack. *)
Definition getNextPathToCreate (s : CreateRootsState) : option string :=
  head (paths_to_create_ s).

(** CreateRootsState::run (lines 259-271).  It reads the store through
    deferred_multi_op_state_->zrq, undefined for a null request. *)
Definition run (s : CreateRootsState) : option (list Effect) :=
  _ ← zrq (deferred_multi_op_state_ s);
  path ← getNextPathToCreate s;
  let current_op := addCreateOp path "" (newMultiOpState None) in
  Some [runMultiOp current_op
          (λ op, cb_CreateRoots_multiOpCF
                   {| deferred_multi_op_state_ := deferred_multi_op_state_ s;
                      paths_to_create_ := paths_to_create_ s;
                      current_op_ := Some op |})].

Definition pop (s : CreateRootsState) : CreateRootsState :=
  {| deferred_multi_op_state_ := deferred_multi_op_state_ s;
     paths_to_create_ := tail (paths_to_create_ s);
     current_op_ := current_op_ s |}.

(** *** createRootZnodesCF (lines 536-566) *)
Definition createRootZnodesCF (self : ZookeeperEpochStore)
    (state : CreateRootsState) (rc : Z) (shutting_down : bool)
  : option (list Effect) :=
  let '(st, _) := zkCfStatus rc false in
  if negb (bool_decide (st = OK)) && negb (bool_decide (st = EXISTS)) then
    req ← zrq (deferred_multi_op_state_ state);
    Some (postRequestCompletion self rc shutting_down req)
  else
    let multi_op_state := deferred_multi_op_state_ state in
    _ ← zrq multi_op_state;
    Some [runMultiOp multi_op_state cb_zkLogMultiCreateCF].

(** *** CreateRootsState::multiOpCF (lines 275-301) *)
Definition multiOpCF (self : ZookeeperEpochStore) (rc : Z)
    (state : CreateRootsState) (shutting_down : bool)
  : option (list Effect) :=
  let '(st, _) := zkCfStatus rc false in
  if bool_decide (st = OK) || bool_decide (st = EXISTS) then
    let state := pop state in
    if negb (bool_decide (paths_to_create_ state = [])) then
      (* More paths to create *)
      run state
    else createRootZnodesCF self state rc shutting_down
  else createRootZnodesCF self state rc shutting_down.

(** *** createRootZnodes (lines 523-534) *)
Definition createRootZnodes (self : ZookeeperEpochStore)
    (multi_op_state : MultiOpState) : option (list Effect) :=
  run (newCreateRootsState multi_op_state (rootPath self)).

(** *** zkLogMultiCreateCF (lines 480-521) *)
Definition zkLogMultiCreateCF (self : ZookeeperEpochStore) (rc : Z)
    (state : MultiOpState) (shutting_down : bool) : option (list Effect) :=
  req ← zrq state;
  let '(st, effs) := zkCfStatus rc (stats_ self) in
  if bool_decide (st = NOTFOUND) && zk_create_root_znodes self then
    effs' ← createRootZnodes self state;
    Some (effs ++ effs')
  else
    Some (effs ++ postRequestCompletion self rc shutting_down req).

(** *** runRequest (lines 568-580) *)
Definition runRequest (zrq : Request) : Z * list Effect :=
  let znode_path := getZnodePath zrq in
  (0, [GetData znode_path (cb_onGetZnodeComplete zrq)]).

(** *** The callbacks, run on the result of the call they were given to *)
Inductive Completion : Type :=
| GetDataResult (rc : Z) (value : string) (stat : Stat)
| SetDataResult (rc : Z) (stat : Stat)
| MultiOpResult (rc : Z) (results : list OpResponse).

Definition invoke (self : ZookeeperEpochStore) (cb : Callback)
    (c : Completion) (err : Status) (shutting_down : bool)
  : option (list Effect) :=
  match cb, c with
  | cb_onGetZnodeComplete req, GetDataResult rc value stat =>
      Some (onGetZnodeComplete self rc value stat req err shutting_down)
  | cb_postRequestCompletion req, SetDataResult res _ =>
      Some (postRequestCompletion self res shutting_down req)
  | cb_zkLogMultiCreateCF state, MultiOpResult rc results =>
      zkLogMultiCreateCF self rc (set_results results state) shutting_down
  | cb_CreateRoots_multiOpCF state, MultiOpResult rc results =>
      let state :=
        {| deferred_multi_op_state_ := deferred_multi_op_state_ state;
           paths_to_create_ := paths_to_create_ state;
           current_op_ := set_results results <$> current_op_ state |} in
      multiOpCF self rc state shutting_down
  | _, _ => None
  end.

(** *** The entry points (lines 609-656)

    A call returns its int result, the thread-local [err] after the call
    and the effects.  The request classes are declared outside this file;
    their constructors are parameters. *)
Record CallResult : Type := { rv : Z; err_after : Status; effects : list Effect }.

(** TailRecord, by the two member functions that the store calls. *)
Record TailRecord : Type := {
  header_flags : N;
  isValid : bool;
  containOffsetWithinEpoch : bool;
}.

Variable new_GetLastCleanEpochZRQ : logid_t → epoch_t → Request.
Variable new_SetLastCleanEpochZRQ : logid_t → epoch_t → TailRecord → Request.
Variable new_EpochMetaDataZRQ : logid_t → epoch_t → Request.

Definition returning (r : Z * list Effect) (err : Status) : CallResult :=
  {| rv := r.1; err_after := err; effects := r.2 |}.

Definition getLastCleanEpoch (logid : logid_t) (err : Status) : CallResult :=
  returning (runRequest (new_GetLastCleanEpochZRQ logid EPOCH_INVALID)) err.

Definition setLastCleanEpoch (logid : logid_t) (lce : epoch_t)
    (tail_record : TailRecord) (err : Status) : CallResult :=
  if negb (isValid tail_record) || containOffsetWithinEpoch tail_record then
    {| rv := -1; err_after := INVALID_PARAM; effects := [] |}
  else
    returning (runRequest (new_SetLastCleanEpochZRQ logid lce tail_record))
              err.

Definition createOrUpdateMetaData (logid : logid_t) (err : Status)
  : CallResult :=
  (* do not allow calling this function with metadata logids *)
  if (logid <=? LOGID_INVALID)%N || (LOGID_MAX <? logid)%N then
    {| rv := -1; err_after := INVALID_PARAM; effects := [] |}
  else
    returning (runRequest (new_EpochMetaDataZRQ logid EPOCH_INVALID)) err.

(** *** The root-creation machine, driven by the client

    [rounds] feeds the completions [rcs], one per multi-op, to the machine
    that [createRootZnodes] starts.  A round records the operations of the
    multi-op in flight, the machine that its callback holds and the return
    code that completes it.  The list ends when the machine hands over to
    createRootZnodesCF, or when the completions run out. *)
Record Round : Type := {
  created : list Op;
  machine : CreateRootsState;
  completion : Z;
}.

Definition in_flight (effs : option (list Effect))
  : option (list Op * CreateRootsState) :=
  match effs with
  | Some [MultiOp ops (cb_CreateRoots_multiOpCF s)] => Some (ops, s)
  | _ => None
  end.

Fixpoint rounds (self : ZookeeperEpochStore) (effs : option (list Effect))
    (rcs : list Z) (shutting_down : bool) : list Round :=
  match rcs with
  | [] => []
  | rc :: rcs' =>
      match in_flight effs with
      | Some (ops, s) =>
          {| created := ops; machine := s; completion := rc |}
          :: rounds self
               (invoke self (cb_CreateRoots_multiOpCF s) (MultiOpResult rc [])
                       OK shutting_down)
               rcs' shutting_down
      | None => []
      end
  end.

(** *** A request run to its end

    The callback that a ZooKeeper call carries, the request that a
    callback completes, and the call in flight among the effects of a
    step. *)
Definition callback_of (e : Effect) : option Callback :=
  match e with
  | GetData _ cb | SetData _ _ _ cb | MultiOp _ cb => Some cb
  | _ => None
  end.

Definition owner (cb : Callback) : option Request :=
  match cb with
  | cb_onGetZnodeComplete req | cb_postRequestCompletion req => Some req
  | cb_zkLogMultiCreateCF state => zrq state
  | cb_CreateRoots_multiOpCF state => zrq (deferred_multi_op_state_ state)
  end.

Definition pending (effs : list Effect) : option Callback :=
  match zk_calls effs with
  | [call] => callback_of call
  | _ => None
  end.

(** The operations of the multi-ops issued by a list of effects. *)
Definition multi_ops (effs : list Effect) : list (list Op) :=
  omap (λ e, match e with MultiOp ops _ => Some ops | _ => None end) effs.

(** What the client answers to the call in flight, with the thread-local
    [err] and the shutdown flag as they are when the callback runs. *)
Record Response : Type := {
  result : Completion;
  err_then : Status;
  shutting_down_then : bool;
}.

(** [exec] gives the effects [effs] of a step, then feeds the responses
    [rs], one per call, to the callback of the call in flight, and so on:
    all the effects of the run, in order.  The run ends when no call is in
    flight, when the responses run out, or where the behaviour is
    undefined. *)
Fixpoint exec (self : ZookeeperEpochStore) (effs : list Effect)
    (rs : list Response) : list Effect :=
  effs
  ++ match rs with
     | [] => []
     | r :: rs' =>
         match pending effs with
         | Some cb =>
             match invoke self cb (result r) (err_then r)
                     (shutting_down_then r) with
             | Some effs' => exec self effs' rs'
             | None => []
             end
         | None => []
         end
     end.

(** *** The constructor, identify and onConfigUpdate (lines 35-71, 582-607)

    ZookeeperConfig is read through getQuorumString only; the factory
    returns no client when it fails; the constructor then throws
    ConstructorFailed. *)
Record ZookeeperConfig : Type := { getQuorumString : string }.

Definition with_client (zkclient : ZookeeperClientBase)
    (self : ZookeeperEpochStore) : ZookeeperEpochStore :=
  {| rootPath := rootPath self;
     zk_create_root_znodes := zk_create_root_znodes self;
     zkclient_ := zkclient;
     stats_ := stats_ self |}.

Definition new_ZookeeperEpochStore (root : fs.path)
    (create_root_znodes stats : bool)
    (zkFactory : ZookeeperConfig → option ZookeeperClientBase)
    (zk_config : ZookeeperConfig) : option ZookeeperEpochStore :=
  zkclient ← zkFactory zk_config;
  Some {| rootPath := root;
          zk_create_root_znodes := create_root_znodes;
          zkclient_ := zkclient;
          stats_ := stats |}.

Definition identify (self : ZookeeperEpochStore) : string :=
  "zookeeper://" +:+ getQuorum (zkclient_ self) +:+ fs.string (rootPath self).

(** [cfg] is what zk_config_->get() returns, None for a null pointer. *)
Definition onConfigUpdate
    (zkFactory : ZookeeperConfig → option ZookeeperClientBase)
    (cfg : option ZookeeperConfig) (self : ZookeeperEpochStore)
  : ZookeeperEpochStore :=
  match cfg with
  | None => self
  | Some cfg =>
      let cur := zkclient_ self in
      let quorum := getQuorumString cfg in
      if bool_decide (quorum = getQuorum cur) then self
      else
        match zkFactory cfg with
        | None => self
        | Some zkclient => with_client zkclient self
        end
  end.

End Store.

End EpochStore.

(* ================================================================== *)
(** ** logdevice/server/ServerHealthMonitor.cpp *)

Module HealthMonitor.

(** std::chrono::milliseconds is a signed 64-bit count of milliseconds; a
    time point of the steady clock is a count on the same axis.  The
    monitor's durations are far from the 64-bit bounds, so their sums,
    differences and products are those of Z; the division of a duration
    by an int truncates ([Z.quot]).  The count of the samples of a time
    series is a uint64_t, held here as its value in N. *)
Definition milliseconds : Type := Z.
Definition TimePoint : Type := Z.

Definition INT64_MAX : Z := 2 ^ 63 - 1.

(** The conversion of a signed 64-bit value to uint64_t. *)
Definition to_uint64 (z : Z) : Z := z mod 2 ^ 64.

(** The interface of TimeSeries (a bucketed sliding-window series, declared
    outside this file): the sum and the number of the samples in a time
    range, retiring old buckets, adding a sample, and the constructor from
    a number of buckets and a duration. *)
Class TimeSeriesOps (TS : Type) : Type := {
  ts_sum : TS → TimePoint → TimePoint → milliseconds;
  ts_count : TS → TimePoint → TimePoint → N;
  ts_update : TS → TimePoint → TS;
  ts_addValue : TS → TimePoint → milliseconds → TS;
  ts_new : Z → milliseconds → TS;
}.

(** The interface of the state timer (an adaptive variable with
    exponential backoff, declared outside this file).  [timer_new] takes
    the minimum and the initial value; the other arguments of the
    constructor are constants of the header. *)
Class StateTimerOps (T : Type) : Type := {
  negativeFeedback : T → T;
  positiveFeedback : T → TimePoint → T;
  getCurrentValue : T → milliseconds;
  timer_new : milliseconds → milliseconds → T;
}.

(** std::vector, with the capacity that [capacity()] reports. *)
Record vector (A : Type) : Type := { data : list A; capacity : nat }.
Arguments data {A} _.
Arguments capacity {A} _.

Definition empty_vector {A : Type} : vector A := {| data := []; capacity := 0 |}.

(** reserve(n) on a vector allocates storage for exactly n elements when
    it has less. *)
Definition reserve {A : Type} (n : nat) (v : vector A) : vector A :=
  {| data := data v; capacity := Nat.max (capacity v) n |}.

Definition assign {A : Type} (n : nat) (x : A) (v : vector A) : vector A :=
  {| data := replicate n x; capacity := Nat.max (capacity v) n |}.

Definition for_each {A : Type} (f : A → A) (v : vector A) : vector A :=
  {| data := f <$> data v; capacity := capacity v |}.

Inductive NodeState : Type := HEALTHY | OVERLOADED | UNHEALTHY.

Record StallInfo : Type := { critically_stalled_ : Z; stalled_ : bool }.

(** The counters of StatsHolder that the monitor writes. *)
Record Stats : Type := {
  health_monitor_num_loops : Z;
  health_monitor_stall_indicator : Z;
  health_monitor_overload_indicator : Z;
  health_monitor_state_indicator : Z;
}.

(** [d / n] for a duration [d] and the count [n] of a series.  The rep of
    the quotient is the common type of int64_t and uint64_t, which is
    uint64_t: the rep of [d] is converted to it, which wraps a negative
    value around, and the division is unsigned.  The result is the value
    of that unsigned rep.  Dividing by zero is undefined. *)
Definition duration_div (d : milliseconds) (n : N) : option Z :=
  if bool_decide (n = 0%N) then None else Some (to_uint64 d / Z.of_N n).

(** [q >= d] for such a quotient [q] and a duration [d] of signed rep:
    the two are compared in their common type, again uint64_t. *)
Definition quotient_ge (q : Z) (d : milliseconds) : bool :=
  q >=? to_uint64 d.

(** [sum / count >= d] read in the integers, and as the code evaluates
    it. *)
Definition avg_ge (sum : milliseconds) (count : N) (d : milliseconds) : Prop :=
  d ≤ sum ÷ Z.of_N count.

Definition avg_ge_uint64 (sum : milliseconds) (count : N) (d : milliseconds)
  : Prop :=
  to_uint64 d ≤ to_uint64 sum / Z.of_N count.

(** A duration that is not negative. *)
Definition non_negative (d : milliseconds) : Prop := 0 ≤ d ≤ INT64_MAX.

(** Conversions of a count to double (binary64; exact below 2^53, and
    the counts of workers are far below), and [a >= b] on doubles. *)
Definition double_of_Z (z : Z) : float := PrimFloat.of_uint63 (Uint63.of_Z z).
Definition double_of_nat (n : nat) : float := double_of_Z (Z.of_nat n).
Definition double_ge (a b : float) : bool := PrimFloat.leb b a.

(** std::count_if with a predicate that may be undefined. *)
Fixpoint count_if {A : Type} (f : A → option bool) (l : list A) : option nat :=
  match l with
  | [] => Some O
  | x :: l' =>
      b ← f x;
      n ← count_if f l';
      Some (if b : bool then S n else n)
  end.

Section Monitor.

Context {TS Timer : Type} `{!TimeSeriesOps TS} `{!StateTimerOps Timer}.

(** Constants of the header. *)
Variable kPeriodRange : Z.
Variable kNumBuckets : Z.
Variable kNumPeriods : Z.
Variable kMaxLoopStall : milliseconds.

Record InternalInfo : Type := {
  num_workers_ : Z;
  worker_stalls_ : vector TS;
  worker_queue_stalls_ : vector TS;
  watchdog_delay_ : bool;
  total_stalled_workers : Z;
  health_monitor_delay_ : bool;
}.

Record ServerHealthMonitor : Type := {
  sleep_period_ : milliseconds;
  stats_ : option Stats;
  max_queue_stalls_avg_ : milliseconds;
  max_queue_stall_duration_ : milliseconds;
  max_overloaded_worker_percentage_ : float;
  max_stalls_avg_ : milliseconds;
  max_stalled_worker_percentage_ : float;
  state_timer_ : Timer;
  internal_info_ : InternalInfo;
  stall_info_ : StallInfo;
  overloaded_ : bool;
  node_state_ : NodeState;
  shutdown_ : bool;
  last_entry_time_ : TimePoint;
}.

(** Field updates. *)
Definition with_info (i : InternalInfo) (m : ServerHealthMonitor)
  : ServerHealthMonitor :=
  {| sleep_period_ := sleep_period_ m; stats_ := stats_ m;
     max_queue_stalls_avg_ := max_queue_stalls_avg_ m;
     max_queue_stall_duration_ := max_queue_stall_duration_ m;
     max_overloaded_worker_percentage_ := max_overloaded_worker_percentage_ m;
     max_stalls_avg_ := max_stalls_avg_ m;
     max_stalled_worker_percentage_ := max_stalled_worker_percentage_ m;
     state_timer_ := state_timer_ m; internal_info_ := i;
     stall_info_ := stall_info_ m; overloaded_ := overloaded_ m;
     node_state_ := node_state_ m; shutdown_ := shutdown_ m;
     last_entry_time_ := last_entry_time_ m |}.

Definition with_timer (t : Timer) (m : ServerHealthMonitor)
  : ServerHealthMonitor :=
  {| sleep_period_ := sleep_period_ m; stats_ := stats_ m;
     max_queue_stalls_avg_ := max_queue_stalls_avg_ m;
     max_queue_stall_duration_ := max_queue_stall_duration_ m;
     max_overloaded_worker_percentage_ := max_overloaded_worker_percentage_ m;
     max_stalls_avg_ := max_stalls_avg_ m;
     max_stalled_worker_percentage_ := max_stalled_worker_percentage_ m;
     state_timer_ := t; internal_info_ := internal_info_ m;
     stall_info_ := stall_info_ m; overloaded_ := overloaded_ m;
     node_state_ := node_state_ m; shutdown_ := shutdown_ m;
     last_entry_time_ := last_entry_time_ m |}.

Definition with_stats (s : option Stats) (m : ServerHealthMonitor)
  : ServerHealthMonitor :=
  {| sleep_period_ := sleep_period_ m; stats_ := s;
     max_queue_stalls_avg_ := max_queue_stalls_avg_ m;
     max_queue_stall_duration_ := max_queue_stall_duration_ m;
     max_overloaded_worker_percentage_ := max_overloaded_worker_percentage_ m;
     max_stalls_avg_ := max_stalls_avg_ m;
     max_stalled_worker_percentage_ := max_stalled_worker_percentage_ m;
     state_timer_ := state_timer_ m; internal_info_ := internal_info_ m;
     stall_info_ := stall_info_ m; overloaded_ := overloaded_ m;
     node_state_ := node_state_ m; shutdown_ := shutdown_ m;
     last_entry_time_ := last_entry_time_ m |}.

Definition with_signal (si : StallInfo) (o : bool) (m : ServerHealthMonitor)
  : ServerHealthMonitor :=
  {| sleep_period_ := sleep_period_ m; stats_ := stats_ m;
     max_queue_stalls_avg_ := max_queue_stalls_avg_ m;
     max_queue_stall_duration_ := max_queue_stall_duration_ m;
     max_overloaded_worker_percentage_ := max_overloaded_worker_percentage_ m;
     max_stalls_avg_ := max_stalls_avg_ m;
     max_stalled_worker_percentage_ := max_stalled_worker_percentage_ m;
     state_timer_ := state_timer_ m; internal_info_ := internal_info_ m;
     stall_info_ := si; overloaded_ := o;
     node_state_ := node_state_ m; shutdown_ := shutdown_ m;
     last_entry_time_ := last_entry_time_ m |}.

Definition with_node_state (s : NodeState) (m : ServerHealthMonitor)
  : ServerHealthMonitor :=
  {| sleep_period_ := sleep_period_ m; stats_ := stats_ m;
     max_queue_stalls_avg_ := max_queue_stalls_avg_ m;
     max_queue_stall_duration_ := max_queue_stall_duration_ m;
     max_overloaded_worker_percentage_ := max_overloaded_worker_percentage_ m;
     max_stalls_avg_ := max_stalls_avg_ m;
     max_stalled_worker_percentage_ := max_stalled_worker_percentage_ m;
     state_timer_ := state_timer_ m; internal_info_ := internal_info_ m;
     stall_info_ := stall_info_ m; overloaded_ := overloaded_ m;
     node_state_ := s; shutdown_ := shutdown_ m;
     last_entry_time_ := last_entry_time_ m |}.

Definition with_last_entry_time (t : TimePoint) (m : ServerHealthMonitor)
  : ServerHealthMonitor :=
  {| sleep_period_ := sleep_period_ m; stats_ := stats_ m;
     max_queue_stalls_avg_ := max_queue_stalls_avg_ m;
     max_queue_stall_duration_ := max_queue_stall_duration_ m;
     max_overloaded_worker_percentage_ := max_overloaded_worker_percentage_ m;
     max_stalls_avg_ := max_stalls_avg_ m;
     max_stalled_worker_percentage_ := max_stalled_worker_percentage_ m;
     state_timer_ := state_timer_ m; internal_info_ := internal_info_ m;
     stall_info_ := stall_info_ m; overloaded_ := overloaded_ m;
     node_state_ := node_state_ m; shutdown_ := shutdown_ m;
     last_entry_time_ := t |}.

(** STAT_INCR and STAT_ADD do nothing on a null StatsHolder. *)
Definition stat_add (f : Z → Stats → Stats) (n : Z) (m : ServerHealthMonitor)
  : ServerHealthMonitor :=
  with_stats (f n <$> stats_ m) m.

Definition add_num_loops (n : Z) (s : Stats) : Stats :=
  {| health_monitor_num_loops := health_monitor_num_loops s + n;
     health_monitor_stall_indicator := health_monitor_stall_indicator s;
     health_monitor_overload_indicator := health_monitor_overload_indicator s;
     health_monitor_state_indicator := health_monitor_state_indicator s |}.

Definition add_stall_indicator (n : Z) (s : Stats) : Stats :=
  {| health_monitor_num_loops := health_monitor_num_loops s;
     health_monitor_stall_indicator := health_monitor_stall_indicator s + n;
     health_monitor_overload_indicator := health_monitor_overload_indicator s;
     health_monitor_state_indicator := health_monitor_state_indicator s |}.

Definition add_overload_indicator (n : Z) (s : Stats) : Stats :=
  {| health_monitor_num_loops := health_monitor_num_loops s;
     health_monitor_stall_indicator := health_monitor_stall_indicator s;
     health_monitor_overload_indicator :=
       health_monitor_overload_indicator s + n;
     health_monitor_state_indicator := health_monitor_state_indicator s |}.

Definition add_state_indicator (n : Z) (s : Stats) : Stats :=
  {| health_monitor_num_loops := health_monitor_num_loops s;
     health_monitor_stall_indicator := health_monitor_stall_indicator s;
     health_monitor_overload_indicator := health_monitor_overload_indicator s;
     health_monitor_state_indicator := health_monitor_state_indicator s + n |}.

(** *** The constructor (lines 17-49)

    reserve() throws std::length_error for a negative [num_workers], which
    converts to a size above max_size(). *)
Definition new_ServerHealthMonitor (sleep_period : milliseconds)
    (num_workers : Z) (stats : option Stats)
    (max_queue_stalls_avg max_queue_stall_duration : milliseconds)
    (max_overloaded_worker_percentage : float)
    (max_stalls_avg : milliseconds) (max_stalled_worker_percentage : float)
  : option ServerHealthMonitor :=
  if num_workers <? 0 then None
  else
    let n := Z.to_nat num_workers in
    let series := ts_new kNumBuckets (kNumPeriods * sleep_period) in
    Some
      {| sleep_period_ := sleep_period; stats_ := stats;
         max_queue_stalls_avg_ := max_queue_stalls_avg;
         max_queue_stall_duration_ := max_queue_stall_duration;
         max_overloaded_worker_percentage_ := max_overloaded_worker_percentage;
         max_stalls_avg_ := max_stalls_avg;
         max_stalled_worker_percentage_ := max_stalled_worker_percentage;
         state_timer_ := timer_new sleep_period sleep_period;
         internal_info_ :=
           {| num_workers_ := num_workers;
              worker_stalls_ := assign n series (reserve n empty_vector);
              worker_queue_stalls_ := assign n series (reserve n empty_vector);
              watchdog_delay_ := false;
              total_stalled_workers := 0;
              health_monitor_delay_ := false |};
         stall_info_ := {| critically_stalled_ := 0; stalled_ := false |};
         overloaded_ := false;
         node_state_ := HEALTHY;
         shutdown_ := false;
         last_entry_time_ := 0 |}.

(** *** updateVariables (lines 77-85) *)
Definition updateVariables (now : TimePoint) (m : ServerHealthMonitor)
  : ServerHealthMonitor :=
  let i := internal_info_ m in
  let i :=
    {| num_workers_ := num_workers_ i;
       worker_stalls_ := for_each (λ t, ts_update t now) (worker_stalls_ i);
       worker_queue_stalls_ :=
         for_each (λ t, ts_update t now) (worker_queue_stalls_ i);
       watchdog_delay_ := watchdog_delay_ i;
       total_stalled_workers := total_stalled_workers i;
       health_monitor_delay_ := health_monitor_delay_ i |} in
  let m := with_info i m in
  with_timer (positiveFeedback (state_timer_ m) now) m.

(** The values of [p] that the two loops run through:
    for (int p = 2; p <= 2 * kPeriodRange; ++p). *)
Definition periods : list Z :=
  (λ i : nat, 2 + Z.of_nat i) <$> seq 0 (Z.to_nat (2 * kPeriodRange - 1)).

(** *** isOverloaded (lines 86-113) *)

(** The test of one period (lines 99-106); [&&] evaluates its right
    operand only when the left one holds. *)
Definition overloaded_period (m : ServerHealthMonitor) (now : TimePoint)
    (half_period : milliseconds) (t : TS) (p : Z) : option bool :=
  let period_sum := ts_sum t (now - p * half_period) (now - (p - 2) * half_period) in
  let period_count :=
    ts_count t (now - p * half_period) (now - (p - 2) * half_period) in
  if period_sum >=? max_queue_stall_duration_ m then
    avg ← duration_div period_sum period_count;
    Some (quotient_ge avg (max_queue_stalls_avg_ m))
  else Some false.

(** The predicate given to count_if (lines 93-110). *)
Fixpoint overloaded_loop (m : ServerHealthMonitor) (now : TimePoint)
    (half_period : milliseconds) (t : TS) (ps : list Z) : option bool :=
  match ps with
  | [] => Some false
  | p :: ps' =>
      b ← overloaded_period m now half_period t p;
      if b : bool then Some true
      else overloaded_loop m now half_period t ps'
  end.

Definition overloaded_worker (m : ServerHealthMonitor) (now : TimePoint)
    (half_period : milliseconds) (t : TS) : option bool :=
  overloaded_loop m now half_period t periods.

Definition isOverloaded (now : TimePoint) (half_period : milliseconds)
    (m : ServerHealthMonitor) : option bool :=
  let v := worker_queue_stalls_ (internal_info_ m) in
  n ← count_if (overloaded_worker m now half_period) (data v);
  Some (double_ge (double_of_nat n)
          (PrimFloat.mul (max_overloaded_worker_percentage_ m)
                         (double_of_nat (capacity v)))).

(** *** isStalled (lines 114-150) *)

(** The test of one period (lines 131-137), and, when it holds, whether
    the stall is critical (line 142). *)
Definition stalled_period (m : ServerHealthMonitor) (now : TimePoint)
    (half_period : milliseconds) (t : TS) (p : Z) : option (bool * bool) :=
  let period_sum := ts_sum t (now - p * half_period) (now - (p - 2) * half_period) in
  let period_count :=
    ts_count t (now - p * half_period) (now - (p - 2) * half_period) in
  if (0 <? period_count)%N then
    avg ← duration_div period_sum period_count;
    if quotient_ge avg (max_stalls_avg_ m) then
      avg' ← duration_div period_sum period_count;
      Some (true, quotient_ge avg' (sleep_period_ m))
    else Some (false, false)
  else Some (false, false).

(** The predicate given to count_if (lines 124-146); it adds to
    info.critically_stalled_, which it holds by reference. *)
Fixpoint stalled_loop (m : ServerHealthMonitor) (now : TimePoint)
    (half_period : milliseconds) (t : TS) (ps : list Z)
    (critically_stalled : Z) : option (bool * Z) :=
  match ps with
  | [] => Some (false, critically_stalled)
  | p :: ps' =>
      r ← stalled_period m now half_period t p;
      if r.1 : bool
      then Some (true, critically_stalled + (if r.2 : bool then 1 else 0))
      else stalled_loop m now half_period t ps' critically_stalled
  end.

Definition stalled_worker (m : ServerHealthMonitor) (now : TimePoint)
    (half_period : milliseconds) (t : TS) (critically_stalled : Z)
  : option (bool * Z) :=
  stalled_loop m now half_period t periods critically_stalled.

(** count_if over the workers, threading info.critically_stalled_. *)
Fixpoint count_stalled (m : ServerHealthMonitor) (now : TimePoint)
    (half_period : milliseconds) (l : list TS) (critically_stalled : Z)
  : option (nat * Z) :=
  match l with
  | [] => Some (O, critically_stalled)
  | t :: l' =>
      r ← stalled_worker m now half_period t critically_stalled;
      r' ← count_stalled m now half_period l' r.2;
      Some (if r.1 : bool then S r'.1 else r'.1, r'.2)
  end.

Definition isStalled (now : TimePoint) (half_period : milliseconds)
    (m : ServerHealthMonitor) : option StallInfo :=
  let v := worker_stalls_ (internal_info_ m) in
  r ← count_stalled m now half_period (data v) 0;
  Some {| critically_stalled_ := r.2;
          stalled_ :=
            double_ge (double_of_nat r.1)
              (PrimFloat.mul (max_stalled_worker_percentage_ m)
                             (double_of_nat (capacity v))) |}.

(** *** calculateNegativeSignal (lines 151-168) *)

(** state_timer_.negativeFeedback(); state_timer_.positiveFeedback(now). *)
Definition feedback (now : TimePoint) (t : Timer) : Timer :=
  positiveFeedback (negativeFeedback t) now.

Definition negative_signal (m : ServerHealthMonitor) : bool :=
  health_monitor_delay_ (internal_info_ m)
  || watchdog_delay_ (internal_info_ m)
  || (0 <? total_stalled_workers (internal_info_ m))
  || stalled_ (stall_info_ m).

Definition calculateNegativeSignal (now : TimePoint) (m : ServerHealthMonitor)
  : option ServerHealthMonitor :=
  let half_period := sleep_period_ m ÷ 2 in
  stall_info ← isStalled now half_period m;
  overloaded ← isOverloaded now half_period m;
  let m := with_signal stall_info overloaded m in
  let m :=
    stat_add add_stall_indicator (if stalled_ (stall_info_ m) then 1 else 0) m in
  let m :=
    stat_add add_overload_indicator (if overloaded_ m then 1 else 0) m in
  let m :=
    if negative_signal m
    then with_timer (feedback now (state_timer_ m)) m else m in
  let m :=
    if 0 <? critically_stalled_ (stall_info_ m)
    then with_timer (feedback now (state_timer_ m)) m else m in
  Some m.

(** *** processReports (lines 170-182); [now] is SteadyTimestamp::now() *)
Definition processReports (now : TimePoint) (m : ServerHealthMonitor)
  : option ServerHealthMonitor :=
  let m := updateVariables now m in
  m ← calculateNegativeSignal now m;
  let m :=
    with_node_state
      (if sleep_period_ m <? getCurrentValue (state_timer_ m) then UNHEALTHY
       else if overloaded_ m then OVERLOADED else HEALTHY) m in
  Some (if node_state_ m is HEALTHY
        then stat_add add_state_indicator 1 m else m).

(** *** startUp and monitorLoop (lines 51-76)

    [monitorLoop] records the entry time; [wake] is the continuation that
    runs after the sleep, given the clock readings it takes.  Its boolean
    result tells whether the loop goes on. *)
Definition monitorLoop (now : TimePoint) (m : ServerHealthMonitor)
  : ServerHealthMonitor :=
  with_last_entry_time now m.

Definition startUp (now now' : TimePoint) (m : ServerHealthMonitor)
  : ServerHealthMonitor :=
  monitorLoop now' (updateVariables now m).

Definition wake (now_wake now_reports now_loop : TimePoint)
    (m : ServerHealthMonitor) : option (ServerHealthMonitor * bool) :=
  let m := stat_add add_num_loops 1 m in
  if shutdown_ m then Some (m, false)
  else
    let loop_entry_delay := now_wake - last_entry_time_ m in
    let i := internal_info_ m in
    let i :=
      {| num_workers_ := num_workers_ i;
         worker_stalls_ := worker_stalls_ i;
         worker_queue_stalls_ := worker_queue_stalls_ i;
         watchdog_delay_ := watchdog_delay_ i;
         total_stalled_workers := total_stalled_workers i;
         health_monitor_delay_ :=
           kMaxLoopStall <? loop_entry_delay - sleep_period_ m |} in
    m ← processReports now_reports (with_info i m);
    Some (monitorLoop now_loop m, true).

(** The monitor's vectors are as the constructor made them: one series
    per worker, and no spare capacity. *)
Definition wf (m : ServerHealthMonitor) : Prop :=
  let i := internal_info_ m in
  num_workers_ i = Z.of_nat (capacity (worker_stalls_ i))
  ∧ num_workers_ i = Z.of_nat (capacity (worker_queue_stalls_ i))
  ∧ length (data (worker_stalls_ i)) = capacity (worker_stalls_ i)
  ∧ length (data (worker_queue_stalls_ i)) = capacity (worker_queue_stalls_ i).

(** *** The report methods (lines 189-238)

    Each one returns at once after shutdown; otherwise it runs its closure
    on the monitor's executor.  Indexing a vector beyond its size is
    undefined. *)
Definition set_queue_stalls (v : vector TS) (i : InternalInfo) : InternalInfo :=
  {| num_workers_ := num_workers_ i;
     worker_stalls_ := worker_stalls_ i;
     worker_queue_stalls_ := v;
     watchdog_delay_ := watchdog_delay_ i;
     total_stalled_workers := total_stalled_workers i;
     health_monitor_delay_ := health_monitor_delay_ i |}.

Definition set_stalls (v : vector TS) (i : InternalInfo) : InternalInfo :=
  {| num_workers_ := num_workers_ i;
     worker_stalls_ := v;
     worker_queue_stalls_ := worker_queue_stalls_ i;
     watchdog_delay_ := watchdog_delay_ i;
     total_stalled_workers := total_stalled_workers i;
     health_monitor_delay_ := health_monitor_delay_ i |}.

Definition add_at (idx : Z) (tp : TimePoint) (duration : milliseconds)
    (v : vector TS) : option (vector TS) :=
  if (0 <=? idx) && (idx <? Z.of_nat (capacity v)) then
    t ← data v !! Z.to_nat idx;
    Some {| data := <[Z.to_nat idx := ts_addValue t tp duration]> (data v);
            capacity := capacity v |}
  else Some v.

Definition reportWatchdogHealth (delayed : bool) (m : ServerHealthMonitor)
  : ServerHealthMonitor :=
  if shutdown_ m then m
  else
    let i := internal_info_ m in
    let w := watchdog_delay_ i in
    let w := if delayed && negb w then delayed else w in
    let w := if negb delayed && w then delayed else w in
    with_info
      {| num_workers_ := num_workers_ i;
         worker_stalls_ := worker_stalls_ i;
         worker_queue_stalls_ := worker_queue_stalls_ i;
         watchdog_delay_ := w;
         total_stalled_workers := total_stalled_workers i;
         health_monitor_delay_ := health_monitor_delay_ i |} m.

Definition reportStalledWorkers (num_stalled : Z) (m : ServerHealthMonitor)
  : ServerHealthMonitor :=
  if shutdown_ m then m
  else
    let i := internal_info_ m in
    with_info
      {| num_workers_ := num_workers_ i;
         worker_stalls_ := worker_stalls_ i;
         worker_queue_stalls_ := worker_queue_stalls_ i;
         watchdog_delay_ := watchdog_delay_ i;
         total_stalled_workers := num_stalled;
         health_monitor_delay_ := health_monitor_delay_ i |} m.

Definition reportWorkerQueueStall (idx : Z) (tp : TimePoint)
    (duration : milliseconds) (m : ServerHealthMonitor)
  : option ServerHealthMonitor :=
  if shutdown_ m then Some m
  else
    v ← add_at idx tp duration (worker_queue_stalls_ (internal_info_ m));
    Some (with_info (set_queue_stalls v (internal_info_ m)) m).

Definition reportWorkerStall (idx : Z) (tp : TimePoint)
    (duration : milliseconds) (m : ServerHealthMonitor)
  : option ServerHealthMonitor :=
  if shutdown_ m then Some m
  else
    v ← add_at idx tp duration (worker_stalls_ (internal_info_ m));
    Some (with_info (set_stalls v (internal_info_ m)) m).

(** *** The window evaluator, in the words of the design document

    For [p] in [2, 2 * period_range], the window of period [p] is
    [now - p * half_period, now - (p - 2) * half_period]. *)
Definition in_periods (p : Z) : Prop := 2 ≤ p ≤ 2 * kPeriodRange.

Definition window_sum (now : TimePoint) (half_period : milliseconds) (t : TS)
    (p : Z) : milliseconds :=
  ts_sum t (now - p * half_period) (now - (p - 2) * half_period).

Definition window_count (now : TimePoint) (half_period : milliseconds)
    (t : TS) (p : Z) : N :=
  ts_count t (now - p * half_period) (now - (p - 2) * half_period).

(** The predicates below take the reading [ge] of "sum / count >= d":
    [avg_ge] or [avg_ge_uint64]. *)

(** count > 0 and sum / count >= max_stalls_avg *)
Definition stall_predicate (ge : milliseconds → N → milliseconds → Prop)
    (m : ServerHealthMonitor) (now : TimePoint)
    (half_period : milliseconds) (t : TS) (p : Z) : Prop :=
  (0 < window_count now half_period t p)%N
  ∧ ge (window_sum now half_period t p) (window_count now half_period t p)
       (max_stalls_avg_ m).

Definition Stalled (ge : milliseconds → N → milliseconds → Prop)
    (m : ServerHealthMonitor) (now : TimePoint)
    (half_period : milliseconds) (t : TS) : Prop :=
  ∃ p, in_periods p ∧ stall_predicate ge m now half_period t p.

(** A stalled worker is critically stalled when a window that makes it
    count as stalled also has sum / count >= sleep_period. *)
Definition CriticallyStalled (ge : milliseconds → N → milliseconds → Prop)
    (m : ServerHealthMonitor) (now : TimePoint)
    (half_period : milliseconds) (t : TS) : Prop :=
  ∃ p, in_periods p ∧ stall_predicate ge m now half_period t p
       ∧ ge (window_sum now half_period t p)
            (window_count now half_period t p) (sleep_period_ m).

(** The same, where the window is the first one, in the order of the
    periods, that makes the worker count as stalled. *)
Definition CriticallyStalledFirst
    (ge : milliseconds → N → milliseconds → Prop)
    (m : ServerHealthMonitor) (now : TimePoint)
    (half_period : milliseconds) (t : TS) : Prop :=
  ∃ p, in_periods p ∧ stall_predicate ge m now half_period t p
       ∧ (∀ p', in_periods p' → p' < p →
                ¬ stall_predicate ge m now half_period t p')
       ∧ ge (window_sum now half_period t p)
            (window_count now half_period t p) (sleep_period_ m).

(** sum >= max_queue_stall_duration and sum / count >= max_queue_stalls_avg *)
Definition overload_predicate (ge : milliseconds → N → milliseconds → Prop)
    (m : ServerHealthMonitor) (now : TimePoint)
    (half_period : milliseconds) (t : TS) (p : Z) : Prop :=
  max_queue_stall_duration_ m ≤ window_sum now half_period t p
  ∧ ge (window_sum now half_period t p) (window_count now half_period t p)
       (max_queue_stalls_avg_ m).

Definition Overloaded (ge : milliseconds → N → milliseconds → Prop)
    (m : ServerHealthMonitor) (now : TimePoint)
    (half_period : milliseconds) (t : TS) : Prop :=
  ∃ p, in_periods p ∧ overload_predicate ge m now half_period t p.

(** The windows of a series hold non-negative sums. *)
Definition non_negative_windows (now : TimePoint)
    (half_period : milliseconds) (t : TS) : Prop :=
  ∀ p, in_periods p → non_negative (window_sum now half_period t p).

(** A window in which the division of isOverloaded has a zero divisor. *)
Definition division_by_zero (m : ServerHealthMonitor) (now : TimePoint)
    (half_period : milliseconds) (t : TS) (p : Z) : Prop :=
  max_queue_stall_duration_ m ≤ window_sum now half_period t p
  ∧ window_count now half_period t p = 0%N.

(** A window without samples has a zero sum. *)
Definition empty_window_sums_to_zero (t : TS) : Prop :=
  ∀ a b : TimePoint, ts_count t a b = 0%N → ts_sum t a b = 0.

(** *** shutdown (lines 184-187), and the calls of a monitor in sequence *)
Definition shutdown (m : ServerHealthMonitor) : ServerHealthMonitor :=
  {| sleep_period_ := sleep_period_ m; stats_ := stats_ m;
     max_queue_stalls_avg_ := max_queue_stalls_avg_ m;
     max_queue_stall_duration_ := max_queue_stall_duration_ m;
     max_overloaded_worker_percentage_ := max_overloaded_worker_percentage_ m;
     max_stalls_avg_ := max_stalls_avg_ m;
     max_stalled_worker_percentage_ := max_stalled_worker_percentage_ m;
     state_timer_ := state_timer_ m; internal_info_ := internal_info_ m;
     stall_info_ := stall_info_ m; overloaded_ := overloaded_ m;
     node_state_ := node_state_ m; shutdown_ := true;
     last_entry_time_ := last_entry_time_ m |}.

(** What runs on the monitor: the closures of the report methods, the
    continuation of the loop, startUp and shutdown, with the clock
    readings they take. *)
Inductive Call : Type :=
| call_startUp (now now' : TimePoint)
| call_wake (now_wake now_reports now_loop : TimePoint)
| call_reportWatchdogHealth (delayed : bool)
| call_reportStalledWorkers (num_stalled : Z)
| call_reportWorkerQueueStall (idx : Z) (tp : TimePoint)
    (duration : milliseconds)
| call_reportWorkerStall (idx : Z) (tp : TimePoint) (duration : milliseconds)
| call_shutdown.

Definition call (c : Call) (m : ServerHealthMonitor)
  : option ServerHealthMonitor :=
  match c with
  | call_startUp now now' => Some (startUp now now' m)
  | call_wake now_wake now_reports now_loop =>
      fst <$> wake now_wake now_reports now_loop m
  | call_reportWatchdogHealth delayed => Some (reportWatchdogHealth delayed m)
  | call_reportStalledWorkers n => Some (reportStalledWorkers n m)
  | call_reportWorkerQueueStall idx tp d => reportWorkerQueueStall idx tp d m
  | call_reportWorkerStall idx tp d => reportWorkerStall idx tp d m
  | call_shutdown => Some (shutdown m)
  end.

Fixpoint calls (cs : list Call) (m : ServerHealthMonitor)
  : option ServerHealthMonitor :=
  match cs with
  | [] => Some m
  | c :: cs' => m' ← call c m; calls cs' m'
  end.

Definition is_wake (c : Call) : bool :=
  match c with call_wake _ _ _ => true | _ => false end.

Definition is_startUp (c : Call) : bool :=
  match c with call_startUp _ _ => true | _ => false end.

(** The settings that the constructor takes, and the sizes of the two
    vectors with the number of workers. *)
Definition settings (m : ServerHealthMonitor)
  : milliseconds * milliseconds * milliseconds * float * milliseconds * float :=
  (sleep_period_ m, max_queue_stalls_avg_ m, max_queue_stall_duration_ m,
   max_overloaded_worker_percentage_ m, max_stalls_avg_ m,
   max_stalled_worker_percentage_ m).

Definition sizes (m : ServerHealthMonitor) : Z * (nat * nat) * (nat * nat) :=
  let i := internal_info_ m in
  (num_workers_ i,
   (length (data (worker_stalls_ i)), capacity (worker_stalls_ i)),
   (length (data (worker_queue_stalls_ i)),
    capacity (worker_queue_stalls_ i))).

End Monitor.

(** [counts P l n]: exactly [n] elements of [l] satisfy [P]. *)
Inductive counts {A : Type} (P : A → Prop) : list A → nat → Prop :=
| counts_nil : counts P [] O
| counts_yes x l n : P x → counts P l n → counts P (x :: l) (S n)
| counts_no x l n : ¬ P x → counts P l n → counts P (x :: l) n.

End HealthMonitor.

(* ================================================================== *)
(** ** Instances on which the model runs

    The parts declared outside the two files, filled in so that the
    definitions above can be evaluated on examples. *)

Module Examples.

(** An instance of the client library's translation of return codes. *)
Definition toStatus (rc : Z) : Status :=
  if bool_decide (rc = ZOK) then OK
  else if bool_decide (rc = ZNONODE) then NOTFOUND
  else if bool_decide (rc = ZNODEEXISTS) then EXISTS
  else if bool_decide (rc = ZBADVERSION) then VERSION_MISMATCH
  else if bool_decide (rc = ZCLOSING) then SHUTDOWN
  else UNKNOWN.

Definition connected : EpochStore.ZookeeperClientBase :=
  {| EpochStore.state := ZOO_CONNECTED_STATE;
     EpochStore.getQuorum := "h1:2181,h2:2181" |}.

Definition store_with (client : EpochStore.ZookeeperClientBase)
  : EpochStore.ZookeeperEpochStore :=
  {| EpochStore.rootPath :=
       {| fs.has_root_directory := true;
          fs.elements := ["logdevice"; "c1"; "logs"] |};
     EpochStore.zk_create_root_znodes := true;
     EpochStore.zkclient_ := client;
     EpochStore.stats_ := true |}.

Definition store : EpochStore.ZookeeperEpochStore := store_with connected.

Definition expired_store : EpochStore.ZookeeperEpochStore :=
  store_with {| EpochStore.state := ZOO_EXPIRED_SESSION_STATE;
                EpochStore.getQuorum := "h1:2181,h2:2181" |}.

Definition auth_failed_store : EpochStore.ZookeeperEpochStore :=
  store_with {| EpochStore.state := ZOO_AUTH_FAILED_STATE;
                EpochStore.getQuorum := "h1:2181,h2:2181" |}.

(** A request that, whatever it reads, writes the three bytes "5@0". *)
Definition modify_request : EpochStore.Request :=
  {| EpochStore.kind := EpochStore.SetLastCleanEpochZRQ;
     EpochStore.logid_ := 1%N;
     EpochStore.getZnodePath := "/logdevice/c1/logs/1/lce";
     EpochStore.onGotZnodeValue := λ _ _ err, (EpochStore.MODIFY, err);
     EpochStore.composeZnodeValue := λ _, (3, "5@0") |}.

(** A request that provisions its log when the znode is absent. *)
Definition provision_request : EpochStore.Request :=
  {| EpochStore.kind := EpochStore.EpochMetaDataZRQ;
     EpochStore.logid_ := 42%N;
     EpochStore.getZnodePath := "/logdevice/c1/logs/42/sequencer";
     EpochStore.onGotZnodeValue :=
       λ v _ err,
         match v with
         | None => (EpochStore.PROVISION, err)
         | Some _ => (EpochStore.STOP, UPTODATE)
         end;
     EpochStore.composeZnodeValue := λ _, (4, "1@N0") |}.

Definition request_for (k : EpochStore.RequestKind) (path : string)
    (logid : EpochStore.logid_t) : EpochStore.Request :=
  {| EpochStore.kind := k;
     EpochStore.logid_ := logid;
     EpochStore.getZnodePath :=
       "/logdevice/c1/logs/" +:+ EpochStore.to_string logid +:+ "/" +:+ path;
     EpochStore.onGotZnodeValue := λ _ _ err, (EpochStore.STOP, OK);
     EpochStore.composeZnodeValue := λ _, (0, "") |}.

Definition new_SetLastCleanEpochZRQ (logid : EpochStore.logid_t)
    (lce : EpochStore.epoch_t) (tail : EpochStore.TailRecord)
  : EpochStore.Request :=
  request_for EpochStore.SetLastCleanEpochZRQ "lce" logid.

Definition new_EpochMetaDataZRQ (logid : EpochStore.logid_t)
    (epoch : EpochStore.epoch_t) : EpochStore.Request :=
  request_for EpochStore.EpochMetaDataZRQ "sequencer" logid.

(** A tail record that is valid and holds an offset within its epoch. *)
Definition tail_with_epoch_offset : EpochStore.TailRecord :=
  {| EpochStore.header_flags := 16%N;
     EpochStore.isValid := true;
     EpochStore.containOffsetWithinEpoch := true |}.

Definition plain_tail : EpochStore.TailRecord :=
  {| EpochStore.header_flags := 0%N;
     EpochStore.isValid := true;
     EpochStore.containOffsetWithinEpoch := false |}.

(** The largest data log id: 62 bits. *)
Definition LOGID_MAX : EpochStore.logid_t := (2 ^ 62 - 1)%N.

(** The multi-op that provisions log 42, as provisionLogZnodes leaves it in
    its callback. *)
Definition deferred : EpochStore.MultiOpState :=
  {| EpochStore.zrq := Some provision_request;
     EpochStore.operations_ := [];
     EpochStore.op_results_ := [] |}.

(** A time series that keeps its samples: the sum and the number of the
    samples whose time lies in [start, end). *)
Record SampleSeries : Type := {
  duration_ : HealthMonitor.milliseconds;
  samples : list (HealthMonitor.TimePoint * HealthMonitor.milliseconds);
}.

Definition in_range (a b : Z) (s : Z * Z) : bool := (a <=? s.1) && (s.1 <? b).

Definition samples_in (t : SampleSeries) (a b : Z) : list (Z * Z) :=
  filter (λ s, in_range a b s = true) (samples t).

#[global] Instance SampleSeries_ops : HealthMonitor.TimeSeriesOps SampleSeries :=
  {| HealthMonitor.ts_sum t a b := foldr Z.add 0 (snd <$> samples_in t a b);
     HealthMonitor.ts_count t a b := N.of_nat (length (samples_in t a b));
     HealthMonitor.ts_update t now :=
       {| duration_ := duration_ t;
          samples :=
            filter (λ s, in_range (now - duration_ t + 1) (now + 1) s = true)
                   (samples t) |};
     HealthMonitor.ts_addValue t tp v :=
       {| duration_ := duration_ t; samples := (tp, v) :: samples t |};
     HealthMonitor.ts_new _ d := {| duration_ := d; samples := [] |} |}.

(** A state timer without fuzz: doubling, up to a maximum of one minute,
    on negative feedback; decay by the elapsed time, down to the minimum,
    on positive feedback. *)
Record SimpleTimer : Type := {
  current : HealthMonitor.milliseconds;
  minimum : HealthMonitor.milliseconds;
  last_feedback : HealthMonitor.TimePoint;
}.

#[global] Instance SimpleTimer_ops : HealthMonitor.StateTimerOps SimpleTimer :=
  {| HealthMonitor.negativeFeedback t :=
       {| current := Z.min 60000 (2 * current t);
          minimum := minimum t; last_feedback := last_feedback t |};
     HealthMonitor.positiveFeedback t now :=
       {| current := Z.max (minimum t) (current t - (now - last_feedback t));
          minimum := minimum t; last_feedback := now |};
     HealthMonitor.getCurrentValue t := current t;
     HealthMonitor.timer_new lo initial :=
       {| current := initial; minimum := lo; last_feedback := 0 |} |}.

Definition Monitor : Type :=
  HealthMonitor.ServerHealthMonitor (TS := SampleSeries) (Timer := SimpleTimer).

(** Four workers, a period of 100ms; a queue is overloaded from 50ms of
    stalls that average 20ms, a worker is stalled from an average of 40ms;
    half of the workers make the node overloaded or stalled. *)
Definition fresh : option Monitor :=
  HealthMonitor.new_ServerHealthMonitor 10 3
    100 4 (Some {| HealthMonitor.health_monitor_num_loops := 0;
                   HealthMonitor.health_monitor_stall_indicator := 0;
                   HealthMonitor.health_monitor_overload_indicator := 0;
                   HealthMonitor.health_monitor_state_indicator := 0 |})
    20 50 0.5%float 40 0.5%float.

(** Workers 0 and 1 report four queue stalls of 30ms each; worker 2
    reports a stall of 120ms. *)
Definition loaded : option Monitor :=
  m ← fresh;
  m ← HealthMonitor.reportWorkerQueueStall 0 910 30 m;
  m ← HealthMonitor.reportWorkerQueueStall 0 920 30 m;
  m ← HealthMonitor.reportWorkerQueueStall 0 930 30 m;
  m ← HealthMonitor.reportWorkerQueueStall 0 940 30 m;
  m ← HealthMonitor.reportWorkerQueueStall 1 910 30 m;
  m ← HealthMonitor.reportWorkerQueueStall 1 920 30 m;
  m ← HealthMonitor.reportWorkerQueueStall 1 930 30 m;
  m ← HealthMonitor.reportWorkerQueueStall 1 940 30 m;
  HealthMonitor.reportWorkerStall 2 950 120 m.

(** Worker 0 reports a stall of 120ms and, later, one of 50ms: at time
    1000 the window of period 2 holds the later one, the windows of
    periods 3 and 4 the earlier one. *)
Definition two_stalls : option Monitor :=
  m ← fresh;
  m ← HealthMonitor.reportWorkerStall 0 860 120 m;
  HealthMonitor.reportWorkerStall 0 960 50 m.

(** The monitor of the examples; [loaded] is defined, so the monitor
    without workers is never taken. *)
Definition no_workers : Monitor :=
  {| HealthMonitor.sleep_period_ := 100;
     HealthMonitor.stats_ := None;
     HealthMonitor.max_queue_stalls_avg_ := 20;
     HealthMonitor.max_queue_stall_duration_ := 50;
     HealthMonitor.max_overloaded_worker_percentage_ := 0.5%float;
     HealthMonitor.max_stalls_avg_ := 40;
     HealthMonitor.max_stalled_worker_percentage_ := 0.5%float;
     HealthMonitor.state_timer_ := HealthMonitor.timer_new 100 100;
     HealthMonitor.internal_info_ :=
       {| HealthMonitor.num_workers_ := 0;
          HealthMonitor.worker_stalls_ := HealthMonitor.empty_vector;
          HealthMonitor.worker_queue_stalls_ := HealthMonitor.empty_vector;
          HealthMonitor.watchdog_delay_ := false;
          HealthMonitor.total_stalled_workers := 0;
          HealthMonitor.health_monitor_delay_ := false |};
     HealthMonitor.stall_info_ :=
       {| HealthMonitor.critically_stalled_ := 0;
          HealthMonitor.stalled_ := false |};
     HealthMonitor.overloaded_ := false;
     HealthMonitor.node_state_ := HealthMonitor.HEALTHY;
     HealthMonitor.shutdown_ := false;
     HealthMonitor.last_entry_time_ := 0 |}.

Definition monitor : Monitor := default no_workers loaded.

Definition two_windows : Monitor := default no_workers two_stalls.

(** The same monitor with another max_queue_stall_duration. *)
Definition with_queue_stall_duration (d : HealthMonitor.milliseconds)
    (m : Monitor) : Monitor :=
  {| HealthMonitor.sleep_period_ := HealthMonitor.sleep_period_ m;
     HealthMonitor.stats_ := HealthMonitor.stats_ m;
     HealthMonitor.max_queue_stalls_avg_ :=
       HealthMonitor.max_queue_stalls_avg_ m;
     HealthMonitor.max_queue_stall_duration_ := d;
     HealthMonitor.max_overloaded_worker_percentage_ :=
       HealthMonitor.max_overloaded_worker_percentage_ m;
     HealthMonitor.max_stalls_avg_ := HealthMonitor.max_stalls_avg_ m;
     HealthMonitor.max_stalled_worker_percentage_ :=
       HealthMonitor.max_stalled_worker_percentage_ m;
     HealthMonitor.state_timer_ := HealthMonitor.state_timer_ m;
     HealthMonitor.internal_info_ := HealthMonitor.internal_info_ m;
     HealthMonitor.stall_info_ := HealthMonitor.stall_info_ m;
     HealthMonitor.overloaded_ := HealthMonitor.overloaded_ m;
     HealthMonitor.node_state_ := HealthMonitor.node_state_ m;
     HealthMonitor.shutdown_ := HealthMonitor.shutdown_ m;
     HealthMonitor.last_entry_time_ := HealthMonitor.last_entry_time_ m |}.

(** A request whose composed value fills the whole buffer. *)
Definition oversized_request : EpochStore.Request :=
  {| EpochStore.kind := EpochStore.EpochMetaDataZRQ;
     EpochStore.logid_ := 7%N;
     EpochStore.getZnodePath := "/logdevice/c1/logs/7/sequencer";
     EpochStore.onGotZnodeValue := λ _ _ err, (EpochStore.MODIFY, err);
     EpochStore.composeZnodeValue := λ size, (size, "") |}.

(** A factory that connects to the quorum of the configuration, and one
    that fails. *)
Definition zkFactory (cfg : EpochStore.ZookeeperConfig)
  : option EpochStore.ZookeeperClientBase :=
  Some {| EpochStore.state := ZOO_CONNECTING_STATE;
          EpochStore.getQuorum := EpochStore.getQuorumString cfg |}.

Definition failing_zkFactory (cfg : EpochStore.ZookeeperConfig)
  : option EpochStore.ZookeeperClientBase := None.

Definition new_quorum : EpochStore.ZookeeperConfig :=
  {| EpochStore.getQuorumString := "h3:2181,h4:2181" |}.

(** Calls on the monitor of the examples, with kPeriodRange 2 and
    kMaxLoopStall 500ms: a report for worker 3, two iterations of the
    loop with reports between them, and shutdown. *)
Definition script : list HealthMonitor.Call :=
  [HealthMonitor.call_reportWorkerStall 3 960 10;
   HealthMonitor.call_wake 1100 1100 1101;
   HealthMonitor.call_reportWatchdogHealth true;
   HealthMonitor.call_reportWorkerQueueStall 7 1150 30;
   HealthMonitor.call_wake 1201 1201 1202;
   HealthMonitor.call_shutdown].

Definition after_script : Monitor :=
  default monitor (HealthMonitor.calls 2 500 script monitor).

Definition after_tick : Monitor :=
  default monitor (HealthMonitor.processReports 2 1000 monitor).

Definition after_wake : Monitor * bool :=
  default (monitor, false) (HealthMonitor.wake 2 500 1100 1100 1101 monitor).

(** What may be called after shutdown. *)
Definition late_script : list HealthMonitor.Call :=
  [HealthMonitor.call_wake 1300 1300 1301;
   HealthMonitor.call_reportStalledWorkers 3;
   HealthMonitor.call_reportWorkerStall 0 1310 500;
   HealthMonitor.call_wake 1400 1400 1401;
   HealthMonitor.call_shutdown].

(** The answer to a multi-op, with the shutdown flag clear. *)
Definition multi_op_done (rc : Z) : EpochStore.Response :=
  {| EpochStore.result := EpochStore.MultiOpResult rc [];
     EpochStore.err_then := OK;
     EpochStore.shutting_down_then := false |}.

End Examples.

(* ================================================================== *)
(** ** Properties of the epoch store *)

Module EpochStoreFacts.

Import EpochStore.

Lemma posted_app (l1 l2 : list Effect) : posted (l1 ++ l2) = posted l1 ++ posted l2.
Proof. unfold posted. apply omap_app. Qed.

Lemma zk_calls_app (l1 l2 : list Effect) :
  zk_calls (l1 ++ l2) = zk_calls l1 ++ zk_calls l2.
Proof.
  unfold zk_calls. induction l1 as [|e l1 IH]; [reflexivity|].
  simpl. rewrite !filter_cons, IH. destruct (decide (is_zk_call e = true)); reflexivity.
Qed.

Lemma complete_posts (st : Status) (sd : bool) (zrq : Request) :
  complete st sd zrq
  = if bool_decide (st = SHUTDOWN) && sd then [] else [PostCompletion zrq st].
Proof. unfold complete. destruct (bool_decide (st = SHUTDOWN)), sd; reflexivity. Qed.

Lemma posted_complete (st : Status) (sd : bool) (zrq : Request) :
  posted (complete st sd zrq)
  = if bool_decide (st = SHUTDOWN) && sd then [] else [st].
Proof.
  rewrite complete_posts.
  destruct (bool_decide (st = SHUTDOWN) && sd); reflexivity.
Qed.

Lemma zk_calls_complete (st : Status) (sd : bool) (zrq : Request) :
  zk_calls (complete st sd zrq) = [].
Proof.
  rewrite complete_posts.
  destruct (bool_decide (st = SHUTDOWN) && sd); reflexivity.
Qed.

(** *** Paths *)

Lemma length_append (s1 s2 : string) :
  String.length (s1 +:+ s2) = (String.length s1 + String.length s2)%nat.
Proof. induction s1 as [|c s1 IH]; simpl; [reflexivity|]. by rewrite IH. Qed.

Lemma join_cons_length (e : string) (es : list string) :
  (String.length e ≤ String.length (fs.join (e :: es)))%nat.
Proof.
  destruct es as [|e' es]; simpl; [lia|].
  rewrite length_append. lia.
Qed.

Lemma join_snoc_length (es : list string) (e : string) :
  es ≠ [] →
  String.length (fs.join (es ++ [e]))
  = (String.length (fs.join es) + 1 + String.length e)%nat.
Proof.
  induction es as [|a es IH]; [done|]. intros _.
  destruct es as [|b es].
  - simpl. rewrite !length_append. simpl. lia.
  - change (fs.join ((a :: b :: es) ++ [e]))
      with (a +:+ "/" +:+ fs.join ((b :: es) ++ [e])).
    change (fs.join (a :: b :: es)) with (a +:+ "/" +:+ fs.join (b :: es)).
    rewrite !length_append, IH by done. simpl. lia.
Qed.

Lemma string_length (p : fs.path) :
  String.length (fs.string p)
  = ((if fs.has_root_directory p then 1 else 0)
     + String.length (fs.join (fs.elements p)))%nat.
Proof.
  unfold fs.string. rewrite length_append.
  destruct (fs.has_root_directory p); reflexivity.
Qed.

(** A path with an element is not the root directory. *)
Lemma string_not_root (p : fs.path) :
  fs.wf p → fs.elements p ≠ [] → fs.string p ≠ "/".
Proof.
  unfold fs.wf. destruct p as [root [|e es]]; [done|]. simpl.
  intros Hwf _. inversion Hwf as [|? ? [Hne Hslash] _]; subst.
  destruct e as [|c e]; [done|]. simpl in Hslash.
  apply orb_false_iff in Hslash as [Hc _]. apply bool_decide_eq_false in Hc.
  unfold fs.string. simpl fs.has_root_directory. simpl fs.elements.
  destruct root.
  - intros Heq. apply (f_equal String.length) in Heq.
    rewrite length_append in Heq.
    pose proof (join_cons_length (String c e) es) as Hlen.
    simpl in Heq, Hlen. lia.
  - destruct es as [|e' es]; simpl; intros Heq; inversion Heq; done.
Qed.

Lemma prefix_all (p : fs.path) : fs.prefix p (length (fs.elements p)) = p.
Proof. destruct p as [root es]. unfold fs.prefix. simpl. by rewrite firstn_all. Qed.

Lemma prefix_wf (p : fs.path) (k : nat) : fs.wf p → fs.wf (fs.prefix p k).
Proof. unfold fs.wf. simpl. apply Forall_take. Qed.

Lemma parent_path_prefix (p : fs.path) (k : nat) :
  (k < length (fs.elements p))%nat →
  fs.parent_path (fs.prefix p (S k)) = fs.prefix p k.
Proof.
  intros Hk. unfold fs.parent_path, fs.prefix.
  cbn [fs.elements fs.has_root_directory].
  rewrite removelast_firstn by exact Hk.
  destruct (fs.elements p) as [|e es]; [simpl in Hk; lia|reflexivity].
Qed.

Lemma lineage_lookup (p : fs.path) (i : nat) :
  (i < length (fs.elements p))%nat →
  fs.lineage p !! i = Some (fs.prefix p (S i)).
Proof.
  intros Hi. unfold fs.lineage.
  rewrite list_lookup_fmap, lookup_seq_lt by done. reflexivity.
Qed.

Lemma lineage_length (p : fs.path) :
  length (fs.lineage p) = length (fs.elements p).
Proof. unfold fs.lineage. by rewrite length_fmap, length_seq. Qed.

(** Deeper paths of a lineage have longer strings. *)
Lemma lineage_string_length (p : fs.path) (j k : nat) :
  (j < k)%nat → (k < length (fs.elements p))%nat →
  (String.length (fs.string (fs.prefix p (S j)))
   < String.length (fs.string (fs.prefix p (S k))))%nat.
Proof.
  intros Hjk Hk. induction Hjk as [|k Hjk IH].
  - rewrite !string_length. simpl.
    destruct (lookup_lt_is_Some_2 (fs.elements p) (S j)) as [e He]; [lia|].
    rewrite (take_S_r _ (S j) e He).
    rewrite join_snoc_length; [lia|].
    destruct (fs.elements p); simpl in *; [lia|done].
  - etrans; [apply IH; lia|].
    rewrite !string_length. simpl.
    destruct (lookup_lt_is_Some_2 (fs.elements p) (S k)) as [e He]; [lia|].
    rewrite (take_S_r _ (S k) e He).
    rewrite join_snoc_length; [lia|].
    destruct (fs.elements p); simpl in *; [lia|done].
Qed.

Section Facts.

Variable toStatus : Z → Status.
Variable ZNODE_VALUE_WRITE_LEN_MAX : Z.
Variable znodeName znodeNameDataLog znodeNameMetaDataLog : string.

Abbreviation zkCfStatus := (EpochStore.zkCfStatus toStatus).
Abbreviation zkOpStatus := (EpochStore.zkOpStatus toStatus).
Abbreviation postRequestCompletion := (EpochStore.postRequestCompletion toStatus).
Abbreviation provisionLogZnodes :=
  (EpochStore.provisionLogZnodes znodeName znodeNameDataLog
     znodeNameMetaDataLog).
Abbreviation onGetZnodeComplete :=
  (EpochStore.onGetZnodeComplete toStatus ZNODE_VALUE_WRITE_LEN_MAX znodeName
     znodeNameDataLog znodeNameMetaDataLog).
Abbreviation invoke :=
  (EpochStore.invoke toStatus ZNODE_VALUE_WRITE_LEN_MAX znodeName
     znodeNameDataLog znodeNameMetaDataLog).
Abbreviation rounds :=
  (EpochStore.rounds toStatus ZNODE_VALUE_WRITE_LEN_MAX znodeName
     znodeNameDataLog znodeNameMetaDataLog).

(** zkCfStatus only touches the statistics. *)
Lemma zkCfStatus_effects (rc : Z) (stats : bool) :
  posted (zkCfStatus rc stats).2 = [] ∧ zk_calls (zkCfStatus rc stats).2 = [].
Proof.
  unfold EpochStore.zkCfStatus.
  repeat case_bool_decide; destruct stats; simpl; auto.
Qed.

Lemma zkCfStatus_status (rc : Z) (stats : bool) :
  (zkCfStatus rc stats).1
  = if bool_decide (rc = ZRUNTIMEINCONSISTENCY) then FAILED
    else if bool_decide (toStatus rc = VERSION_MISMATCH) then AGAIN
    else toStatus rc.
Proof. unfold EpochStore.zkCfStatus. repeat case_bool_decide; reflexivity. Qed.

Lemma zkCfStatus_no_stats (rc : Z) (stats : bool) :
  rc ≠ ZRUNTIMEINCONSISTENCY → (zkCfStatus rc stats).2 = [].
Proof. intros ?. unfold EpochStore.zkCfStatus. repeat case_bool_decide; done. Qed.

Lemma zkCfStatus_version_mismatch (rc : Z) (stats : bool) :
  toStatus rc = VERSION_MISMATCH → rc ≠ ZRUNTIMEINCONSISTENCY →
  zkCfStatus rc stats = (AGAIN, []).
Proof. intros ??. unfold EpochStore.zkCfStatus. repeat case_bool_decide; done. Qed.

(** Every setData that onGetZnodeComplete issues completes in
    postRequestCompletion, on the request that drove the read. *)
Lemma onGetZnodeComplete_SetData self rc value stat zrq err sd path v ver cb :
  SetData path v ver cb ∈ onGetZnodeComplete self rc value stat zrq err sd →
  cb = cb_postRequestCompletion zrq.
Proof.
  unfold EpochStore.onGetZnodeComplete.
  destruct (zkCfStatus rc (stats_ self)) as [st effs] eqn:Hst.
  assert (Heffs : SetData path v ver cb ∉ effs).
  { replace effs with (zkCfStatus rc (stats_ self)).2
      by (rewrite Hst; reflexivity).
    unfold EpochStore.zkCfStatus.
    repeat case_bool_decide; destruct (stats_ self); simpl;
      rewrite ?elem_of_cons, ?elem_of_nil; intuition discriminate. }
  assert (Hcomplete : ∀ st', SetData path v ver cb ∉ complete st' sd zrq).
  { intros st'. rewrite complete_posts.
    destruct (bool_decide (st' = SHUTDOWN) && sd);
      rewrite ?elem_of_cons, ?elem_of_nil; intuition discriminate. }
  destruct (negb (bool_decide (st = OK)) && negb (bool_decide (st = NOTFOUND))).
  { rewrite elem_of_app. intros [?|?]; [done|by apply Hcomplete in H]. }
  destruct (onGotZnodeValue zrq _ _ err) as [step err'].
  destruct (composeZnodeValue zrq ZNODE_VALUE_WRITE_LEN_MAX) as [size buf].
  destruct step;
    repeat match goal with
           | |- context [if ?b then _ else _] => destruct b
           end;
    unfold EpochStore.provisionLogZnodes, runMultiOp;
    rewrite ?elem_of_app, ?elem_of_cons, ?elem_of_nil;
    intros Hin; destruct_or? Hin;
    first [ by apply Heffs in Hin
          | by apply Hcomplete in Hin
          | discriminate Hin
          | by injection Hin
          | done ].
Qed.

(** C1. The completion of a setData that the read-modify-write engine
    issued, with a return code that the client library translates to
    VERSION_MISMATCH (any code but ZRUNTIMEINCONSISTENCY, which is tested
    before the translation and is not a version mismatch), is translated
    to AGAIN by zkCfStatus, and AGAIN is what is posted to the caller,
    whatever the shutdown flag. *)
Theorem C1_lost_write_posts_AGAIN
    self rc0 value stat zrq err sd path v ver cb rc stat' err' sd' :
  SetData path v ver cb ∈ onGetZnodeComplete self rc0 value stat zrq err sd →
  toStatus rc = VERSION_MISMATCH →
  rc ≠ ZRUNTIMEINCONSISTENCY →
  (zkCfStatus rc (stats_ self)).1 = AGAIN
  ∧ (zkCfStatus rc (stats_ self)).1 ≠ FAILED
  ∧ invoke self cb (SetDataResult rc stat') err' sd'
    = Some [PostCompletion zrq AGAIN].
Proof.
  intros Hin Hvm Hrc.
  apply onGetZnodeComplete_SetData in Hin as ->.
  rewrite (zkCfStatus_version_mismatch rc _ Hvm Hrc). simpl.
  split; [reflexivity|]. split; [discriminate|].
  unfold EpochStore.postRequestCompletion.
  rewrite (zkCfStatus_version_mismatch rc _ Hvm Hrc). simpl.
  rewrite complete_posts. reflexivity.
Qed.

Lemma postRequestCompletion_posts self rc sd zrq :
  posted (postRequestCompletion self rc sd zrq)
  = (if bool_decide ((zkCfStatus rc (stats_ self)).1 = SHUTDOWN) && sd
     then [] else [(zkCfStatus rc (stats_ self)).1])
  ∧ zk_calls (postRequestCompletion self rc sd zrq) = [].
Proof.
  destruct (zkCfStatus_effects rc (stats_ self)) as [Hp Hz].
  unfold EpochStore.postRequestCompletion.
  destruct (zkCfStatus rc (stats_ self)) as [st effs]. simpl in *.
  rewrite posted_app, zk_calls_app, Hp, Hz, posted_complete,
    zk_calls_complete.
  done.
Qed.

(** The callbacks of the multi-ops either go on with one ZooKeeper call,
    or complete the request in postRequestCompletion. *)
Lemma multi_op_callbacks self cb rc results err sd effs :
  invoke self cb (MultiOpResult rc results) err sd = Some effs →
  (posted effs = [] ∧ ∃ call, zk_calls effs = [call])
  ∨ (zk_calls effs = []
     ∧ posted effs
       = if bool_decide ((zkCfStatus rc (stats_ self)).1 = SHUTDOWN) && sd
         then [] else [(zkCfStatus rc (stats_ self)).1]).
Proof.
  assert (Hrun : ∀ s effs',
            run s = Some effs' →
            posted effs' = [] ∧ ∃ call, zk_calls effs' = [call]).
  { intros s effs'. unfold run.
    destruct (zrq (deferred_multi_op_state_ s)); [|done].
    destruct (getNextPathToCreate s); [|done].
    intros [= <-]. split; [reflexivity|]. eexists. reflexivity. }
  assert (Hcf : ∀ s effs',
            createRootZnodesCF toStatus self s rc sd = Some effs' →
            (posted effs' = [] ∧ ∃ call, zk_calls effs' = [call])
            ∨ (zk_calls effs' = []
               ∧ posted effs'
                 = if bool_decide ((zkCfStatus rc (stats_ self)).1 = SHUTDOWN)
                      && sd
                   then [] else [(zkCfStatus rc (stats_ self)).1])).
  { intros s effs'. unfold createRootZnodesCF.
    destruct (zkCfStatus rc false) as [st e].
    destruct (negb (bool_decide (st = OK)) && negb (bool_decide (st = EXISTS)));
      destruct (zrq (deferred_multi_op_state_ s)) as [req|]; try done;
      intros [= <-].
    - right. destruct (postRequestCompletion_posts self rc sd req). done.
    - left. split; [reflexivity|]. eexists. reflexivity. }
  destruct (zkCfStatus_effects rc (stats_ self)) as [Hp Hz].
  destruct cb as [req|req|state|state]; simpl; try done.
  - unfold zkLogMultiCreateCF. simpl.
    destruct (zrq state) as [req|]; [|done]. simpl.
    destruct (zkCfStatus rc (stats_ self)) as [st e] eqn:Hst. simpl in *.
    destruct (bool_decide (st = NOTFOUND) && zk_create_root_znodes self).
    + unfold createRootZnodes.
      destruct (run _) as [effs'|] eqn:Heffs'; [|done].
      intros [= <-]. apply Hrun in Heffs' as [Hp' [call Hz']].
      left. rewrite posted_app, zk_calls_app, Hp, Hz, Hp', Hz'. eauto.
    + intros [= <-]. right.
      destruct (postRequestCompletion_posts self rc sd req) as [Hp' Hz'].
      rewrite Hst in Hp'. simpl in Hp'.
      rewrite posted_app, zk_calls_app, Hp, Hz, Hp', Hz'. done.
  - unfold multiOpCF.
    destruct (zkCfStatus rc false) as [st e].
    destruct (bool_decide (st = OK) || bool_decide (st = EXISTS));
      [|apply Hcf].
    destruct (negb (bool_decide (paths_to_create_ (pop _) = [])));
      [|apply Hcf].
    intros Heffs. left. by apply Hrun in Heffs.
Qed.

(** C6. A completion is dropped exactly when its status is SHUTDOWN and
    the shutdown flag of the epoch store is read as set.
    postRequestCompletion posts the translated status in every other
    case.  onGetZnodeComplete either goes on with one ZooKeeper call and
    posts nothing yet, or ends with a status (the translated return code
    when it is neither OK nor NOTFOUND, the request's error after STOP or
    FAILED, INTERNAL for a composed value out of bounds), which it posts
    under the same rule.  The callbacks of the multi-ops either go on
    with one ZooKeeper call, or post the translated status under the same
    rule. *)
Theorem C6_completion_dropped_only_on_shutdown
    self rc value stat zrq err sd :
  (let st := (zkCfStatus rc (stats_ self)).1 in
   posted (postRequestCompletion self rc sd zrq)
   = if bool_decide (st = SHUTDOWN) && sd then [] else [st])
  ∧ (let effs := onGetZnodeComplete self rc value stat zrq err sd in
     let st0 := (zkCfStatus rc (stats_ self)).1 in
     let v := if bool_decide (st0 = NOTFOUND) then None else Some value in
     let r := onGotZnodeValue zrq v (String.length value) err in
     (posted effs = [] ∧ ∃ call, zk_calls effs = [call])
     ∨ (zk_calls effs = []
        ∧ ∃ st,
            posted effs = (if bool_decide (st = SHUTDOWN) && sd then [] else [st])
            ∧ ((st = st0 ∧ st0 ≠ OK ∧ st0 ≠ NOTFOUND)
               ∨ (st = r.2 ∧ (r.1 = STOP ∨ r.1 = STEP_FAILED))
               ∨ st = INTERNAL)))
  ∧ (∀ (cb : Callback) (results : list OpResponse) (effs : list Effect),
       invoke self cb (MultiOpResult rc results) err sd = Some effs →
       let st := (zkCfStatus rc (stats_ self)).1 in
       (posted effs = [] ∧ ∃ call, zk_calls effs = [call])
       ∨ (zk_calls effs = []
          ∧ posted effs
            = if bool_decide (st = SHUTDOWN) && sd then [] else [st])).
Proof.
  destruct (zkCfStatus_effects rc (stats_ self)) as [Hp Hz].
  split; [|split].
  - apply postRequestCompletion_posts.
  - simpl. unfold EpochStore.onGetZnodeComplete.
    destruct (zkCfStatus rc (stats_ self)) as [st effs]. simpl in *.
    destruct (bool_decide (st = OK)) eqn:HOK;
      destruct (bool_decide (st = NOTFOUND)) eqn:HNF; simpl.
    4: { right. rewrite zk_calls_app, Hz, zk_calls_complete, posted_app, Hp,
           posted_complete.
         split; [reflexivity|]. exists st. split; [reflexivity|]. left.
         apply bool_decide_eq_false in HOK, HNF. done. }
    all: destruct (onGotZnodeValue zrq _ _ err) as [step err'] eqn:Hstep;
      simpl;
      destruct (composeZnodeValue zrq ZNODE_VALUE_WRITE_LEN_MAX)
        as [size buf];
      destruct step;
      repeat match goal with
             | |- context [if ?b || ?c then _ else _] => destruct (b || c)
             end;
      rewrite ?zk_calls_app, ?posted_app, ?Hz, ?Hp, ?zk_calls_complete,
        ?posted_complete; simpl;
      first
        [ left; split; [reflexivity|]; eexists; reflexivity
        | right; split; [reflexivity|]; exists INTERNAL;
          split; [reflexivity|]; auto
        | right; split; [reflexivity|]; eexists; split; [reflexivity|];
          simpl; auto ].
  - intros cb results effs Heffs. simpl.
    by apply (multi_op_callbacks self cb rc results err sd).
Qed.

(** C7 (amended). setLastCleanEpoch rejects a tail record that is not
    valid or that holds an offset within its epoch: it returns -1 with err
    set to INVALID_PARAM and issues no ZooKeeper call.  For a tail record
    that is valid and holds no offset within its epoch it returns 0,
    leaves err alone and issues the getData of the request. *)
Theorem C7_setLastCleanEpoch_guard
    (new_SetLastCleanEpochZRQ : logid_t → epoch_t → TailRecord → Request)
    logid lce tail err :
  let r := setLastCleanEpoch new_SetLastCleanEpochZRQ logid lce tail err in
  let req := new_SetLastCleanEpochZRQ logid lce tail in
  (isValid tail = false ∨ containOffsetWithinEpoch tail = true →
   rv r = -1 ∧ err_after r = INVALID_PARAM ∧ effects r = [])
  ∧ (isValid tail = true ∧ containOffsetWithinEpoch tail = false →
     rv r = 0 ∧ err_after r = err
     ∧ effects r = [GetData (getZnodePath req) (cb_onGetZnodeComplete req)]).
Proof.
  simpl. unfold setLastCleanEpoch.
  split.
  - intros [-> | ->]; simpl; rewrite ?orb_true_r; auto.
  - intros [-> ->]. simpl. auto.
Qed.

(** C8 (amended). createOrUpdateMetaData rejects the log id INVALID (0)
    and every log id above MAX: it returns -1 with err set to
    INVALID_PARAM and issues nothing.  For every log id above INVALID and
    up to MAX, MAX included, it returns 0 and issues the getData of the
    request. *)
Theorem C8_createOrUpdateMetaData_guard
    (LOGID_MAX : logid_t) (new_EpochMetaDataZRQ : logid_t → epoch_t → Request)
    logid err :
  let r := createOrUpdateMetaData LOGID_MAX new_EpochMetaDataZRQ logid err in
  let req := new_EpochMetaDataZRQ logid EPOCH_INVALID in
  (logid = LOGID_INVALID ∨ (LOGID_MAX < logid)%N →
   rv r = -1 ∧ err_after r = INVALID_PARAM ∧ effects r = [])
  ∧ ((LOGID_INVALID < logid)%N ∧ (logid ≤ LOGID_MAX)%N →
     rv r = 0 ∧ err_after r = err
     ∧ effects r = [GetData (getZnodePath req) (cb_onGetZnodeComplete req)]).
Proof.
  simpl. unfold createOrUpdateMetaData, LOGID_INVALID.
  split.
  - intros [-> | Hlt].
    + simpl. auto.
    + apply N.ltb_lt in Hlt. rewrite Hlt, orb_true_r. auto.
  - intros [Hpos Hle].
    apply N.leb_gt in Hpos. rewrite Hpos.
    apply N.ltb_ge in Hle. rewrite Hle. simpl. auto.
Qed.

(** C9 (amended). zkOpStatus maps ZBADARGUMENTS to INTERNAL and
    ZINVALIDSTATE by the current session state: NOTCONN when the session
    has expired, ACCESS when authentication failed, FAILED otherwise.  The
    read-modify-write path does not apply it.  onGetZnodeComplete and
    postRequestCompletion translate with zkCfStatus, which maps
    ZRUNTIMEINCONSISTENCY to FAILED, a code that the client library
    translates to VERSION_MISMATCH to AGAIN, and every other code,
    ZINVALIDSTATE and ZBADARGUMENTS among them, as the client library
    does; what they do is the same for two stores that differ in their
    client only. *)
Theorem C9_status_translations
    self self' rc value stat zrq err sd :
  rootPath self' = rootPath self →
  zk_create_root_znodes self' = zk_create_root_znodes self →
  stats_ self' = stats_ self →
  zkOpStatus self ZBADARGUMENTS = INTERNAL
  ∧ zkOpStatus self ZINVALIDSTATE
    = (if bool_decide (state (zkclient_ self) = ZOO_EXPIRED_SESSION_STATE)
       then NOTCONN
       else if bool_decide (state (zkclient_ self) = ZOO_AUTH_FAILED_STATE)
       then ACCESS else FAILED)
  ∧ (zkCfStatus rc (stats_ self)).1
    = (if bool_decide (rc = ZRUNTIMEINCONSISTENCY) then FAILED
       else if bool_decide (toStatus rc = VERSION_MISMATCH) then AGAIN
       else toStatus rc)
  ∧ onGetZnodeComplete self' rc value stat zrq err sd
    = onGetZnodeComplete self rc value stat zrq err sd
  ∧ postRequestCompletion self' rc sd zrq
    = postRequestCompletion self rc sd zrq.
Proof.
  intros Hroot Hcreate Hstats.
  split; [reflexivity|]. split; [reflexivity|].
  split; [apply zkCfStatus_status|].
  unfold EpochStore.onGetZnodeComplete, EpochStore.postRequestCompletion,
    EpochStore.provisionLogZnodes, znodePathForLog.
  rewrite Hroot, Hstats. split; reflexivity.
Qed.

(** *** The root-creation machine *)

(** The creation that a return code completes is taken as done: the
    status is OK or EXISTS. *)
Abbreviation creation_ok rc :=
  ((zkCfStatus rc false).1 = OK ∨ (zkCfStatus rc false).1 = EXISTS).

(** The loop of the constructor, started on the first [k] elements of a
    path, pushes the strings of their lineage, the deepest first. *)
Lemma enumerate_parents_prefix (p : fs.path) (k : nat) :
  fs.wf p → (k ≤ length (fs.elements p))%nat →
  ∀ (fuel : nat) (stack : list string), (k < fuel)%nat →
    enumerate_parents fuel (fs.prefix p k) stack
    = ((λ j : nat, fs.string (fs.prefix p (S j))) <$> seq 0 k) ++ stack.
Proof.
  intros Hwf. induction k as [|k IH]; intros Hk fuel stack Hfuel.
  - destruct fuel as [|fuel]; [lia|].
    destruct p as [[] es]; reflexivity.
  - destruct fuel as [|fuel]; [lia|].
    cbn [enumerate_parents].
    assert (Hne : fs.elements (fs.prefix p (S k)) ≠ []).
    { simpl. destruct (fs.elements p); simpl in *; [lia|done]. }
    assert (Hempty : fs.empty (fs.prefix p (S k)) = false).
    { unfold fs.empty. rewrite (bool_decide_eq_false_2 _ Hne).
      apply andb_false_r. }
    assert (Hroot : String.eqb (fs.string (fs.prefix p (S k))) "/" = false).
    { apply String.eqb_neq, string_not_root; [by apply prefix_wf|done]. }
    rewrite Hempty, Hroot. cbn [negb andb].
    rewrite parent_path_prefix by lia.
    rewrite IH by lia.
    rewrite seq_S, fmap_app, <- app_assoc. reflexivity.
Qed.

Lemma newCreateRootsState_paths (mos : MultiOpState) (root : fs.path) :
  fs.wf root →
  paths_to_create_ (newCreateRootsState mos root)
  = fs.string <$> fs.lineage root.
Proof.
  intros Hwf. unfold newCreateRootsState, fs.lineage.
  cbn [paths_to_create_].
  pose proof (enumerate_parents_prefix root (length (fs.elements root)) Hwf
                (Nat.le_refl _) (S (length (fs.elements root))) []
                (Nat.lt_succ_diag_r _)) as H.
  rewrite prefix_all in H. rewrite H.
  rewrite app_nil_r, <- list_fmap_compose. reflexivity.
Qed.

Lemma rounds_not_in_flight self effs rcs sd :
  in_flight effs = None → rounds self effs rcs sd = [].
Proof. intros H. destruct rcs; simpl; [done|]. by rewrite H. Qed.

(** createRootZnodesCF ends the machine: what it issues is not a creation
    of a root. *)
Lemma in_flight_createRootZnodesCF self state rc sd :
  in_flight (createRootZnodesCF toStatus self state rc sd) = None.
Proof.
  unfold createRootZnodesCF, EpochStore.postRequestCompletion.
  destruct (zkCfStatus rc false) as [st e].
  destruct (negb (bool_decide (st = OK)) && negb (bool_decide (st = EXISTS)));
    destruct (zrq (deferred_multi_op_state_ state)); simpl; try reflexivity.
  unfold EpochStore.zkCfStatus.
  repeat case_bool_decide; destruct (stats_ self); simpl;
    rewrite ?complete_posts;
    repeat match goal with
           | |- context [if ?b then _ else _] => destruct b
           end; reflexivity.
Qed.

(** The rounds of a machine whose stack holds the lineage of [root] from
    its [i]-th path on: round [k] creates path [i + k] with the stack from
    that path on, and there is a next round only if the creation is
    taken as done. *)
Lemma rounds_spec self (root : fs.path) sd (rcs : list Z) :
  fs.wf root →
  ∀ (i : nat) (s : CreateRootsState) (k : nat) (r : Round),
    (i < length (fs.elements root))%nat →
    paths_to_create_ s = fs.string <$> drop i (fs.lineage root) →
    rounds self (run s) rcs sd !! k = Some r →
    (i + k < length (fs.elements root))%nat
    ∧ created r = [makeCreateOp (fs.string (fs.prefix root (S (i + k)))) ""]
    ∧ paths_to_create_ (machine r)
      = fs.string <$> drop (i + k) (fs.lineage root)
    ∧ (is_Some (rounds self (run s) rcs sd !! S k) →
       creation_ok (completion r)).
Proof.
  intros Hwf. induction rcs as [|rc rcs IH]; intros i s k r Hi Hs Hk.
  { destruct (run s); simpl in Hk; done. }
  destruct (zrq (deferred_multi_op_state_ s)) as [req|] eqn:Hreq.
  2: { assert (Hrun : run s = None) by (unfold run; by rewrite Hreq).
       rewrite Hrun, rounds_not_in_flight in Hk by done. done. }
  assert (Hdrop : drop i (fs.lineage root)
                  = fs.prefix root (S i) :: drop (S i) (fs.lineage root)).
  { apply drop_S, lineage_lookup, Hi. }
  rewrite Hdrop in Hs. simpl in Hs.
  revert Hk. unfold run at 1 2, getNextPathToCreate. rewrite Hreq, Hs.
  cbn [head mbind option_bind in_flight rounds newMultiOpState addCreateOp
       runMultiOp operations_ app].
  cbn [EpochStore.invoke deferred_multi_op_state_ paths_to_create_
       current_op_ fmap option_fmap option_map].
  unfold multiOpCF.
  destruct (zkCfStatus rc false) as [st e] eqn:Hst.
  assert (Hok : bool_decide (st = OK) || bool_decide (st = EXISTS) = true
                → creation_ok rc).
  { rewrite Hst. simpl. intros H. apply orb_true_iff in H as [H|H];
      apply bool_decide_eq_true in H; auto. }
  destruct k as [|k]; simpl.
  - intros [= <-]. simpl. rewrite Nat.add_0_r.
    split; [done|]. split; [done|]. split; [by rewrite Hdrop|].
    destruct (bool_decide (st = OK) || bool_decide (st = EXISTS));
      [auto|].
    rewrite rounds_not_in_flight by apply in_flight_createRootZnodesCF.
    intros [? ?]. done.
  - destruct (bool_decide (st = OK) || bool_decide (st = EXISTS));
      [|by rewrite rounds_not_in_flight
           by apply in_flight_createRootZnodesCF].
    cbn [pop paths_to_create_ tail].
    case_bool_decide as Hnil; cbn [negb].
    { by rewrite rounds_not_in_flight
        by apply in_flight_createRootZnodesCF. }
    intros Hk.
    assert (HSi : (S i < length (fs.elements root))%nat).
    { destruct (decide (S i < length (fs.elements root))%nat); [done|].
      rewrite drop_ge in Hnil by (rewrite lineage_length; lia). done. }
    match type of Hk with
    | rounds _ (run ?s') _ _ !! _ = _ =>
        destruct (IH (S i) s' k r HSi eq_refl Hk) as (H1 & H2 & H3 & H4)
    end.
    replace (i + S k)%nat with (S i + k)%nat by lia.
    done.
Qed.

(** C2. For a root path of at least two elements, the machine that
    createRootZnodes starts creates the ancestors from the shallowest to
    the deepest.  In its round [i] it creates the path [p] of the first
    [i + 1] elements, which is then the top of the stack.  Every proper
    ancestor of [p] (below the root directory) has left the stack, and was
    created in an earlier round whose completion was translated to OK or
    EXISTS.  When there is a next round, the creation of [p] was
    translated to OK or EXISTS, and the stack of the next round is the
    stack of this one without [p]. *)
Theorem C2_roots_created_top_down self mos rcs sd (i : nat) (r : Round) :
  fs.wf (rootPath self) →
  (2 ≤ length (fs.elements (rootPath self)))%nat →
  rounds self (createRootZnodes self mos) rcs sd !! i = Some r →
  let p := fs.prefix (rootPath self) (S i) in
  fs.lineage (rootPath self) !! i = Some p
  ∧ created r = [makeCreateOp (fs.string p) ""]
  ∧ getNextPathToCreate (machine r) = Some (fs.string p)
  ∧ (∀ q : fs.path, fs.proper_ancestor q p →
       (fs.string q ∉ paths_to_create_ (machine r))
       ∧ ∃ (j : nat) (r' : Round),
           (j < i)%nat
           ∧ rounds self (createRootZnodes self mos) rcs sd !! j = Some r'
           ∧ created r' = [makeCreateOp (fs.string q) ""]
           ∧ getNextPathToCreate (machine r') = Some (fs.string q)
           ∧ creation_ok (completion r'))
  ∧ (∀ r' : Round,
       rounds self (createRootZnodes self mos) rcs sd !! S i = Some r' →
       creation_ok (completion r)
       ∧ paths_to_create_ (machine r)
         = fs.string p :: paths_to_create_ (machine r')).
Proof.
  intros Hwf Hlen Hr p.
  set (root := rootPath self) in *.
  set (s0 := newCreateRootsState mos root).
  assert (Hs0 : paths_to_create_ s0 = fs.string <$> drop 0 (fs.lineage root))
    by (apply newCreateRootsState_paths, Hwf).
  assert (H0 : (0 < length (fs.elements root))%nat) by lia.
  assert (Hspec := λ k r, rounds_spec self root sd rcs Hwf 0 s0 k r H0 Hs0).
  change (createRootZnodes self mos) with (run s0) in *.
  destruct (Hspec i r Hr) as (Hi & Hc & Hp & Hnext). simpl in Hi, Hc, Hp.
  assert (Hdrop : drop i (fs.lineage root) = p :: drop (S i) (fs.lineage root)).
  { apply drop_S, lineage_lookup, Hi. }
  split; [by apply lineage_lookup|].
  split; [done|].
  split; [unfold getNextPathToCreate; by rewrite Hp, Hdrop|].
  split.
  - intros q (j & [Hj0 Hj] & ->).
    unfold p in Hj. simpl in Hj. rewrite length_take in Hj.
    assert (Hq : fs.prefix p j = fs.prefix root (S (pred j))).
    { unfold fs.prefix, p. simpl. rewrite take_take.
      f_equal. f_equal. lia. }
    rewrite Hq. split.
    + rewrite Hp. intros Hin.
      apply list_elem_of_fmap in Hin as (p' & Heq & Hin).
      apply list_elem_of_lookup in Hin as [k Hk].
      rewrite lookup_drop in Hk.
      assert (Hik : (i + k < length (fs.elements root))%nat).
      { rewrite <- lineage_length. by eapply lookup_lt_Some. }
      rewrite lineage_lookup in Hk by done. injection Hk as <-.
      apply (f_equal String.length) in Heq.
      pose proof (lineage_string_length root (pred j) (i + k)). lia.
    + assert (Hlt : (pred j < i)%nat) by lia.
      destruct (lookup_lt_is_Some_2 (rounds self (run s0) rcs sd) (pred j))
        as [r' Hr'].
      { apply lookup_lt_Some in Hr. lia. }
      destruct (Hspec (pred j) r' Hr') as (Hi' & Hc' & Hp' & Hnext').
      simpl in Hi', Hc', Hp'.
      exists (pred j), r'. split; [done|]. split; [done|]. split; [done|].
      split.
      * unfold getNextPathToCreate. rewrite Hp'.
        rewrite (drop_S _ (fs.prefix root (S (pred j))))
          by (by apply lineage_lookup).
        reflexivity.
      * apply Hnext'. apply lookup_lt_is_Some_2.
        apply lookup_lt_Some in Hr. lia.
  - intros r' Hr'. split; [apply Hnext; eauto|].
    destruct (Hspec (S i) r' Hr') as (_ & _ & Hp' & _). simpl in Hp'.
    by rewrite Hp, Hp', Hdrop.
Qed.

End Facts.

(** *** The properties on examples *)

(** The ancestors of /logdevice/c1/logs are created from the shallowest
    to the deepest; an ancestor that exists already is passed over. *)
Example roots_in_order :
  created
  <$> rounds Examples.toStatus 4096 "sequencer" "lce" "metadatalog_lce"
        Examples.store (createRootZnodes Examples.store Examples.deferred)
        [ZOK; ZNODEEXISTS; ZOK] false
  = [[makeCreateOp "/logdevice" ""];
     [makeCreateOp "/logdevice/c1" ""];
     [makeCreateOp "/logdevice/c1/logs" ""]].
Proof. reflexivity. Qed.

(** A failed creation ends the machine, and the deferred request is
    completed with the translated status. *)
Example roots_stop_on_failure :
  created
  <$> rounds Examples.toStatus 4096 "sequencer" "lce" "metadatalog_lce"
        Examples.store (createRootZnodes Examples.store Examples.deferred)
        [ZOK; ZCLOSING; ZOK] false
  = [[makeCreateOp "/logdevice" ""]; [makeCreateOp "/logdevice/c1" ""]]
  ∧ posted
      <$> invoke Examples.toStatus 4096 "sequencer" "lce" "metadatalog_lce"
            Examples.store
            (cb_CreateRoots_multiOpCF
               {| deferred_multi_op_state_ := Examples.deferred;
                  paths_to_create_ := ["/logdevice/c1"; "/logdevice/c1/logs"];
                  current_op_ := None |})
            (MultiOpResult ZCLOSING []) OK false
    = Some [SHUTDOWN].
Proof. split; reflexivity. Qed.

(** An absent znode makes the request provision its log: one multi-op of
    four creations. *)
Example provision_on_absent_znode :
  onGetZnodeComplete Examples.toStatus 4096 "sequencer" "lce"
    "metadatalog_lce" Examples.store ZNONODE "" {| version_ := 0 |}
    Examples.provision_request OK false
  = [MultiOp
       [makeCreateOp "/logdevice/c1/logs/42" "";
        makeCreateOp "/logdevice/c1/logs/42/sequencer" "1@N0";
        makeCreateOp "/logdevice/c1/logs/42/lce" "";
        makeCreateOp "/logdevice/c1/logs/42/metadatalog_lce" ""]
       (cb_zkLogMultiCreateCF Examples.deferred)].
Proof. reflexivity. Qed.

Lemma C1_witness :
  (EpochStore.zkCfStatus Examples.toStatus ZBADVERSION true).1 = AGAIN
  ∧ (EpochStore.zkCfStatus Examples.toStatus ZBADVERSION true).1 ≠ FAILED
  ∧ invoke Examples.toStatus 4096 "sequencer" "lce" "metadatalog_lce"
      Examples.store (cb_postRequestCompletion Examples.modify_request)
      (SetDataResult ZBADVERSION {| version_ := 8 |}) OK false
    = Some [PostCompletion Examples.modify_request AGAIN].
Proof.
  apply (C1_lost_write_posts_AGAIN Examples.toStatus 4096
           "sequencer" "lce" "metadatalog_lce"
           Examples.store ZOK "4@0" {| version_ := 7 |}
           Examples.modify_request OK false
           "/logdevice/c1/logs/1/lce" "5@0" 7).
  - vm_compute. left.
  - reflexivity.
  - discriminate.
Defined.

Lemma C2_witness :
  ∃ r : Round,
    rounds Examples.toStatus 4096 "sequencer" "lce" "metadatalog_lce"
      Examples.store (createRootZnodes Examples.store Examples.deferred)
      [ZOK; ZNODEEXISTS; ZOK] false !! 2%nat = Some r
    ∧ created r = [makeCreateOp "/logdevice/c1/logs" ""]
    ∧ getNextPathToCreate (machine r) = Some "/logdevice/c1/logs".
Proof.
  eexists. split; [reflexivity|].
  refine (let H :=
            C2_roots_created_top_down Examples.toStatus 4096
              "sequencer" "lce" "metadatalog_lce" Examples.store
              Examples.deferred [ZOK; ZNODEEXISTS; ZOK] false 2 _ _ _ eq_refl
          in conj (proj1 (proj2 H)) (proj1 (proj2 (proj2 H)))).
  - repeat constructor; discriminate.
  - simpl. lia.
Defined.

(** C7, as stated, fails: a tail record that is valid and holds an offset
    within its epoch is rejected, and no getData is issued. *)
Lemma C7_counterexample :
  isValid Examples.tail_with_epoch_offset = true
  ∧ setLastCleanEpoch Examples.new_SetLastCleanEpochZRQ 1%N 5%N
      Examples.tail_with_epoch_offset OK
    = {| rv := -1; err_after := INVALID_PARAM; effects := [] |}.
Proof. split; reflexivity. Qed.

Lemma C7_witness :
  let r :=
    setLastCleanEpoch Examples.new_SetLastCleanEpochZRQ 1%N 5%N
      Examples.plain_tail OK in
  let req := Examples.new_SetLastCleanEpochZRQ 1%N 5%N Examples.plain_tail in
  rv r = 0 ∧ err_after r = OK
  ∧ effects r = [GetData (getZnodePath req) (cb_onGetZnodeComplete req)].
Proof.
  apply (C7_setLastCleanEpoch_guard Examples.new_SetLastCleanEpochZRQ
           1%N 5%N Examples.plain_tail OK).
  split; reflexivity.
Defined.

(** C8, as stated, fails: the log id MAX is not rejected. *)
Lemma C8_counterexample :
  let req := Examples.new_EpochMetaDataZRQ Examples.LOGID_MAX EPOCH_INVALID in
  createOrUpdateMetaData Examples.LOGID_MAX Examples.new_EpochMetaDataZRQ
    Examples.LOGID_MAX OK
  = {| rv := 0; err_after := OK;
       effects := [GetData (getZnodePath req) (cb_onGetZnodeComplete req)] |}.
Proof. reflexivity. Qed.

Lemma C8_witness :
  let r :=
    createOrUpdateMetaData Examples.LOGID_MAX Examples.new_EpochMetaDataZRQ
      (Examples.LOGID_MAX + 1)%N OK in
  rv r = -1 ∧ err_after r = INVALID_PARAM ∧ effects r = [].
Proof.
  apply (C8_createOrUpdateMetaData_guard Examples.LOGID_MAX
           Examples.new_EpochMetaDataZRQ (Examples.LOGID_MAX + 1)%N OK).
  right. reflexivity.
Defined.

(** C9, as stated, fails: on the read-modify-write path the status for
    ZINVALIDSTATE is the same whether the session has expired or
    authentication has failed, so it is not NOTCONN in the one case and
    ACCESS in the other. *)
Lemma C9_counterexample :
  ¬ (posted
       (onGetZnodeComplete Examples.toStatus 4096
          "sequencer" "lce" "metadatalog_lce" Examples.expired_store
          ZINVALIDSTATE "" {| version_ := 0 |} Examples.modify_request OK false)
     = [NOTCONN]
     ∧ posted
         (onGetZnodeComplete Examples.toStatus 4096
            "sequencer" "lce" "metadatalog_lce" Examples.auth_failed_store
            ZINVALIDSTATE "" {| version_ := 0 |} Examples.modify_request OK
            false)
       = [ACCESS]).
Proof. vm_compute. intros [H _]. discriminate H. Qed.

Lemma C9_witness :
  onGetZnodeComplete Examples.toStatus 4096
    "sequencer" "lce" "metadatalog_lce" Examples.auth_failed_store
    ZINVALIDSTATE "" {| version_ := 0 |} Examples.modify_request OK false
  = onGetZnodeComplete Examples.toStatus 4096
      "sequencer" "lce" "metadatalog_lce" Examples.expired_store
      ZINVALIDSTATE "" {| version_ := 0 |} Examples.modify_request OK false.
Proof.
  apply (C9_status_translations Examples.toStatus 4096
           "sequencer" "lce" "metadatalog_lce"
           Examples.expired_store Examples.auth_failed_store
           ZINVALIDSTATE "" {| version_ := 0 |} Examples.modify_request
           OK false); reflexivity.
Defined.

End EpochStoreFacts.

(* ================================================================== *)
(** ** More properties of the epoch store *)

Module EpochStoreMore.

Import EpochStore EpochStoreFacts.

Lemma append_inv_head (s x y : string) : s +:+ x = s +:+ y → x = y.
Proof. induction s as [|c s IH]; simpl; [done|]. intros [= H]. auto. Qed.

Lemma to_string_inj (a b : N) : to_string a = to_string b → a = b.
Proof.
  unfold to_string. intros H.
  apply (f_equal NilEmpty.uint_of_string) in H.
  rewrite !NilEmpty.usu in H. injection H as H.
  apply (f_equal N.of_uint) in H.
  by rewrite !DecimalN.Unsigned.of_to in H.
Qed.

Section More.

Variable toStatus : Z → Status.
Variable ZNODE_VALUE_WRITE_LEN_MAX : Z.
Variable znodeName znodeNameDataLog znodeNameMetaDataLog : string.

Abbreviation zkCfStatus := (EpochStore.zkCfStatus toStatus).
Abbreviation postRequestCompletion := (EpochStore.postRequestCompletion toStatus).
Abbreviation zkLogMultiCreateCF := (EpochStore.zkLogMultiCreateCF toStatus).
Abbreviation onGetZnodeComplete :=
  (EpochStore.onGetZnodeComplete toStatus ZNODE_VALUE_WRITE_LEN_MAX znodeName
     znodeNameDataLog znodeNameMetaDataLog).
Abbreviation invoke :=
  (EpochStore.invoke toStatus ZNODE_VALUE_WRITE_LEN_MAX znodeName
     znodeNameDataLog znodeNameMetaDataLog).
Abbreviation rounds :=
  (EpochStore.rounds toStatus ZNODE_VALUE_WRITE_LEN_MAX znodeName
     znodeNameDataLog znodeNameMetaDataLog).
Abbreviation exec :=
  (EpochStore.exec toStatus ZNODE_VALUE_WRITE_LEN_MAX znodeName
     znodeNameDataLog znodeNameMetaDataLog).
Abbreviation creation_ok rc :=
  ((zkCfStatus rc false).1 = OK ∨ (zkCfStatus rc false).1 = EXISTS).

(** The statistics that zkCfStatus leaves are neither calls nor
    completions. *)
Lemma zkCfStatus_quiet rc stats (e : Effect) :
  e ∈ (zkCfStatus rc stats).2 →
  e = StatIncr "zookeeper_epoch_store_internal_inconsistency_error".
Proof.
  unfold EpochStore.zkCfStatus.
  repeat case_bool_decide; destruct stats; simpl;
    rewrite ?elem_of_cons, ?elem_of_nil; intuition.
Qed.

(** X1. The status that zkCfStatus returns is never VERSION_MISMATCH, so
    postRequestCompletion never posts VERSION_MISMATCH; and
    zookeeper_epoch_store_internal_inconsistency_error is incremented,
    once, exactly when the return code is ZRUNTIMEINCONSISTENCY and there
    is a StatsHolder. *)
Theorem X1_zkCfStatus_never_version_mismatch self rc stats sd zrq :
  (zkCfStatus rc stats).1 ≠ VERSION_MISMATCH
  ∧ (VERSION_MISMATCH ∉ posted (postRequestCompletion self rc sd zrq))
  ∧ (zkCfStatus rc stats).2
    = (if bool_decide (rc = ZRUNTIMEINCONSISTENCY) && stats
       then [StatIncr "zookeeper_epoch_store_internal_inconsistency_error"]
       else []).
Proof.
  assert (H : ∀ stats, (zkCfStatus rc stats).1 ≠ VERSION_MISMATCH).
  { intros stats'. rewrite zkCfStatus_status.
    repeat case_bool_decide; done. }
  split; [apply H|]. split.
  - destruct (postRequestCompletion_posts toStatus self rc sd zrq) as [-> _].
    destruct (_ && sd); [apply not_elem_of_nil|].
    rewrite list_elem_of_singleton. intros Heq. by apply (H (stats_ self)).
  - unfold EpochStore.zkCfStatus.
    repeat case_bool_decide; destruct stats; done.
Qed.

(** X2. The write of a read-modify-write is conditional on what was read:
    every setData that onGetZnodeComplete issues is on the znode path of
    the request, with the version of the stat that came with the value,
    and writes the first bytes of the composed buffer, as many as
    composeZnodeValue reported, a size within [0, ZNODE_VALUE_WRITE_LEN_MAX).
    It is issued only after the read completed with OK or NOTFOUND and the
    request asked for MODIFY, and nothing is posted with it. *)
Theorem X2_setData_on_the_version_read
    self rc value stat zrq err sd path v ver cb :
  SetData path v ver cb ∈ onGetZnodeComplete self rc value stat zrq err sd →
  let st := (zkCfStatus rc (stats_ self)).1 in
  let seen := if bool_decide (st = NOTFOUND) then None else Some value in
  let composed := composeZnodeValue zrq ZNODE_VALUE_WRITE_LEN_MAX in
  path = getZnodePath zrq
  ∧ ver = version_ stat
  ∧ v = String.substring 0 (Z.to_nat composed.1) composed.2
  ∧ 0 ≤ composed.1 < ZNODE_VALUE_WRITE_LEN_MAX
  ∧ cb = cb_postRequestCompletion zrq
  ∧ (st = OK ∨ st = NOTFOUND)
  ∧ (onGotZnodeValue zrq seen (String.length value) err).1 = MODIFY
  ∧ posted (onGetZnodeComplete self rc value stat zrq err sd) = []
  ∧ zk_calls (onGetZnodeComplete self rc value stat zrq err sd)
    = [SetData path v ver cb].
Proof.
  simpl. unfold EpochStore.onGetZnodeComplete.
  pose proof (zkCfStatus_quiet rc (stats_ self)) as Hquiet.
  destruct (zkCfStatus_effects toStatus rc (stats_ self)) as [Hp Hz].
  destruct (zkCfStatus rc (stats_ self)) as [st effs]. simpl in *.
  assert (Heffs : SetData path v ver cb ∉ effs).
  { intros Hin. by apply Hquiet in Hin. }
  assert (Hcomplete : ∀ st', SetData path v ver cb ∉ complete st' sd zrq).
  { intros st'. rewrite complete_posts.
    destruct (bool_decide (st' = SHUTDOWN) && sd);
      rewrite ?elem_of_cons, ?elem_of_nil; intuition discriminate. }
  destruct (bool_decide (st = OK)) eqn:HOK;
    destruct (bool_decide (st = NOTFOUND)) eqn:HNF; simpl.
  4: { rewrite elem_of_app. intros [?|?]; [done|by apply Hcomplete in H]. }
  all: assert (Hst : st = OK ∨ st = NOTFOUND)
         by (apply bool_decide_eq_true in HOK || apply bool_decide_eq_true in HNF;
             auto).
  all: destruct (onGotZnodeValue zrq _ _ err) as [step err'];
    destruct (composeZnodeValue zrq ZNODE_VALUE_WRITE_LEN_MAX) as [size buf];
    simpl;
    destruct step;
    try (rewrite elem_of_app; intros [?|Hin]; [done|by apply Hcomplete in Hin]);
    destruct (size <? 0) eqn:Hneg;
    destruct (size >=? ZNODE_VALUE_WRITE_LEN_MAX) eqn:Hbig; simpl;
    try (rewrite elem_of_app; intros [?|Hin]; [done|by apply Hcomplete in Hin]);
    unfold EpochStore.provisionLogZnodes, runMultiOp;
    rewrite elem_of_app, list_elem_of_singleton;
    (intros [?|Hin]; [done|]); try discriminate Hin;
    injection Hin as -> -> -> ->;
    rewrite posted_app, zk_calls_app, Hp, Hz;
    apply Z.ltb_ge in Hneg; rewrite Z.geb_leb in Hbig;
    apply Z.leb_gt in Hbig; repeat split; (done || lia).
Qed.

(** X3. A composed value whose reported size is negative, or not below
    ZNODE_VALUE_WRITE_LEN_MAX, is never written: when the read completed
    with OK or NOTFOUND and the request asked for PROVISION or MODIFY,
    onGetZnodeComplete posts INTERNAL, whatever the shutdown flag, and
    issues no ZooKeeper call. *)
Theorem X3_composed_value_out_of_bounds self rc value stat zrq err sd :
  let st := (zkCfStatus rc (stats_ self)).1 in
  let seen := if bool_decide (st = NOTFOUND) then None else Some value in
  let step := (onGotZnodeValue zrq seen (String.length value) err).1 in
  let size := (composeZnodeValue zrq ZNODE_VALUE_WRITE_LEN_MAX).1 in
  st = OK ∨ st = NOTFOUND →
  step = PROVISION ∨ step = MODIFY →
  size < 0 ∨ ZNODE_VALUE_WRITE_LEN_MAX ≤ size →
  posted (onGetZnodeComplete self rc value stat zrq err sd) = [INTERNAL]
  ∧ zk_calls (onGetZnodeComplete self rc value stat zrq err sd) = [].
Proof.
  simpl. unfold EpochStore.onGetZnodeComplete.
  destruct (zkCfStatus_effects toStatus rc (stats_ self)) as [Hp Hz].
  destruct (zkCfStatus rc (stats_ self)) as [st effs]. simpl in *.
  intros Hst Hstep Hsize.
  assert (Hgo : negb (bool_decide (st = OK)) && negb (bool_decide (st = NOTFOUND))
                = false).
  { destruct Hst as [-> | ->]; reflexivity. }
  rewrite Hgo.
  destruct (onGotZnodeValue zrq _ _ err) as [step err'].
  destruct (composeZnodeValue zrq ZNODE_VALUE_WRITE_LEN_MAX) as [size buf].
  simpl in *.
  assert (Hbad : (size <? 0) || (size >=? ZNODE_VALUE_WRITE_LEN_MAX) = true).
  { apply orb_true_iff. rewrite Z.geb_leb, Z.ltb_lt, Z.leb_le. lia. }
  destruct Hstep as [-> | ->]; rewrite Hbad;
    rewrite posted_app, zk_calls_app, Hp, Hz, posted_complete,
      zk_calls_complete; done.
Qed.

(** X4. A log is provisioned by one multi-op: every multi-op that
    onGetZnodeComplete issues creates, in this order, the znode of the log
    with an empty value, under it the epoch metadata znode with the
    composed value, and the two LCE znodes with empty values; its callback
    completes the request that drove the read.  It is issued only after
    the read completed with OK or NOTFOUND and the request asked for
    PROVISION, with a composed size within bounds, and nothing is posted
    with it. *)
Theorem X4_provision_is_one_multi_op
    self rc value stat zrq err sd ops cb :
  MultiOp ops cb ∈ onGetZnodeComplete self rc value stat zrq err sd →
  let st := (zkCfStatus rc (stats_ self)).1 in
  let seen := if bool_decide (st = NOTFOUND) then None else Some value in
  let composed := composeZnodeValue zrq ZNODE_VALUE_WRITE_LEN_MAX in
  let logroot := znodePathForLog self (logid_ zrq) in
  ops = [makeCreateOp logroot "";
         makeCreateOp (logroot +:+ "/" +:+ znodeName)
           (String.substring 0 (Z.to_nat composed.1) composed.2);
         makeCreateOp (logroot +:+ "/" +:+ znodeNameDataLog) "";
         makeCreateOp (logroot +:+ "/" +:+ znodeNameMetaDataLog) ""]
  ∧ 0 ≤ composed.1 < ZNODE_VALUE_WRITE_LEN_MAX
  ∧ owner cb = Some zrq
  ∧ (st = OK ∨ st = NOTFOUND)
  ∧ (onGotZnodeValue zrq seen (String.length value) err).1 = PROVISION
  ∧ posted (onGetZnodeComplete self rc value stat zrq err sd) = []
  ∧ zk_calls (onGetZnodeComplete self rc value stat zrq err sd)
    = [MultiOp ops cb].
Proof.
  simpl. unfold EpochStore.onGetZnodeComplete.
  pose proof (zkCfStatus_quiet rc (stats_ self)) as Hquiet.
  destruct (zkCfStatus_effects toStatus rc (stats_ self)) as [Hp Hz].
  destruct (zkCfStatus rc (stats_ self)) as [st effs]. simpl in *.
  assert (Heffs : MultiOp ops cb ∉ effs).
  { intros Hin. by apply Hquiet in Hin. }
  assert (Hcomplete : ∀ st', MultiOp ops cb ∉ complete st' sd zrq).
  { intros st'. rewrite complete_posts.
    destruct (bool_decide (st' = SHUTDOWN) && sd);
      rewrite ?elem_of_cons, ?elem_of_nil; intuition discriminate. }
  destruct (bool_decide (st = OK)) eqn:HOK;
    destruct (bool_decide (st = NOTFOUND)) eqn:HNF; simpl.
  4: { rewrite elem_of_app. intros [?|?]; [done|by apply Hcomplete in H]. }
  all: assert (Hst : st = OK ∨ st = NOTFOUND)
         by (apply bool_decide_eq_true in HOK || apply bool_decide_eq_true in HNF;
             auto).
  all: destruct (onGotZnodeValue zrq _ _ err) as [step err'];
    destruct (composeZnodeValue zrq ZNODE_VALUE_WRITE_LEN_MAX) as [size buf];
    simpl;
    destruct step;
    try (rewrite elem_of_app; intros [?|Hin]; [done|by apply Hcomplete in Hin]);
    destruct (size <? 0) eqn:Hneg;
    destruct (size >=? ZNODE_VALUE_WRITE_LEN_MAX) eqn:Hbig; simpl;
    try (rewrite elem_of_app; intros [?|Hin]; [done|by apply Hcomplete in Hin]);
    unfold EpochStore.provisionLogZnodes, runMultiOp;
    rewrite elem_of_app, list_elem_of_singleton;
    (intros [?|Hin]; [done|]); try discriminate Hin;
    injection Hin as -> ->;
    rewrite posted_app, zk_calls_app, Hp, Hz;
    apply Z.ltb_ge in Hneg; rewrite Z.geb_leb in Hbig;
    apply Z.leb_gt in Hbig; repeat split; (done || lia).
Qed.

(** X5. The creation of the root znodes starts only from a multi-create
    that failed with NOTFOUND, and only when zk_create_root_znodes is set:
    zkLogMultiCreateCF then posts nothing and issues the creation of the
    shallowest ancestor of the root path, in a multi-op whose callback
    holds the request.  In every other case it issues no call and posts
    the translated status, unless it is SHUTDOWN with the shutdown flag
    set.  Its behaviour is undefined only when the root creation starts
    on a root path without elements. *)
Theorem X5_root_creation_gate self rc state sd req :
  zrq state = Some req →
  fs.wf (rootPath self) →
  let st := (zkCfStatus rc (stats_ self)).1 in
  match zkLogMultiCreateCF self rc state sd with
  | Some effs =>
      if bool_decide (st = NOTFOUND) && zk_create_root_znodes self
      then
        fs.elements (rootPath self) ≠ []
        ∧ posted effs = []
        ∧ multi_ops effs
          = [[makeCreateOp (fs.string (fs.prefix (rootPath self) 1)) ""]]
        ∧ ∃ cb, pending effs = Some cb ∧ owner cb = Some req
      else
        zk_calls effs = []
        ∧ posted effs = (if bool_decide (st = SHUTDOWN) && sd then [] else [st])
  | None =>
      st = NOTFOUND ∧ zk_create_root_znodes self = true
      ∧ fs.elements (rootPath self) = []
  end.
Proof.
  intros Hreq Hwf. simpl. unfold EpochStore.zkLogMultiCreateCF.
  rewrite Hreq. cbn [mbind option_bind].
  destruct (zkCfStatus_effects toStatus rc (stats_ self)) as [Hp Hz].
  pose proof (postRequestCompletion_posts toStatus self rc sd req) as [Hp' Hz'].
  pose proof (zkCfStatus_no_stats toStatus rc (stats_ self)) as Hno.
  pose proof (zkCfStatus_status toStatus rc (stats_ self)) as Hstatus.
  destruct (zkCfStatus rc (stats_ self)) as [st e]. simpl in *.
  destruct (bool_decide (st = NOTFOUND) && zk_create_root_znodes self)
    eqn:Hgate.
  - apply andb_true_iff in Hgate as [Hnf Hset].
    apply bool_decide_eq_true in Hnf. rewrite Hnf in *. clear Hnf.
    assert (e = []) as ->.
    { apply Hno. intros ->. rewrite bool_decide_eq_true_2 in Hstatus; done. }
    unfold createRootZnodes, run, getNextPathToCreate.
    change (zrq (deferred_multi_op_state_
                   (newCreateRootsState state (rootPath self))))
      with (zrq state).
    rewrite Hreq. cbn [mbind option_bind].
    rewrite newCreateRootsState_paths by done.
    unfold fs.lineage.
    destruct (fs.elements (rootPath self)) as [|el els] eqn:Hels.
    + simpl. done.
    + simpl. split; [done|]. split; [reflexivity|]. split.
      * unfold fs.prefix. rewrite Hels. reflexivity.
      * eexists. split; [reflexivity|]. simpl. exact Hreq.
  - rewrite posted_app, zk_calls_app, Hp, Hz, Hp', Hz'. done.
Qed.

(** *** The root-creation machine, run to its end *)

(** An answer that completes a creation with OK or EXISTS. *)
Abbreviation created_ok r :=
  (∃ rc res, result r = MultiOpResult rc res ∧ creation_ok rc).

Abbreviation creation_of p := [makeCreateOp (fs.string p) ""].

Lemma multi_ops_app (l1 l2 : list Effect) :
  multi_ops (l1 ++ l2) = multi_ops l1 ++ multi_ops l2.
Proof. unfold multi_ops. apply omap_app. Qed.

Lemma pending_of_completion self rc sd req :
  pending (postRequestCompletion self rc sd req) = None.
Proof.
  unfold pending.
  by destruct (postRequestCompletion_posts toStatus self rc sd req) as [_ ->].
Qed.

Lemma exec_end self effs rs : pending effs = None → exec self effs rs = effs.
Proof.
  intros H. destruct rs; simpl; rewrite ?H; by rewrite app_nil_r.
Qed.

Lemma exec_end_nil self effs : exec self effs [] = effs.
Proof. simpl. by rewrite app_nil_r. Qed.

Lemma exec_call self ops cb r rs :
  exec self [MultiOp ops cb] (r :: rs)
  = MultiOp ops cb
    :: match invoke self cb (result r) (err_then r) (shutting_down_then r) with
       | Some effs' => exec self effs' rs
       | None => []
       end.
Proof. reflexivity. Qed.

Lemma run_top (s : CreateRootsState) req p ps :
  zrq (deferred_multi_op_state_ s) = Some req →
  paths_to_create_ s = p :: ps →
  ∃ s', run s = Some [MultiOp [makeCreateOp p ""] (cb_CreateRoots_multiOpCF s')]
        ∧ deferred_multi_op_state_ s' = deferred_multi_op_state_ s
        ∧ paths_to_create_ s' = p :: ps.
Proof.
  intros Hreq Hs. unfold run, getNextPathToCreate. rewrite Hreq, Hs.
  eexists. split; [reflexivity|]. simpl. done.
Qed.

Lemma multiOpCF_ok self rc (s : CreateRootsState) sd :
  creation_ok rc →
  multiOpCF toStatus self rc s sd
  = if bool_decide (tail (paths_to_create_ s) = [])
    then createRootZnodesCF toStatus self (pop s) rc sd
    else run (pop s).
Proof.
  intros Hok. unfold multiOpCF.
  destruct (zkCfStatus rc false) as [st e]. simpl in Hok.
  assert (Hb : bool_decide (st = OK) || bool_decide (st = EXISTS) = true)
    by (destruct Hok as [-> | ->]; reflexivity).
  rewrite Hb.
  change (paths_to_create_ (pop s)) with (tail (paths_to_create_ s)).
  destruct (bool_decide (tail (paths_to_create_ s) = [])); reflexivity.
Qed.

Lemma multiOpCF_failed self rc (s : CreateRootsState) sd :
  ¬ creation_ok rc →
  multiOpCF toStatus self rc s sd = createRootZnodesCF toStatus self s rc sd.
Proof.
  intros Hok. unfold multiOpCF.
  destruct (zkCfStatus rc false) as [st e]. simpl in Hok.
  repeat case_bool_decide; simpl; done || (exfalso; auto).
Qed.

Lemma createRootZnodesCF_ok self rc (s : CreateRootsState) sd req :
  creation_ok rc →
  zrq (deferred_multi_op_state_ s) = Some req →
  createRootZnodesCF toStatus self s rc sd
  = Some [runMultiOp (deferred_multi_op_state_ s) cb_zkLogMultiCreateCF].
Proof.
  intros Hok Hreq. unfold createRootZnodesCF.
  destruct (zkCfStatus rc false) as [st e]. simpl in Hok.
  rewrite Hreq. destruct Hok as [-> | ->]; reflexivity.
Qed.

Lemma createRootZnodesCF_failed self rc (s : CreateRootsState) sd req :
  ¬ creation_ok rc →
  zrq (deferred_multi_op_state_ s) = Some req →
  createRootZnodesCF toStatus self s rc sd
  = Some (postRequestCompletion self rc sd req).
Proof.
  intros Hok Hreq. unfold createRootZnodesCF.
  destruct (zkCfStatus rc false) as [st e]. simpl in Hok.
  rewrite Hreq. repeat case_bool_decide; simpl; done || (exfalso; auto).
Qed.

(** The machine on answers that are all taken as done, from the [i]-th
    path of the lineage on. *)
Lemma exec_roots_ok self (root : fs.path) req (rs : list Response) :
  ∀ (i : nat) (s : CreateRootsState) (effs : list Effect),
    (i < length (fs.elements root))%nat →
    paths_to_create_ s = fs.string <$> drop i (fs.lineage root) →
    zrq (deferred_multi_op_state_ s) = Some req →
    length rs = (length (fs.elements root) - i)%nat →
    Forall (λ r, created_ok r) rs →
    run s = Some effs →
    ∃ pre,
      exec self effs rs
      = pre ++ [runMultiOp (deferred_multi_op_state_ s) cb_zkLogMultiCreateCF]
      ∧ multi_ops pre
        = (λ p, creation_of p) <$> drop i (fs.lineage root)
      ∧ posted pre = [].
Proof.
  induction rs as [|r rs IH]; intros i s effs Hi Hs Hreq Hlen Hall Hrun.
  { simpl in Hlen. lia. }
  assert (Hdrop : drop i (fs.lineage root)
                  = fs.prefix root (S i) :: drop (S i) (fs.lineage root)).
  { apply drop_S, lineage_lookup, Hi. }
  rewrite Hdrop in Hs |- *. simpl in Hs.
  destruct (run_top s req _ _ Hreq Hs) as (s' & Hrun' & Hdef & Hs').
  rewrite Hrun' in Hrun. injection Hrun as <-.
  apply Forall_cons_1 in Hall as [(rc & res & Hres & Hok) Hall].
  rewrite exec_call, Hres.
  cbn [EpochStore.invoke].
  rewrite multiOpCF_ok by done.
  cbn [pop paths_to_create_ deferred_multi_op_state_]. rewrite Hs'. cbn [tail].
  case_bool_decide as Hnil.
  - rewrite (createRootZnodesCF_ok _ _ _ _ req) by (done || by rewrite Hdef).
    cbn [deferred_multi_op_state_].
    assert (rs = []) as ->.
    { assert (length (fs.elements root) ≤ S i)%nat.
      { destruct (decide (S i < length (fs.elements root))%nat); [|lia].
        rewrite (drop_S _ (fs.prefix root (S (S i)))) in Hnil
          by (by apply lineage_lookup). done. }
      destruct rs; [done|]. simpl in Hlen. lia. }
    eexists [_]. rewrite Hdef. split; [reflexivity|].
    apply fmap_nil_inv in Hnil. rewrite Hnil. done.
  - assert (HSi : (S i < length (fs.elements root))%nat).
    { destruct (decide (S i < length (fs.elements root))%nat); [done|].
      rewrite drop_ge in Hnil by (rewrite lineage_length; lia). done. }
    match goal with
    | |- context [run ?s1] => set (s1' := s1)
    end.
    assert (Hs1 : paths_to_create_ s1'
                  = fs.string (fs.prefix root (S (S i)))
                    :: (fs.string <$> drop (S (S i)) (fs.lineage root))).
    { unfold s1'. cbn [paths_to_create_].
      by rewrite (drop_S _ (fs.prefix root (S (S i))))
        by (by apply lineage_lookup). }
    assert (Hreq1 : zrq (deferred_multi_op_state_ s1') = Some req)
      by (unfold s1'; simpl; by rewrite Hdef).
    destruct (run_top s1' req _ _ Hreq1 Hs1) as (s2 & Hrun2 & _ & _).
    rewrite Hrun2.
    edestruct (IH (S i) s1') as (pre & Hexec & Hops & Hpost);
      [exact HSi|reflexivity|simpl; by rewrite Hdef|simpl in Hlen; lia|done
      |exact Hrun2|].
    cbn [deferred_multi_op_state_] in Hexec.
    eexists (_ :: pre). rewrite Hexec, <- Hdef.
    split; [reflexivity|]. split.
    + simpl. by rewrite Hops.
    + simpl. done.
Qed.

(** The machine on answers that are taken as done, then one that is not,
    from the [i]-th path of the lineage on. *)
Lemma exec_roots_failed self (root : fs.path) req (oks : list Response)
    (bad : Response) (rest : list Response) rc res :
  result bad = MultiOpResult rc res →
  ¬ creation_ok rc →
  ∀ (i : nat) (s : CreateRootsState) (effs : list Effect),
    (i + length oks < length (fs.elements root))%nat →
    paths_to_create_ s = fs.string <$> drop i (fs.lineage root) →
    zrq (deferred_multi_op_state_ s) = Some req →
    Forall (λ r, created_ok r) oks →
    run s = Some effs →
    ∃ pre,
      exec self effs (oks ++ bad :: rest)
      = pre ++ postRequestCompletion self rc (shutting_down_then bad) req
      ∧ multi_ops pre
        = (λ p, creation_of p)
          <$> take (S (length oks)) (drop i (fs.lineage root))
      ∧ posted pre = []
      ∧ length (zk_calls pre) = S (length oks).
Proof.
  intros Hbad Hnok.
  induction oks as [|r oks IH]; intros i s effs Hi Hs Hreq Hall Hrun.
  all: assert (Hdrop : drop i (fs.lineage root)
                  = fs.prefix root (S i) :: drop (S i) (fs.lineage root))
         by (apply drop_S, lineage_lookup; simpl in Hi; lia).
  all: rewrite Hdrop in Hs |- *; simpl in Hs.
  all: destruct (run_top s req _ _ Hreq Hs) as (s' & Hrun' & Hdef & Hs').
  all: rewrite Hrun' in Hrun; injection Hrun as <-.
  - cbn [app]. rewrite exec_call, Hbad. cbn [EpochStore.invoke].
    rewrite multiOpCF_failed by done.
    rewrite (createRootZnodesCF_failed _ _ _ _ req)
      by (done || by rewrite Hdef).
    rewrite exec_end by apply pending_of_completion.
    eexists [_]. split; [reflexivity|]. done.
  - apply Forall_cons_1 in Hall as [(rc' & res' & Hres & Hok) Hall].
    cbn [app]. rewrite exec_call, Hres. cbn [EpochStore.invoke].
    rewrite multiOpCF_ok by done.
    cbn [pop paths_to_create_ deferred_multi_op_state_].
    rewrite Hs'. cbn [tail].
    simpl in Hi.
    assert (Hne : fs.string <$> drop (S i) (fs.lineage root) ≠ []).
    { rewrite (drop_S _ (fs.prefix root (S (S i))))
        by (apply lineage_lookup; lia). done. }
    rewrite (bool_decide_eq_false_2 _ Hne).
    match goal with
    | |- context [run ?s1] => set (s1' := s1)
    end.
    assert (Hs1 : paths_to_create_ s1'
                  = fs.string (fs.prefix root (S (S i)))
                    :: (fs.string <$> drop (S (S i)) (fs.lineage root))).
    { unfold s1'. cbn [paths_to_create_].
      by rewrite (drop_S _ (fs.prefix root (S (S i))))
        by (apply lineage_lookup; lia). }
    assert (Hreq1 : zrq (deferred_multi_op_state_ s1') = Some req)
      by (unfold s1'; simpl; by rewrite Hdef).
    destruct (run_top s1' req _ _ Hreq1 Hs1) as (s2 & Hrun2 & _ & _).
    rewrite Hrun2.
    edestruct (IH (S i) s1') as (pre & Hexec & Hops & Hpost & Hcalls);
      [lia|reflexivity|simpl; by rewrite Hdef|done|exact Hrun2|].
    eexists (_ :: pre). rewrite Hexec.
    split; [reflexivity|]. split; [|split].
    + cbn [length]. simpl. by rewrite Hops.
    + simpl. done.
    + unfold zk_calls in *. rewrite filter_cons_True by done.
      simpl. by rewrite Hcalls.
Qed.

(** X6. When every creation of an ancestor is answered with a code that
    translates to OK or EXISTS, the machine that createRootZnodes starts
    creates the ancestors of the root path, one multi-op each, from the
    shallowest to the root path itself, posts nothing, and after the last
    one runs the deferred multi-op again with the callback
    zkLogMultiCreateCF. *)
Theorem X6_roots_created_then_deferred_op self mos req (rs : list Response) :
  fs.wf (rootPath self) →
  zrq mos = Some req →
  rs ≠ [] →
  length rs = length (fs.elements (rootPath self)) →
  Forall (λ r, created_ok r) rs →
  ∃ effs pre,
    createRootZnodes self mos = Some effs
    ∧ exec self effs rs = pre ++ [runMultiOp mos cb_zkLogMultiCreateCF]
    ∧ multi_ops pre = (λ p, creation_of p) <$> fs.lineage (rootPath self)
    ∧ posted pre = [].
Proof.
  intros Hwf Hreq Hne Hlen Hall.
  assert (H0 : (0 < length (fs.elements (rootPath self)))%nat).
  { destruct rs; [done|]. simpl in Hlen. lia. }
  set (s0 := newCreateRootsState mos (rootPath self)).
  assert (Hs0 : paths_to_create_ s0
                = fs.string <$> drop 0 (fs.lineage (rootPath self)))
    by (apply newCreateRootsState_paths, Hwf).
  unfold createRootZnodes. fold s0.
  destruct (run s0) as [effs|] eqn:Hrun.
  2: { exfalso. unfold run, getNextPathToCreate in Hrun.
       change (zrq (deferred_multi_op_state_ s0)) with (zrq mos) in Hrun.
       rewrite Hreq, Hs0 in Hrun. cbn [mbind option_bind] in Hrun.
       rewrite (drop_S _ (fs.prefix (rootPath self) 1)) in Hrun
         by (by apply lineage_lookup). done. }
  destruct (exec_roots_ok self (rootPath self) req rs 0 s0 effs)
    as (pre & Hexec & Hops & Hpost); try done; [lia|].
  exists effs, pre. done.
Qed.

(** X7. When a creation of an ancestor is answered with a code that
    translates neither to OK nor to EXISTS, after earlier ones that were
    taken as done, the machine stops there: it has created the ancestors
    up to that one, in order, it issues no further call, whatever answers
    are left, and it completes the deferred request through
    postRequestCompletion with that return code. *)
Theorem X7_roots_creation_failure
    self mos req (oks : list Response) (bad : Response)
    (rest : list Response) rc res :
  fs.wf (rootPath self) →
  zrq mos = Some req →
  (length oks < length (fs.elements (rootPath self)))%nat →
  Forall (λ r, created_ok r) oks →
  result bad = MultiOpResult rc res →
  ¬ creation_ok rc →
  ∃ effs pre,
    createRootZnodes self mos = Some effs
    ∧ exec self effs (oks ++ bad :: rest)
      = pre ++ postRequestCompletion self rc (shutting_down_then bad) req
    ∧ multi_ops pre
      = (λ p, creation_of p)
        <$> take (S (length oks)) (fs.lineage (rootPath self))
    ∧ posted pre = []
    ∧ posted (exec self effs (oks ++ bad :: rest))
      = (if bool_decide ((zkCfStatus rc (stats_ self)).1 = SHUTDOWN)
            && shutting_down_then bad
         then [] else [(zkCfStatus rc (stats_ self)).1])
    ∧ length (zk_calls (exec self effs (oks ++ bad :: rest)))
      = S (length oks).
Proof.
  intros Hwf Hreq Hlen Hall Hbad Hnok.
  set (s0 := newCreateRootsState mos (rootPath self)).
  assert (Hs0 : paths_to_create_ s0
                = fs.string <$> drop 0 (fs.lineage (rootPath self)))
    by (apply newCreateRootsState_paths, Hwf).
  unfold createRootZnodes. fold s0.
  destruct (run s0) as [effs|] eqn:Hrun.
  2: { exfalso. unfold run, getNextPathToCreate in Hrun.
       change (zrq (deferred_multi_op_state_ s0)) with (zrq mos) in Hrun.
       rewrite Hreq, Hs0 in Hrun. cbn [mbind option_bind] in Hrun.
       rewrite (drop_S _ (fs.prefix (rootPath self) 1)) in Hrun
         by (apply lineage_lookup; lia). done. }
  destruct (exec_roots_failed self (rootPath self) req oks bad rest rc res
              Hbad Hnok 0 s0 effs)
    as (pre & Hexec & Hops & Hpost & Hcalls); try done.
  exists effs, pre.
  destruct (postRequestCompletion_posts toStatus self rc
              (shutting_down_then bad) req) as [Hp Hz].
  split; [done|]. split; [done|]. split; [done|]. split; [done|].
  rewrite Hexec, posted_app, zk_calls_app, Hpost, Hp, Hz, app_nil_r.
  done.
Qed.

(** X8. Whatever the answers, the machine that createRootZnodes starts
    issues at most as many creations as the root path has elements, and
    never creates a path twice. *)
Theorem X8_roots_created_once self mos rcs sd :
  fs.wf (rootPath self) →
  (length (rounds self (createRootZnodes self mos) rcs sd)
   ≤ length (fs.elements (rootPath self)))%nat
  ∧ NoDup (created <$> rounds self (createRootZnodes self mos) rcs sd).
Proof.
  intros Hwf.
  set (root := rootPath self).
  set (s0 := newCreateRootsState mos root).
  assert (Hs0 : paths_to_create_ s0 = fs.string <$> drop 0 (fs.lineage root))
    by (apply newCreateRootsState_paths, Hwf).
  change (createRootZnodes self mos) with (run s0).
  destruct (decide (0 < length (fs.elements root))%nat) as [H0|H0].
  2: { assert (Hrun : run s0 = None).
       { unfold run, getNextPathToCreate. rewrite Hs0. unfold fs.lineage.
         replace (length (fs.elements root)) with 0%nat by lia.
         by destruct (zrq _). }
       rewrite Hrun, rounds_not_in_flight by done. simpl.
       split; [lia|constructor]. }
  pose proof (λ k r, rounds_spec toStatus ZNODE_VALUE_WRITE_LEN_MAX znodeName
                       znodeNameDataLog znodeNameMetaDataLog self root sd rcs
                       Hwf 0 s0 k r H0 Hs0) as Hspec.
  split.
  - destruct (decide (length (rounds self (run s0) rcs sd)
                      ≤ length (fs.elements root))%nat) as [|Hgt]; [done|].
    destruct (lookup_lt_is_Some_2 (rounds self (run s0) rcs sd)
                (length (fs.elements root))) as [r Hr]; [lia|].
    destruct (Hspec _ _ Hr) as [Hlt _]. simpl in Hlt. lia.
  - apply NoDup_alt. intros i j ops Hi Hj.
    rewrite list_lookup_fmap in Hi, Hj.
    destruct (rounds self (run s0) rcs sd !! i) as [ri|] eqn:Hri; [|done].
    destruct (rounds self (run s0) rcs sd !! j) as [rj|] eqn:Hrj; [|done].
    destruct (Hspec _ _ Hri) as (Hilt & Hci & _).
    destruct (Hspec _ _ Hrj) as (Hjlt & Hcj & _).
    simpl in *. injection Hi as <-. injection Hj as Heq.
    rewrite Hci, Hcj in Heq. injection Heq as Heq.
    apply (f_equal String.length) in Heq.
    destruct (decide (i = j)) as [|Hne]; [done|].
    destruct (decide (i < j)%nat).
    + pose proof (lineage_string_length root i j). lia.
    + pose proof (lineage_string_length root j i). lia.
Qed.

(** X9. The stack that the constructor of CreateRootsState builds holds
    one path for each element of the root path: at depth [i] from the top
    the path of the first [i + 1] elements, so the shallowest ancestor is
    on top and the root path itself at the bottom.  It holds neither "/"
    nor the empty path, and no path twice; the loop ends by its condition,
    so that more iterations would not change the stack. *)
Theorem X9_stack_of_ancestors (mos : MultiOpState) (root : fs.path) :
  fs.wf root →
  let stack := paths_to_create_ (newCreateRootsState mos root) in
  length stack = length (fs.elements root)
  ∧ (∀ (i : nat) (p : string),
       stack !! i = Some p
       ↔ (i < length (fs.elements root))%nat
         ∧ p = fs.string (fs.prefix root (S i)))
  ∧ (fs.elements root ≠ [] →
     stack !! pred (length stack) = Some (fs.string root))
  ∧ ("/" ∉ stack)
  ∧ ("" ∉ stack)
  ∧ NoDup stack
  ∧ (∀ fuel : nat,
       (length (fs.elements root) < fuel)%nat →
       enumerate_parents fuel root [] = stack).
Proof.
  intros Hwf stack.
  assert (Hstack : stack = fs.string <$> fs.lineage root)
    by (apply newCreateRootsState_paths, Hwf).
  assert (Hlookup : ∀ (i : nat) (p : string),
            stack !! i = Some p
            ↔ (i < length (fs.elements root))%nat
              ∧ p = fs.string (fs.prefix root (S i))).
  { intros i p. rewrite Hstack, list_lookup_fmap. split.
    - intros Hi.
      destruct (fs.lineage root !! i) as [q|] eqn:Hq; [|done].
      assert (Hlt : (i < length (fs.elements root))%nat).
      { rewrite <- lineage_length. by eapply lookup_lt_Some. }
      rewrite lineage_lookup in Hq by done.
      injection Hq as <-. injection Hi as <-. done.
    - intros [Hlt ->]. by rewrite lineage_lookup. }
  assert (Hne : ∀ i, (i < length (fs.elements root))%nat →
                         fs.elements (fs.prefix root (S i)) ≠ []).
  { intros i Hi. simpl. destruct (fs.elements root); simpl in *; [lia|done]. }
  split; [by rewrite Hstack, length_fmap, lineage_length|].
  split; [exact Hlookup|].
  split; [|split; [|split; [|split]]].
  - intros Hroot. apply Hlookup.
    assert (0 < length (fs.elements root))%nat
      by (destruct (fs.elements root); simpl; [done|lia]).
    rewrite Hstack, length_fmap, lineage_length.
    split; [lia|].
    replace (S (pred (length (fs.elements root))))
      with (length (fs.elements root)) by lia.
    by rewrite prefix_all.
  - intros Hin. apply list_elem_of_lookup in Hin as [i Hi].
    apply Hlookup in Hi as [Hi Heq].
    symmetry in Heq. revert Heq.
    apply string_not_root; [by apply prefix_wf|by apply Hne].
  - intros Hin. apply list_elem_of_lookup in Hin as [i Hi].
    apply Hlookup in Hi as [Hi Heq].
    apply (f_equal String.length) in Heq. rewrite string_length in Heq.
    pose proof (prefix_wf root (S i) Hwf) as Hwf'. unfold fs.wf in Hwf'.
    specialize (Hne i Hi).
    destruct (fs.elements (fs.prefix root (S i))) as [|e es]; [done|].
    apply Forall_cons_1 in Hwf' as [[Hnonempty _] _].
    pose proof (join_cons_length e es).
    destruct e; [done|]. simpl in *.
    destruct (fs.has_root_directory root); lia.
  - apply NoDup_alt. intros i j p Hi Hj.
    apply Hlookup in Hi as [Hi ->]. apply Hlookup in Hj as [Hj Heq].
    apply (f_equal String.length) in Heq.
    destruct (decide (i = j)) as [|Hneq]; [done|].
    destruct (decide (i < j)%nat).
    + pose proof (lineage_string_length root i j). lia.
    + pose proof (lineage_string_length root j i). lia.
  - intros fuel Hfuel.
    pose proof (enumerate_parents_prefix root (length (fs.elements root)) Hwf
                  (Nat.le_refl _) fuel [] Hfuel) as H.
    rewrite prefix_all, app_nil_r in H. rewrite H, Hstack.
    unfold fs.lineage. by rewrite <- list_fmap_compose.
Qed.

(** *** A request run to its end *)

Abbreviation quiet effs := (posted effs = [] ∧ zk_calls effs = []).

(** The effects of one step of the request [req]: statistics, and then
    nothing, or the completion of [req], or one ZooKeeper call whose
    callback belongs to [req]. *)
Abbreviation step_of req effs :=
  (∃ stats tl,
     effs = stats ++ tl
     ∧ quiet stats
     ∧ (tl = []
        ∨ (∃ st, tl = [PostCompletion req st])
        ∨ (∃ call cb,
             tl = [call] ∧ is_zk_call call = true
             ∧ callback_of call = Some cb ∧ owner cb = Some req))).

Lemma zk_calls_call (call : Effect) :
  is_zk_call call = true → zk_calls [call] = [call].
Proof. intros H. unfold zk_calls. by rewrite filter_cons_True. Qed.

Lemma posted_call (call : Effect) : is_zk_call call = true → posted [call] = [].
Proof. by destruct call. Qed.

Lemma step_complete req stats st sd :
  quiet stats → step_of req (stats ++ complete st sd req).
Proof.
  intros Hq. exists stats, (complete st sd req).
  split; [done|]. split; [done|].
  rewrite complete_posts. destruct (_ && sd); eauto.
Qed.

Lemma step_call req stats call cb :
  quiet stats → is_zk_call call = true → callback_of call = Some cb →
  owner cb = Some req → step_of req (stats ++ [call]).
Proof.
  intros Hq Hcall Hcb Hown. exists stats, [call].
  split; [done|]. split; [done|]. right. right. by exists call, cb.
Qed.

Lemma step_prefix req pre effs :
  quiet pre → step_of req effs → step_of req (pre ++ effs).
Proof.
  intros [Hp Hz] (stats & tl & -> & [Hp' Hz'] & Htl).
  exists (pre ++ stats), tl. rewrite posted_app, zk_calls_app, Hp, Hz, Hp', Hz'.
  by rewrite app_assoc.
Qed.

Lemma step_postRequestCompletion self rc sd req :
  step_of req (postRequestCompletion self rc sd req).
Proof.
  unfold EpochStore.postRequestCompletion.
  pose proof (zkCfStatus_effects toStatus rc (stats_ self)) as Hq.
  destruct (zkCfStatus rc (stats_ self)) as [st effs].
  by apply step_complete.
Qed.

Lemma step_onGetZnodeComplete self rc value stat req err sd :
  step_of req (onGetZnodeComplete self rc value stat req err sd).
Proof.
  unfold EpochStore.onGetZnodeComplete.
  pose proof (zkCfStatus_effects toStatus rc (stats_ self)) as Hq.
  destruct (zkCfStatus rc (stats_ self)) as [st effs]. simpl in Hq.
  destruct (negb (bool_decide (st = OK)) && negb (bool_decide (st = NOTFOUND)));
    [by apply step_complete|].
  destruct (onGotZnodeValue req _ _ err) as [step err'].
  destruct (composeZnodeValue req ZNODE_VALUE_WRITE_LEN_MAX) as [size buf].
  destruct step; try (by apply step_complete);
    destruct ((size <? 0) || (size >=? ZNODE_VALUE_WRITE_LEN_MAX));
    try (by apply step_complete);
    by eapply step_call.
Qed.

Lemma step_run (s : CreateRootsState) req effs :
  zrq (deferred_multi_op_state_ s) = Some req →
  run s = Some effs → step_of req effs.
Proof.
  intros Hreq. unfold run. rewrite Hreq. cbn [mbind option_bind].
  destruct (getNextPathToCreate s) as [p|]; [|done]. simpl.
  intros [= <-]. by eapply (step_call req []).
Qed.

Lemma step_createRootZnodesCF self (s : CreateRootsState) rc sd req effs :
  zrq (deferred_multi_op_state_ s) = Some req →
  createRootZnodesCF toStatus self s rc sd = Some effs → step_of req effs.
Proof.
  intros Hreq. unfold createRootZnodesCF.
  destruct (zkCfStatus rc false) as [st e]. rewrite Hreq. simpl.
  destruct (negb (bool_decide (st = OK)) && negb (bool_decide (st = EXISTS)));
    intros [= <-]; [apply step_postRequestCompletion|].
  by eapply (step_call req []).
Qed.

(** Every callback answers for the request it belongs to. *)
Lemma step_invoke self req cb c err sd effs :
  owner cb = Some req → invoke self cb c err sd = Some effs →
  step_of req effs.
Proof.
  intros Hown Hinv.
  destruct cb as [r|r|state|state], c as [rc value stat|rc stat|rc results];
    simpl in Hinv, Hown; try discriminate.
  - injection Hown as ->. injection Hinv as <-.
    apply step_onGetZnodeComplete.
  - injection Hown as ->. injection Hinv as <-.
    apply step_postRequestCompletion.
  - unfold EpochStore.zkLogMultiCreateCF in Hinv.
    cbn [zrq set_results] in Hinv. rewrite Hown in Hinv. simpl in Hinv.
    pose proof (zkCfStatus_effects toStatus rc (stats_ self)) as Hq.
    destruct (zkCfStatus rc (stats_ self)) as [st e]. simpl in Hq.
    destruct (bool_decide (st = NOTFOUND) && zk_create_root_znodes self).
    + destruct (createRootZnodes self _) as [effs'|] eqn:Hrun; [|done].
      injection Hinv as <-. apply step_prefix; [done|].
      eapply step_run; [|exact Hrun]. exact Hown.
    + injection Hinv as <-. apply step_prefix; [done|].
      apply step_postRequestCompletion.
  - unfold multiOpCF in Hinv.
    destruct (zkCfStatus rc false) as [st e].
    destruct (bool_decide (st = OK) || bool_decide (st = EXISTS)).
    + destruct (negb (bool_decide (paths_to_create_ (pop _) = []))).
      * eapply step_run; [|exact Hinv]. exact Hown.
      * eapply step_createRootZnodesCF; [|exact Hinv]. exact Hown.
    + eapply step_createRootZnodesCF; [|exact Hinv]. exact Hown.
Qed.

Lemma step_pending req effs cb :
  step_of req effs → pending effs = Some cb → owner cb = Some req.
Proof.
  intros (stats & tl & -> & [Hp Hz] & Htl). unfold pending.
  rewrite zk_calls_app, Hz. simpl.
  destruct Htl as [-> | [(st & ->) | (call & cb' & -> & Hcall & Hcb & Hown)]];
    [done|done|].
  rewrite zk_calls_call by done. congruence.
Qed.

Lemma step_alone req effs :
  step_of req effs →
  (posted effs = []
   ∨ ∃ pre st, effs = pre ++ [PostCompletion req st] ∧ posted pre = [])
  ∧ (length (zk_calls effs) ≤ 1)%nat
  ∧ (posted effs ≠ [] → zk_calls effs = []).
Proof.
  intros (stats & tl & -> & [Hp Hz] & Htl).
  rewrite posted_app, zk_calls_app, Hp, Hz. simpl.
  destruct Htl as [-> | [(st & ->) | (call & cb' & -> & Hcall & Hcb & Hown)]].
  - simpl. split; [by left|]. split; [lia|done].
  - split; [right; by exists stats, st|]. simpl. split; [lia|done].
  - rewrite zk_calls_call, posted_call by done. simpl.
    split; [by left|]. split; [lia|done].
Qed.

(** X10. A request run to its end, whatever the client answers: from
    runRequest on, every step issues at most one ZooKeeper call, and each
    call only after the answer to the one before; the caller gets at most
    one completion, it is the completion of the request that was run, and
    it is the last thing that happens: no call follows it.  With [n]
    answers at most [n + 1] calls are made. *)
Theorem X10_one_completion_per_request self req rs :
  let trace := exec self (runRequest req).2 rs in
  (posted trace = []
   ∨ ∃ before st,
       trace = before ++ [PostCompletion req st] ∧ posted before = [])
  ∧ (∀ other st, PostCompletion other st ∈ trace → other = req)
  ∧ (length (posted trace) ≤ 1)%nat
  ∧ (length (zk_calls trace) ≤ S (length rs))%nat.
Proof.
  intros trace.
  assert (Hstart : step_of req (runRequest req).2).
  { by apply (step_call req [] _ (cb_onGetZnodeComplete req)). }
  assert (Hrun : ∀ rs effs,
            step_of req effs →
            (posted (exec self effs rs) = []
             ∨ ∃ before st,
                 exec self effs rs = before ++ [PostCompletion req st]
                 ∧ posted before = [])
            ∧ (length (zk_calls (exec self effs rs)) ≤ S (length rs))%nat).
  { clear. intros rs. induction rs as [|r rs IH]; intros effs Hstep.
    - rewrite exec_end_nil. destruct (step_alone _ _ Hstep) as (? & ? & _).
      split; [done|]. simpl. lia.
    - destruct (pending effs) as [cb|] eqn:Hpend.
      2: { rewrite exec_end by done.
           destruct (step_alone _ _ Hstep) as (? & ? & _).
           split; [done|]. simpl. lia. }
      simpl. rewrite Hpend.
      pose proof (step_pending _ _ _ Hstep Hpend) as Hown.
      destruct (step_alone _ _ Hstep) as (Hposted & Hcalls & Hlast).
      assert (Hp : posted effs = []).
      { destruct (decide (posted effs = [])) as [|Hne]; [done|].
        unfold pending in Hpend. by rewrite (Hlast Hne) in Hpend. }
      destruct (invoke self cb _ _ _) as [effs'|] eqn:Hinv.
      2: { rewrite app_nil_r. split; [by left|lia]. }
      destruct (IH effs' (step_invoke _ _ _ _ _ _ _ Hown Hinv))
        as [Hnext Hcount].
      rewrite posted_app, zk_calls_app, length_app, Hp. simpl. split; [|lia].
      destruct Hnext as [?|(before & st & -> & Hbefore)]; [by left|].
      right. exists (effs ++ before), st.
      by rewrite posted_app, Hp, Hbefore, app_assoc. }
  destruct (Hrun rs _ Hstart) as [Hposted Hcount].
  fold trace in Hposted, Hcount.
  split; [exact Hposted|]. split; [|split; [|exact Hcount]].
  - intros other st Hin.
    destruct Hposted as [Hnone|(before & st' & Heq & Hbefore)].
    + assert (H : st ∈ posted trace); [|rewrite Hnone in *; by apply elem_of_nil in H].
      unfold posted. apply list_elem_of_omap. by exists (PostCompletion other st).
    + rewrite Heq, elem_of_app, list_elem_of_singleton in Hin.
      destruct Hin as [Hin|[= -> _]]; [|done].
      assert (H : st ∈ posted before); [|rewrite Hbefore in *; by apply elem_of_nil in H].
      unfold posted. apply list_elem_of_omap. by exists (PostCompletion other st).
  - destruct Hposted as [->|(before & st' & -> & Hbefore)]; [simpl; lia|].
    rewrite posted_app, Hbefore. simpl. lia.
Qed.

(** X11. A change of the configuration replaces the client, and nothing
    else of the store, and only when there is a configuration whose
    quorum differs from that of the current client and the factory
    succeeds; a failed reconnect keeps the old client.  With a factory
    whose clients have the quorum they were asked for, the store then
    identifies itself by the configured quorum, and the same update again
    changes nothing. *)
Theorem X11_onConfigUpdate
    (zkFactory : ZookeeperConfig → option ZookeeperClientBase)
    (cfg : option ZookeeperConfig) (self : ZookeeperEpochStore) :
  (∀ c zkclient, zkFactory c = Some zkclient →
                 getQuorum zkclient = getQuorumString c) →
  let self' := onConfigUpdate zkFactory cfg self in
  rootPath self' = rootPath self
  ∧ zk_create_root_znodes self' = zk_create_root_znodes self
  ∧ stats_ self' = stats_ self
  ∧ (zkclient_ self' ≠ zkclient_ self →
     ∃ c, cfg = Some c
          ∧ getQuorumString c ≠ getQuorum (zkclient_ self)
          ∧ zkFactory c = Some (zkclient_ self'))
  ∧ (∀ c, cfg = Some c → zkFactory c = None → self' = self)
  ∧ (∀ c, cfg = Some c → zkFactory c ≠ None →
          identify self'
          = "zookeeper://" +:+ getQuorumString c +:+ fs.string (rootPath self))
  ∧ onConfigUpdate zkFactory cfg self' = self'.
Proof.
  intros Hfactory self'. subst self'. unfold onConfigUpdate, identify.
  destruct cfg as [c|]; [|repeat split; done].
  case_bool_decide as Hq.
  { repeat split; try done.
    - intros c' [= <-] _. by rewrite Hq.
    - by rewrite bool_decide_true. }
  destruct (zkFactory c) as [zkclient|] eqn:Hnew.
  2: { repeat split; try done.
       - by intros c' [= <-] Hsome.
       - by rewrite bool_decide_false. }
  pose proof (Hfactory _ _ Hnew) as Hquorum.
  cbn [with_client rootPath zk_create_root_znodes zkclient_ stats_].
  repeat split; try done.
  - intros _. exists c. by rewrite Hnew.
  - intros c' [= <-]. by rewrite Hnew.
  - intros c' [= <-] _. by rewrite Hquorum.
  - by rewrite bool_decide_true.
Qed.

(** X12. The data of two logs never share a znode: znodePathForLog gives
    different paths to different log ids, and never the root path
    itself. *)
Theorem X12_znodePathForLog_injective self (a b : logid_t) :
  (znodePathForLog self a = znodePathForLog self b ↔ a = b)
  ∧ znodePathForLog self a ≠ fs.string (rootPath self).
Proof.
  unfold znodePathForLog. split; [split|].
  - intros H. apply append_inv_head in H. apply (append_inv_head "/") in H.
    by apply to_string_inj.
  - by intros ->.
  - intros H. apply (f_equal String.length) in H.
    rewrite length_append in H. simpl in H. lia.
Qed.

End More.

Lemma store_root_wf : fs.wf (rootPath Examples.store).
Proof. repeat constructor; discriminate. Qed.

Lemma X2_witness :
  zk_calls
    (onGetZnodeComplete Examples.toStatus 4096 "sequencer" "lce" "metadatalog_lce" Examples.store ZOK "4@0" {| version_ := 7 |}
       Examples.modify_request OK false)
  = [SetData "/logdevice/c1/logs/1/lce" "5@0" 7
       (cb_postRequestCompletion Examples.modify_request)].
Proof.
  refine (let H :=
            X2_setData_on_the_version_read Examples.toStatus 4096 "sequencer" "lce" "metadatalog_lce" Examples.store ZOK "4@0"
              {| version_ := 7 |} Examples.modify_request OK false
              "/logdevice/c1/logs/1/lce" "5@0" 7
              (cb_postRequestCompletion Examples.modify_request) _
          in proj2 (proj2 (proj2 (proj2 (proj2 (proj2 (proj2 (proj2 H)))))))).
  vm_compute. left.
Defined.

Lemma X3_witness :
  posted
    (onGetZnodeComplete Examples.toStatus 4096 "sequencer" "lce" "metadatalog_lce" Examples.store ZOK "4@0" {| version_ := 7 |}
       Examples.oversized_request OK true)
  = [INTERNAL]
  ∧ zk_calls
      (onGetZnodeComplete Examples.toStatus 4096 "sequencer" "lce" "metadatalog_lce" Examples.store ZOK "4@0" {| version_ := 7 |}
         Examples.oversized_request OK true)
    = [].
Proof.
  apply (X3_composed_value_out_of_bounds Examples.toStatus 4096 "sequencer" "lce" "metadatalog_lce" Examples.store ZOK "4@0"
           {| version_ := 7 |} Examples.oversized_request OK true).
  - left. reflexivity.
  - right. reflexivity.
  - right. simpl. lia.
Defined.

Lemma X4_witness :
  owner (cb_zkLogMultiCreateCF Examples.deferred)
  = Some Examples.provision_request
  ∧ zk_calls
      (onGetZnodeComplete Examples.toStatus 4096 "sequencer" "lce" "metadatalog_lce" Examples.store ZNONODE "" {| version_ := 0 |}
         Examples.provision_request OK false)
    = [MultiOp
         [makeCreateOp "/logdevice/c1/logs/42" "";
          makeCreateOp "/logdevice/c1/logs/42/sequencer" "1@N0";
          makeCreateOp "/logdevice/c1/logs/42/lce" "";
          makeCreateOp "/logdevice/c1/logs/42/metadatalog_lce" ""]
         (cb_zkLogMultiCreateCF Examples.deferred)].
Proof.
  refine (let H :=
            X4_provision_is_one_multi_op Examples.toStatus 4096 "sequencer" "lce" "metadatalog_lce" Examples.store ZNONODE ""
              {| version_ := 0 |} Examples.provision_request OK false
              [makeCreateOp "/logdevice/c1/logs/42" "";
               makeCreateOp "/logdevice/c1/logs/42/sequencer" "1@N0";
               makeCreateOp "/logdevice/c1/logs/42/lce" "";
               makeCreateOp "/logdevice/c1/logs/42/metadatalog_lce" ""]
              (cb_zkLogMultiCreateCF Examples.deferred) _
          in conj (proj1 (proj2 (proj2 H)))
                  (proj2 (proj2 (proj2 (proj2 (proj2 (proj2 H))))))).
  vm_compute. left.
Defined.

Lemma X5_witness :
  match
    zkLogMultiCreateCF Examples.toStatus Examples.store ZNONODE
      Examples.deferred false
  with
  | Some effs =>
      posted effs = []
      ∧ multi_ops effs = [[makeCreateOp "/logdevice" ""]]
      ∧ ∃ cb, pending effs = Some cb
              ∧ owner cb = Some Examples.provision_request
  | None => False
  end.
Proof.
  pose proof (X5_root_creation_gate Examples.toStatus Examples.store ZNONODE
                Examples.deferred false Examples.provision_request eq_refl
                store_root_wf) as H.
  cbv zeta in H.
  destruct (zkLogMultiCreateCF Examples.toStatus Examples.store ZNONODE
              Examples.deferred false) as [effs|].
  - exact (proj2 H).
  - destruct H as (_ & _ & H). discriminate H.
Defined.

Lemma X6_witness :
  ∃ effs pre,
    createRootZnodes Examples.store Examples.deferred = Some effs
    ∧ exec Examples.toStatus 4096 "sequencer" "lce" "metadatalog_lce" Examples.store effs
        [Examples.multi_op_done ZOK; Examples.multi_op_done ZNODEEXISTS;
         Examples.multi_op_done ZOK]
      = pre ++ [runMultiOp Examples.deferred cb_zkLogMultiCreateCF]
    ∧ multi_ops pre
      = [[makeCreateOp "/logdevice" ""]; [makeCreateOp "/logdevice/c1" ""];
         [makeCreateOp "/logdevice/c1/logs" ""]]
    ∧ posted pre = [].
Proof.
  apply (X6_roots_created_then_deferred_op Examples.toStatus 4096 "sequencer" "lce" "metadatalog_lce" Examples.store Examples.deferred
           Examples.provision_request
           [Examples.multi_op_done ZOK; Examples.multi_op_done ZNODEEXISTS;
            Examples.multi_op_done ZOK]).
  - exact store_root_wf.
  - reflexivity.
  - discriminate.
  - reflexivity.
  - repeat constructor.
    + exists ZOK, []. split; [reflexivity|left; reflexivity].
    + exists ZNODEEXISTS, []. split; [reflexivity|right; reflexivity].
    + exists ZOK, []. split; [reflexivity|left; reflexivity].
Defined.

Lemma X7_witness :
  ∃ effs pre,
    createRootZnodes Examples.store Examples.deferred = Some effs
    ∧ exec Examples.toStatus 4096 "sequencer" "lce" "metadatalog_lce" Examples.store effs
        ([Examples.multi_op_done ZOK]
         ++ Examples.multi_op_done ZBADARGUMENTS :: [])
      = pre ++ [PostCompletion Examples.provision_request UNKNOWN]
    ∧ multi_ops pre
      = [[makeCreateOp "/logdevice" ""]; [makeCreateOp "/logdevice/c1" ""]]
    ∧ posted pre = []
    ∧ posted
        (exec Examples.toStatus 4096 "sequencer" "lce" "metadatalog_lce" Examples.store effs
           ([Examples.multi_op_done ZOK]
            ++ Examples.multi_op_done ZBADARGUMENTS :: []))
      = [UNKNOWN]
    ∧ length
        (zk_calls
           (exec Examples.toStatus 4096 "sequencer" "lce" "metadatalog_lce" Examples.store effs
              ([Examples.multi_op_done ZOK]
               ++ Examples.multi_op_done ZBADARGUMENTS :: [])))
      = 2%nat.
Proof.
  apply (X7_roots_creation_failure Examples.toStatus 4096 "sequencer" "lce" "metadatalog_lce" Examples.store Examples.deferred
           Examples.provision_request [Examples.multi_op_done ZOK]
           (Examples.multi_op_done ZBADARGUMENTS) [] ZBADARGUMENTS []).
  - exact store_root_wf.
  - reflexivity.
  - simpl. lia.
  - repeat constructor.
    exists ZOK, []. split; [reflexivity|left; reflexivity].
  - reflexivity.
  - intros [H|H]; discriminate H.
Defined.

Lemma X8_witness :
  (length
     (rounds Examples.toStatus 4096 "sequencer" "lce" "metadatalog_lce" Examples.store
        (createRootZnodes Examples.store Examples.deferred)
        [ZOK; ZOK; ZOK; ZOK; ZOK] false)
   ≤ 3)%nat
  ∧ NoDup
      (created
       <$> rounds Examples.toStatus 4096 "sequencer" "lce" "metadatalog_lce" Examples.store
             (createRootZnodes Examples.store Examples.deferred)
             [ZOK; ZOK; ZOK; ZOK; ZOK] false).
Proof.
  apply (X8_roots_created_once Examples.toStatus 4096 "sequencer" "lce" "metadatalog_lce" Examples.store Examples.deferred
           [ZOK; ZOK; ZOK; ZOK; ZOK] false).
  exact store_root_wf.
Defined.

Lemma X9_witness :
  let stack :=
    paths_to_create_
      (newCreateRootsState Examples.deferred (rootPath Examples.store)) in
  length stack = 3%nat
  ∧ stack !! 2%nat = Some "/logdevice/c1/logs"
  ∧ NoDup stack.
Proof.
  refine (let H :=
            X9_stack_of_ancestors Examples.deferred (rootPath Examples.store)
              store_root_wf
          in conj (proj1 H)
               (conj (proj1 (proj2 (proj2 H)) _)
                     (proj1 (proj2 (proj2 (proj2 (proj2 (proj2 H)))))))).
  discriminate.
Defined.

Lemma X11_witness :
  identify
    (onConfigUpdate Examples.zkFactory (Some Examples.new_quorum)
       Examples.store)
  = "zookeeper://h3:2181,h4:2181/logdevice/c1/logs".
Proof.
  assert (Hfactory : ∀ c zkclient,
            Examples.zkFactory c = Some zkclient →
            getQuorum zkclient = getQuorumString c).
  { intros c zkclient Hnew. injection Hnew as <-. reflexivity. }
  assert (Hsome : Examples.zkFactory Examples.new_quorum ≠ None)
    by discriminate.
  exact (proj1 (proj2 (proj2 (proj2 (proj2 (proj2
           (X11_onConfigUpdate Examples.zkFactory
              (Some Examples.new_quorum) Examples.store Hfactory))))))
           Examples.new_quorum eq_refl Hsome).
Defined.

End EpochStoreMore.

(* ================================================================== *)
(** ** Properties of the health monitor *)

Module HealthMonitorFacts.

Import HealthMonitor.

Lemma geb_leb (a b : Z) : (a >=? b) = (b <=? a).
Proof. apply Z.geb_leb. Qed.

#[global] Instance avg_ge_uint64_dec sum count d :
  Decision (avg_ge_uint64 sum count d).
Proof. unfold avg_ge_uint64. apply _. Defined.

Lemma duration_div_pos (d : milliseconds) (n : N) :
  (0 < n)%N → duration_div d n = Some (to_uint64 d / Z.of_N n).
Proof.
  intros Hn. unfold duration_div.
  rewrite bool_decide_eq_false_2 by lia. reflexivity.
Qed.

Lemma quotient_ge_spec (sum : milliseconds) (count : N) (d : milliseconds) :
  quotient_ge (to_uint64 sum / Z.of_N count) d
  = bool_decide (avg_ge_uint64 sum count d).
Proof.
  unfold quotient_ge, avg_ge_uint64. rewrite geb_leb.
  destruct (to_uint64 d <=? _) eqn:H.
  - apply Z.leb_le in H. by rewrite bool_decide_eq_true_2.
  - apply Z.leb_gt in H. rewrite bool_decide_eq_false_2; [done|lia].
Qed.

Lemma to_uint64_non_negative (d : milliseconds) :
  non_negative d → to_uint64 d = d.
Proof.
  unfold non_negative, INT64_MAX, to_uint64. intros H.
  apply Z.mod_small. lia.
Qed.

(** For durations that are not negative, the code's unsigned arithmetic
    is that of the integers. *)
Lemma avg_ge_uint64_non_negative (sum : milliseconds) (count : N)
    (d : milliseconds) :
  non_negative sum → non_negative d →
  avg_ge_uint64 sum count d ↔ avg_ge sum count d.
Proof.
  intros Hsum Hd. unfold avg_ge_uint64, avg_ge.
  rewrite !to_uint64_non_negative by done.
  destruct Hsum as [Hsum _].
  destruct (decide (count = 0%N)) as [->|Hc].
  - simpl. by rewrite Z.div_0_r, Z.quot_0_r_ext.
  - rewrite Z.quot_div_nonneg by lia. done.
Qed.

Lemma counts_length {A : Type} (P : A → Prop) (l : list A) (n : nat) :
  counts P l n → (n ≤ length l)%nat.
Proof. induction 1; simpl; lia. Qed.

Section Facts.

Context {TS Timer : Type} `{!TimeSeriesOps TS} `{!StateTimerOps Timer}.
Variable kPeriodRange : Z.

Abbreviation Monitor := (ServerHealthMonitor (TS := TS) (Timer := Timer)).
Abbreviation periods := (HealthMonitor.periods kPeriodRange).
Abbreviation in_periods := (HealthMonitor.in_periods kPeriodRange).
Abbreviation isStalled := (HealthMonitor.isStalled kPeriodRange).
Abbreviation isOverloaded := (HealthMonitor.isOverloaded kPeriodRange).
Abbreviation stalled_worker := (HealthMonitor.stalled_worker kPeriodRange).
Abbreviation overloaded_worker := (HealthMonitor.overloaded_worker kPeriodRange).
Abbreviation Stalled := (HealthMonitor.Stalled kPeriodRange).
Abbreviation CriticallyStalled := (HealthMonitor.CriticallyStalled kPeriodRange).
Abbreviation CriticallyStalledFirst :=
  (HealthMonitor.CriticallyStalledFirst kPeriodRange).
Abbreviation Overloaded := (HealthMonitor.Overloaded kPeriodRange).
Abbreviation non_negative_windows :=
  (HealthMonitor.non_negative_windows kPeriodRange).
Abbreviation processReports := (HealthMonitor.processReports kPeriodRange).

#[local] Instance stall_predicate_dec (m : Monitor) now hp t p :
  Decision (stall_predicate avg_ge_uint64 m now hp t p).
Proof. unfold stall_predicate. apply _. Defined.

(** The values of [p] from [2 + a] on, [n] of them. *)
Abbreviation range a n := ((λ i : nat, 2 + Z.of_nat i) <$> seq a n).

Lemma in_periods_range (p : Z) :
  in_periods p
  ↔ 2 + Z.of_nat 0 ≤ p < 2 + Z.of_nat 0 + Z.of_nat (Z.to_nat (2 * kPeriodRange - 1)).
Proof. unfold HealthMonitor.in_periods. lia. Qed.

(** *** The monitor keeps its vectors as the constructor made them *)

Lemma new_ServerHealthMonitor_wf (kNumBuckets kNumPeriods : Z)
    sleep_period num_workers stats a b c d e (m : Monitor) :
  new_ServerHealthMonitor kNumBuckets kNumPeriods sleep_period num_workers
    stats a b c d e = Some m →
  wf m.
Proof.
  unfold new_ServerHealthMonitor.
  destruct (num_workers <? 0) eqn:Hneg; [done|].
  apply Z.ltb_ge in Hneg. intros [= <-].
  unfold wf. simpl. rewrite length_replicate. lia.
Qed.

Lemma updateVariables_wf (m : Monitor) now : wf m → wf (updateVariables now m).
Proof.
  unfold wf, updateVariables. simpl. rewrite !length_fmap. done.
Qed.

Lemma processReports_info (m m' : Monitor) now :
  processReports now m = Some m' →
  internal_info_ m' = internal_info_ (updateVariables now m).
Proof.
  unfold HealthMonitor.processReports, calculateNegativeSignal.
  destruct (isStalled now _ _) as [si|]; [|done].
  destruct (isOverloaded now _ _) as [ov|]; [|done].
  cbn [mbind option_bind]. intros [= <-].
  repeat match goal with
         | |- context [if ?c then _ else _] => destruct c
         | |- context [match ?c with HEALTHY => _ | _ => _ end] => destruct c
         end; reflexivity.
Qed.

Lemma processReports_wf (m m' : Monitor) now :
  wf m → processReports now m = Some m' → wf m'.
Proof.
  intros Hwf Hm'. apply (updateVariables_wf m now) in Hwf.
  unfold wf in *. by rewrite (processReports_info m m' now Hm').
Qed.

Lemma add_at_shape idx tp duration (v v' : vector TS) :
  add_at idx tp duration v = Some v' →
  capacity v' = capacity v ∧ length (data v') = length (data v).
Proof.
  unfold add_at.
  destruct ((0 <=? idx) && (idx <? Z.of_nat (capacity v)));
    [|by intros [= <-]].
  destruct (data v !! Z.to_nat idx); [|done].
  intros [= <-]. simpl. by rewrite length_insert.
Qed.

Lemma reportWorkerStall_wf (m m' : Monitor) idx tp duration :
  wf m → reportWorkerStall idx tp duration m = Some m' → wf m'.
Proof.
  unfold reportWorkerStall, wf.
  destruct (shutdown_ m); [by intros ? [= <-]|].
  destruct (add_at _ _ _ _) as [v|] eqn:Hv; [|done].
  apply add_at_shape in Hv as [Hc Hl].
  intros (H1 & H2 & H3 & H4) [= <-]. simpl. rewrite Hc, Hl. done.
Qed.

Lemma reportWorkerQueueStall_wf (m m' : Monitor) idx tp duration :
  wf m → reportWorkerQueueStall idx tp duration m = Some m' → wf m'.
Proof.
  unfold reportWorkerQueueStall, wf.
  destruct (shutdown_ m); [by intros ? [= <-]|].
  destruct (add_at _ _ _ _) as [v|] eqn:Hv; [|done].
  apply add_at_shape in Hv as [Hc Hl].
  intros (H1 & H2 & H3 & H4) [= <-]. simpl. rewrite Hc, Hl. done.
Qed.

(** *** isStalled *)

Lemma stalled_period_spec (m : Monitor) now hp t p :
  stalled_period m now hp t p
  = Some (bool_decide (stall_predicate avg_ge_uint64 m now hp t p),
          bool_decide (stall_predicate avg_ge_uint64 m now hp t p)
          && bool_decide
               (avg_ge_uint64 (window_sum now hp t p)
                  (window_count now hp t p) (sleep_period_ m))).
Proof.
  unfold stalled_period, stall_predicate, window_sum, window_count.
  set (s := ts_sum t _ _). set (c := ts_count t _ _).
  destruct (0 <? c)%N eqn:Hc.
  - apply N.ltb_lt in Hc. rewrite duration_div_pos by done. simpl.
    rewrite !quotient_ge_spec.
    destruct (decide (avg_ge_uint64 s c (max_stalls_avg_ m))) as [Havg|Havg].
    + assert (Hp : (0 < c)%N ∧ avg_ge_uint64 s c (max_stalls_avg_ m))
        by done.
      rewrite (bool_decide_eq_true_2 _ Havg), (bool_decide_eq_true_2 _ Hp).
      reflexivity.
    + assert (Hp : ¬ ((0 < c)%N ∧ avg_ge_uint64 s c (max_stalls_avg_ m)))
        by (intros [_ ?]; done).
      rewrite (bool_decide_eq_false_2 _ Havg), (bool_decide_eq_false_2 _ Hp).
      reflexivity.
  - apply N.ltb_ge in Hc.
    assert (Hp : ¬ ((0 < c)%N ∧ avg_ge_uint64 s c (max_stalls_avg_ m)))
      by (intros [? _]; lia).
    rewrite (bool_decide_eq_false_2 _ Hp). reflexivity.
Qed.

Lemma stalled_loop_spec (m : Monitor) now hp t (n : nat) :
  ∀ (a : nat) (crit : Z),
  ∃ (b : bool) (k : Z),
    stalled_loop m now hp t (range a n) crit = Some (b, crit + k)
    ∧ (b = true
       ↔ ∃ p, 2 + Z.of_nat a ≤ p < 2 + Z.of_nat a + Z.of_nat n
              ∧ stall_predicate avg_ge_uint64 m now hp t p)
    ∧ (k = 0 ∨ k = 1)
    ∧ (k = 1
       ↔ ∃ p, 2 + Z.of_nat a ≤ p < 2 + Z.of_nat a + Z.of_nat n
              ∧ stall_predicate avg_ge_uint64 m now hp t p
              ∧ (∀ p', 2 + Z.of_nat a ≤ p' < 2 + Z.of_nat a + Z.of_nat n →
                       p' < p → ¬ stall_predicate avg_ge_uint64 m now hp t p')
              ∧ avg_ge_uint64 (window_sum now hp t p)
                  (window_count now hp t p) (sleep_period_ m)).
Proof.
  induction n as [|n IH]; intros a crit.
  - exists false, 0. simpl. rewrite Z.add_0_r.
    split; [reflexivity|]. split; [|split; [auto|]].
    + split; [done|]. intros (p & Hp & _). lia.
    + split; [done|]. intros (p & Hp & _). lia.
  - cbn [seq fmap list_fmap stalled_loop].
    rewrite stalled_period_spec. cbn [mbind option_bind fst snd].
    set (p0 := 2 + Z.of_nat a).
    destruct (decide (stall_predicate avg_ge_uint64 m now hp t p0)) as [Hp0|Hp0].
    + rewrite (bool_decide_eq_true_2 _ Hp0). cbn [andb].
      case_bool_decide as Hcrit.
      * exists true, 1.
        split; [reflexivity|]. split; [|split; [auto|]].
        -- split; [|done]. intros _. exists p0. split; [lia|done].
        -- split; [|done]. intros _. exists p0.
           split; [lia|]. split; [done|]. split; [|done].
           intros p' Hp' Hlt. lia.
      * exists true, 0.
        split; [reflexivity|]. split; [|split; [auto|]].
        -- split; [|done]. intros _. exists p0. split; [lia|done].
        -- split; [done|]. intros (p & Hp & Hst & Hfirst & Hsleep).
           destruct (decide (p = p0)) as [->|Hne]; [done|].
           exfalso. apply (Hfirst p0); [lia|lia|done].
    + rewrite (bool_decide_eq_false_2 _ Hp0). cbn [andb].
      destruct (IH (S a) crit) as (b & k & Hloop & Hb & Hk01 & Hk).
      exists b, k. split; [exact Hloop|].
      split; [|split; [exact Hk01|]].
      * rewrite Hb. split; intros (p & Hp & Hst).
        -- exists p. split; [lia|done].
        -- exists p. split; [|done].
           destruct (decide (p = p0)) as [->|Hne]; [done|lia].
      * rewrite Hk. split; intros (p & Hp & Hst & Hfirst & Hsleep).
        -- exists p. split; [lia|]. split; [done|]. split; [|done].
           intros p' Hp' Hlt.
           destruct (decide (p' = p0)) as [->|Hne]; [done|].
           apply Hfirst; lia.
        -- exists p.
           assert (p ≠ p0) by (intros ->; done).
           split; [lia|]. split; [done|]. split; [|done].
           intros p' Hp' Hlt. apply Hfirst; lia.
Qed.

(** The predicate that isStalled gives to count_if. *)
Lemma stalled_worker_spec (m : Monitor) now hp t (crit : Z) :
  ∃ (b : bool) (k : Z),
    stalled_worker m now hp t crit = Some (b, crit + k)
    ∧ (b = true ↔ Stalled avg_ge_uint64 m now hp t)
    ∧ (k = 0 ∨ k = 1)
    ∧ (k = 1 ↔ CriticallyStalledFirst avg_ge_uint64 m now hp t).
Proof.
  destruct (stalled_loop_spec m now hp t
              (Z.to_nat (2 * kPeriodRange - 1)) 0%nat crit)
    as (b & k & Hloop & Hb & Hk01 & Hk).
  exists b, k. split; [exact Hloop|]. split; [|split; [exact Hk01|]].
  - rewrite Hb. unfold HealthMonitor.Stalled.
    split; intros (p & Hp & Hst); exists p;
      (split; [by apply in_periods_range|done]).
  - rewrite Hk. unfold HealthMonitor.CriticallyStalledFirst.
    split; intros (p & Hp & Hst & Hfirst & Hsleep); exists p;
      (split; [by apply in_periods_range|]); (split; [done|]);
      (split; [|done]); intros p' Hp' Hlt; apply Hfirst;
      try done; by apply in_periods_range.
Qed.

Lemma count_stalled_spec (m : Monitor) now hp (l : list TS) :
  ∀ crit : Z,
  ∃ n c : nat,
    count_stalled kPeriodRange m now hp l crit = Some (n, crit + Z.of_nat c)
    ∧ counts (Stalled avg_ge_uint64 m now hp) l n
    ∧ counts (CriticallyStalledFirst avg_ge_uint64 m now hp) l c.
Proof.
  induction l as [|t l IH]; intros crit.
  - exists O, O. simpl. rewrite Z.add_0_r. repeat constructor.
  - destruct (stalled_worker_spec m now hp t crit)
      as (b & k & Hw & Hb & Hk01 & Hk).
    destruct (IH (crit + k)) as (n & c & Hl & Hn & Hc).
    cbn [count_stalled]. rewrite Hw. cbn [mbind option_bind snd fst].
    rewrite Hl. cbn [mbind option_bind snd fst].
    assert (HS : ∀ b', b = b' →
              counts (Stalled avg_ge_uint64 m now hp) (t :: l) (if b' then S n else n)).
    { intros [] ->.
      - apply counts_yes; [by apply Hb|done].
      - apply counts_no; [|done]. rewrite <- Hb. done. }
    destruct Hk01 as [-> | ->].
    + exists (if b then S n else n), c.
      split; [by rewrite Z.add_0_r in *|]. split; [by apply HS|].
      apply counts_no; [|done]. rewrite <- Hk. done.
    + exists (if b then S n else n), (S c).
      split; [f_equal; f_equal; lia|]. split; [by apply HS|].
      apply counts_yes; [|done]. by apply Hk.
Qed.

Lemma wf_workers (m : Monitor) :
  wf m →
  double_of_nat (capacity (worker_stalls_ (internal_info_ m)))
  = double_of_Z (num_workers_ (internal_info_ m))
  ∧ double_of_nat (capacity (worker_queue_stalls_ (internal_info_ m)))
    = double_of_Z (num_workers_ (internal_info_ m)).
Proof. intros (H1 & H2 & _). unfold double_of_nat. by rewrite <- H1, <- H2. Qed.

(** For windows, thresholds and a sleep period that are not negative,
    the predicates of the code are those of the integers. *)
Lemma stall_predicate_non_negative (m : Monitor) now hp t p :
  non_negative (max_stalls_avg_ m) →
  non_negative (window_sum now hp t p) →
  stall_predicate avg_ge_uint64 m now hp t p
  ↔ stall_predicate avg_ge m now hp t p.
Proof.
  intros Hm Hs. unfold stall_predicate.
  by rewrite avg_ge_uint64_non_negative.
Qed.

Lemma Stalled_non_negative (m : Monitor) now hp t :
  non_negative (max_stalls_avg_ m) →
  non_negative_windows now hp t →
  Stalled avg_ge_uint64 m now hp t ↔ Stalled avg_ge m now hp t.
Proof.
  intros Hm Hs. unfold HealthMonitor.Stalled.
  split; intros (p & Hp & Hst); exists p; (split; [done|]);
    by apply (stall_predicate_non_negative m now hp t p Hm (Hs p Hp)).
Qed.

Lemma CriticallyStalledFirst_non_negative (m : Monitor) now hp t :
  non_negative (max_stalls_avg_ m) →
  non_negative (sleep_period_ m) →
  non_negative_windows now hp t →
  CriticallyStalledFirst avg_ge_uint64 m now hp t
  ↔ CriticallyStalledFirst avg_ge m now hp t.
Proof.
  intros Hm Hsl Hs. unfold HealthMonitor.CriticallyStalledFirst.
  split; intros (p & Hp & Hst & Hfirst & Hcrit); exists p;
    (split; [done|]);
    (split;
     [by apply (stall_predicate_non_negative m now hp t p Hm (Hs p Hp))|]);
    (split;
     [|by apply (avg_ge_uint64_non_negative _ _ _ (Hs p Hp) Hsl)]);
    intros p' Hp' Hlt Hst'; apply (Hfirst p' Hp' Hlt);
    by apply (stall_predicate_non_negative m now hp t p' Hm (Hs p' Hp')).
Qed.

(** C3. At time [now], with half_period = sleep_period / 2: the
    predicate of isStalled says that a worker is stalled exactly when, for
    some p in [2, 2 * period_range], the window of period p of its stall
    series has count > 0 and sum / count >= max_stalls_avg; it then adds
    one to critically_stalled exactly when the first such window, in the
    order of p, also has sum / count >= sleep_period.  isStalled returns
    that number of workers, and its stalled flag is the comparison, in
    doubles, of the number of stalled workers with
    max_stalled_worker_percentage * num_workers.  The quotient sum / count
    and its comparisons are those of the code, in uint64_t; for a series
    whose windows have sums that are not negative, and thresholds that are
    not negative, they are the quotient and the order of the integers. *)
Theorem C3_isStalled (m : Monitor) (now : TimePoint) :
  wf m →
  let half_period := sleep_period_ m ÷ 2 in
  let workers := data (worker_stalls_ (internal_info_ m)) in
  (∀ (t : TS) (crit : Z),
     ∃ (b : bool) (k : Z),
       stalled_worker m now half_period t crit = Some (b, crit + k)
       ∧ (b = true ↔ Stalled avg_ge_uint64 m now half_period t)
       ∧ (k = 0 ∨ k = 1)
       ∧ (k = 1 ↔ CriticallyStalledFirst avg_ge_uint64 m now half_period t))
  ∧ (∃ (info : StallInfo) (n c : nat),
       isStalled now half_period m = Some info
       ∧ counts (Stalled avg_ge_uint64 m now half_period) workers n
       ∧ counts (CriticallyStalledFirst avg_ge_uint64 m now half_period)
           workers c
       ∧ critically_stalled_ info = Z.of_nat c
       ∧ stalled_ info
         = PrimFloat.leb
             (PrimFloat.mul (max_stalled_worker_percentage_ m)
                (PrimFloat.of_uint63
                   (Uint63.of_Z (num_workers_ (internal_info_ m)))))
             (PrimFloat.of_uint63 (Uint63.of_Z (Z.of_nat n))))
  ∧ (∀ t : TS,
       non_negative (max_stalls_avg_ m) →
       non_negative (sleep_period_ m) →
       non_negative_windows now half_period t →
       (Stalled avg_ge_uint64 m now half_period t
        ↔ Stalled avg_ge m now half_period t)
       ∧ (CriticallyStalledFirst avg_ge_uint64 m now half_period t
          ↔ CriticallyStalledFirst avg_ge m now half_period t)).
Proof.
  intros Hwf half_period workers.
  split; [intros t crit; apply stalled_worker_spec|]. split.
  - destruct (count_stalled_spec m now half_period workers 0)
      as (n & c & Hcount & Hn & Hc).
    destruct Hwf as (Hcap & _).
    unfold HealthMonitor.isStalled. fold workers. rewrite Hcount.
    cbn [mbind option_bind fst snd].
    eexists _, n, c. split; [reflexivity|].
    split; [done|]. split; [done|]. cbn [critically_stalled_ stalled_].
    split; [lia|]. cbv beta zeta in Hcap. rewrite Hcap. reflexivity.
  - intros t Hm Hsl Hs. split.
    + by apply Stalled_non_negative.
    + by apply CriticallyStalledFirst_non_negative.
Qed.

(** *** isOverloaded *)

Lemma overloaded_period_spec (m : Monitor) now hp t p :
  overloaded_period m now hp t p
  = if max_queue_stall_duration_ m <=? window_sum now hp t p
    then if bool_decide (window_count now hp t p = 0%N) then None
         else Some (bool_decide
                      (avg_ge_uint64 (window_sum now hp t p)
                         (window_count now hp t p)
                         (max_queue_stalls_avg_ m)))
    else Some false.
Proof.
  unfold overloaded_period, window_sum, window_count, duration_div.
  rewrite geb_leb.
  destruct (max_queue_stall_duration_ m <=? _); [|reflexivity].
  case_bool_decide; [reflexivity|]. simpl. by rewrite quotient_ge_spec.
Qed.

Lemma overloaded_loop_spec (m : Monitor) now hp t (n : nat) :
  ∀ a : nat,
    match overloaded_loop m now hp t (range a n) with
    | Some b =>
        b = true
        ↔ ∃ p, 2 + Z.of_nat a ≤ p < 2 + Z.of_nat a + Z.of_nat n
               ∧ overload_predicate avg_ge_uint64 m now hp t p
    | None =>
        ∃ p, 2 + Z.of_nat a ≤ p < 2 + Z.of_nat a + Z.of_nat n
             ∧ division_by_zero m now hp t p
    end.
Proof.
  induction n as [|n IH]; intros a.
  - simpl. split; [done|]. intros (p & Hp & _). lia.
  - cbn [seq fmap list_fmap overloaded_loop].
    rewrite overloaded_period_spec.
    set (p0 := 2 + Z.of_nat a).
    assert (Hrest : ¬ overload_predicate avg_ge_uint64 m now hp t p0 →
      match overloaded_loop m now hp t (range (S a) n) with
      | Some b =>
          b = true
          ↔ ∃ p, 2 + Z.of_nat a ≤ p < 2 + Z.of_nat a + Z.of_nat (S n)
                 ∧ overload_predicate avg_ge_uint64 m now hp t p
      | None =>
          ∃ p, 2 + Z.of_nat a ≤ p < 2 + Z.of_nat a + Z.of_nat (S n)
               ∧ division_by_zero m now hp t p
      end).
    { intros Hp0. specialize (IH (S a)).
      destruct (overloaded_loop m now hp t (range (S a) n)) as [b|].
      - rewrite IH. split; intros (p & Hp & Hov).
        + exists p. split; [lia|done].
        + exists p. split; [|done].
          destruct (decide (p = p0)) as [->|Hne]; [done|lia].
      - destruct IH as (p & Hp & Hz). exists p. split; [lia|done]. }
    destruct (max_queue_stall_duration_ m <=? window_sum now hp t p0)
      eqn:Hsum.
    + apply Z.leb_le in Hsum. case_bool_decide as Hcount.
      * simpl. exists p0. split; [lia|done].
      * cbn [mbind option_bind].
        case_bool_decide as Havg.
        -- split; [|done]. intros _.
           exists p0. split; [lia|done].
        -- apply Hrest. intros [_ Hge]. done.
    + apply Z.leb_gt in Hsum. cbn [mbind option_bind].
      apply Hrest. intros [Hge _]. lia.
Qed.

(** The predicate that isOverloaded gives to count_if. *)
Lemma overloaded_worker_spec (m : Monitor) now hp t :
  match overloaded_worker m now hp t with
  | Some b => b = true ↔ Overloaded avg_ge_uint64 m now hp t
  | None => ∃ p, in_periods p ∧ division_by_zero m now hp t p
  end.
Proof.
  pose proof (overloaded_loop_spec m now hp t
                (Z.to_nat (2 * kPeriodRange - 1)) 0%nat) as H.
  unfold HealthMonitor.overloaded_worker, HealthMonitor.periods.
  destruct (overloaded_loop m now hp t _) as [b|].
  - rewrite H. unfold HealthMonitor.Overloaded.
    split; intros (p & Hp & Hov); exists p;
      (split; [by apply in_periods_range|done]).
  - destruct H as (p & Hp & Hz). exists p.
    split; [by apply in_periods_range|done].
Qed.

Lemma count_if_overloaded (m : Monitor) now hp (l : list TS) :
  match count_if (overloaded_worker m now hp) l with
  | Some n => counts (Overloaded avg_ge_uint64 m now hp) l n
  | None => ∃ t p, t ∈ l ∧ in_periods p ∧ division_by_zero m now hp t p
  end.
Proof.
  induction l as [|t l IH]; [constructor|].
  cbn [count_if].
  pose proof (overloaded_worker_spec m now hp t) as Ht.
  destruct (overloaded_worker m now hp t) as [b|]; cbn [mbind option_bind].
  - destruct (count_if (overloaded_worker m now hp) l) as [n|];
      cbn [mbind option_bind].
    + destruct b.
      * apply counts_yes; [by apply Ht|done].
      * apply counts_no; [|done]. rewrite <- Ht. done.
    + destruct IH as (t' & p & Hin & Hp & Hz).
      exists t', p. split; [by apply list_elem_of_further|done].
  - destruct Ht as (p & Hp & Hz).
    exists t, p. split; [apply list_elem_of_here|done].
Qed.



(** *** Division by zero *)

Lemma no_division_by_zero (m : Monitor) now hp t p :
  0 < max_queue_stall_duration_ m →
  empty_window_sums_to_zero t →
  ¬ division_by_zero m now hp t p.
Proof.
  intros Hpos Hempty [Hsum Hcount].
  unfold window_sum, window_count in *.
  rewrite (Hempty _ _ Hcount) in Hsum. lia.
Qed.

Lemma isStalled_defined (m : Monitor) now hp : is_Some (isStalled now hp m).
Proof.
  unfold HealthMonitor.isStalled.
  destruct (count_stalled_spec m now hp
              (data (worker_stalls_ (internal_info_ m))) 0)
    as (n & c & -> & _).
  eexists. reflexivity.
Qed.

(** C10. In the predicate of isOverloaded the average is computed only
    when the sum of the window is at least max_queue_stall_duration: for a
    smaller sum the test of the period is false without a division.  So,
    when max_queue_stall_duration > 0 and a window without samples of a
    queue-stall series has a zero sum, no period, no worker and no
    evaluation of isOverloaded divides by zero.  isStalled tests
    count > 0 before it divides, and never divides by zero, whatever
    the series. *)
Theorem C10_no_division_by_zero (m : Monitor) (now : TimePoint)
    (half_period : milliseconds) :
  0 < max_queue_stall_duration_ m →
  (∀ t : TS, t ∈ data (worker_queue_stalls_ (internal_info_ m)) →
             empty_window_sums_to_zero t) →
  (∀ (t : TS) (p : Z),
     window_sum now half_period t p < max_queue_stall_duration_ m →
     overloaded_period m now half_period t p = Some false)
  ∧ (∀ (t : TS) (p : Z),
       t ∈ data (worker_queue_stalls_ (internal_info_ m)) →
       is_Some (overloaded_period m now half_period t p))
  ∧ (∀ t : TS,
       t ∈ data (worker_queue_stalls_ (internal_info_ m)) →
       is_Some (overloaded_worker m now half_period t))
  ∧ is_Some (isOverloaded now half_period m)
  ∧ (∀ (t : TS) (p : Z), is_Some (stalled_period m now half_period t p))
  ∧ is_Some (isStalled now half_period m).
Proof.
  intros Hpos Hempty.
  split; [|split; [|split; [|split; [|split]]]].
  - intros t p Hlt. rewrite overloaded_period_spec.
    apply Z.leb_gt in Hlt. by rewrite Hlt.
  - intros t p Hin. rewrite overloaded_period_spec.
    destruct (max_queue_stall_duration_ m <=? _) eqn:Hsum; [|by eexists].
    apply Z.leb_le in Hsum. case_bool_decide as Hcount; [|by eexists].
    exfalso. apply (no_division_by_zero m now half_period t p Hpos);
      [by apply Hempty|done].
  - intros t Hin.
    pose proof (overloaded_worker_spec m now half_period t) as H.
    destruct (overloaded_worker m now half_period t); [by eexists|].
    destruct H as (p & _ & Hz). exfalso.
    apply (no_division_by_zero m now half_period t p Hpos);
      [by apply Hempty|done].
  - pose proof (count_if_overloaded m now half_period
                  (data (worker_queue_stalls_ (internal_info_ m)))) as H.
    unfold HealthMonitor.isOverloaded.
    destruct (count_if _ _); [by eexists|].
    destruct H as (t & p & Hin & _ & Hz). exfalso.
    apply (no_division_by_zero m now half_period t p Hpos);
      [by apply Hempty|done].
  - intros t p. rewrite stalled_period_spec. by eexists.
  - apply isStalled_defined.
Qed.

(** *** processReports *)

(** C5. A tick of the monitor, processReports at time [now], first lets
    the series and the state timer see [now] (updateVariables), then
    evaluates the windows.  With [si] and [ov] the results of isStalled
    and isOverloaded of that tick: the pair negativeFeedback,
    positiveFeedback(now) is applied to the timer once if
    health_monitor_delay, watchdog_delay, total_stalled_workers > 0 or the
    stalled flag of [si] holds, and once more if critically_stalled of
    [si] is above zero; the node state is then UNHEALTHY if sleep_period <
    the timer's current value, else OVERLOADED if [ov], else HEALTHY.  The
    tick has no result only when isOverloaded divides by zero. *)
Theorem C5_processReports (m : Monitor) (now : TimePoint) :
  let half_period := sleep_period_ m ÷ 2 in
  let m1 := updateVariables now m in
  match processReports now m with
  | Some m' =>
      ∃ (si : StallInfo) (ov : bool),
        isStalled now half_period m1 = Some si
        ∧ isOverloaded now half_period m1 = Some ov
        ∧ stall_info_ m' = si
        ∧ overloaded_ m' = ov
        ∧ state_timer_ m'
          = Nat.iter
              ((if health_monitor_delay_ (internal_info_ m)
                   || watchdog_delay_ (internal_info_ m)
                   || (0 <? total_stalled_workers (internal_info_ m))%Z
                   || stalled_ si
                then 1 else 0)
               + (if (0 <? critically_stalled_ si)%Z then 1 else 0))%nat
              (λ timer, positiveFeedback (negativeFeedback timer) now)
              (positiveFeedback (state_timer_ m) now)
        ∧ node_state_ m'
          = (if sleep_period_ m <? getCurrentValue (state_timer_ m')
             then UNHEALTHY
             else if ov then OVERLOADED else HEALTHY)
  | None => isOverloaded now half_period m1 = None
  end.
Proof.
  intros half_period m1.
  unfold HealthMonitor.processReports, calculateNegativeSignal.
  fold m1. change (sleep_period_ m1 ÷ 2) with half_period.
  destruct (isStalled_defined m1 now half_period) as [si Hsi].
  rewrite Hsi. cbn [mbind option_bind].
  destruct (isOverloaded now half_period m1) as [ov|];
    cbn [mbind option_bind]; [|reflexivity].
  exists si, ov. split; [reflexivity|]. split; [reflexivity|].
  unfold negative_signal, stat_add.
  cbn [with_signal with_stats with_timer with_node_state with_info
       stall_info_ overloaded_ internal_info_ state_timer_ sleep_period_
       node_state_ stats_].
  change (internal_info_ m1) with
    {| num_workers_ := num_workers_ (internal_info_ m);
       worker_stalls_ :=
         for_each (λ t, ts_update t now) (worker_stalls_ (internal_info_ m));
       worker_queue_stalls_ :=
         for_each (λ t, ts_update t now)
                  (worker_queue_stalls_ (internal_info_ m));
       watchdog_delay_ := watchdog_delay_ (internal_info_ m);
       total_stalled_workers := total_stalled_workers (internal_info_ m);
       health_monitor_delay_ := health_monitor_delay_ (internal_info_ m) |}.
  cbn [health_monitor_delay_ watchdog_delay_ total_stalled_workers].
  change (state_timer_ m1) with (positiveFeedback (state_timer_ m) now).
  change (sleep_period_ m1) with (sleep_period_ m).
  destruct (health_monitor_delay_ (internal_info_ m)
            || watchdog_delay_ (internal_info_ m)
            || (0 <? total_stalled_workers (internal_info_ m))
            || stalled_ si);
    cbn [with_signal with_stats with_timer with_node_state with_info
         stall_info_ overloaded_ internal_info_ state_timer_ sleep_period_
         node_state_ stats_];
    destruct (0 <? critically_stalled_ si);
    cbn [with_signal with_stats with_timer with_node_state with_info
         stall_info_ overloaded_ internal_info_ state_timer_ sleep_period_
         node_state_ stats_ Nat.iter nat_rect Nat.add];
    change (sleep_period_ m1) with (sleep_period_ m);
    destruct (sleep_period_ m <? getCurrentValue _) eqn:Hlt; destruct ov;
    cbn [with_signal with_stats with_timer with_node_state with_info
         stall_info_ overloaded_ internal_info_ state_timer_ sleep_period_
         node_state_ stats_];
    rewrite ?Hlt; repeat split; reflexivity.
Qed.

End Facts.

(** *** The properties on examples *)

Lemma SampleSeries_empty_window (t : Examples.SampleSeries) :
  empty_window_sums_to_zero t.
Proof.
  intros a b. simpl.
  destruct (Examples.samples_in t a b); simpl; [reflexivity|lia].
Qed.

Lemma monitor_wf : wf Examples.monitor.
Proof. vm_compute. auto. Qed.

(** Two of four workers have overloaded queues and one worker is
    critically stalled: the node is overloaded, not stalled, the timer
    gets one feedback, and the state is UNHEALTHY. *)
Example tick_of_the_loaded_monitor :
  HealthMonitor.isOverloaded 2 1000 50 Examples.monitor = Some true
  ∧ HealthMonitor.isStalled 2 1000 50 Examples.monitor
    = Some {| critically_stalled_ := 1; stalled_ := false |}
  ∧ (λ m, (node_state_ m, getCurrentValue (state_timer_ m)))
    <$> HealthMonitor.processReports 2 1000 Examples.monitor
    = Some (UNHEALTHY, 200).
Proof. repeat split; reflexivity. Qed.

(** A report of stalled workers is a negative signal of the next tick: the
    loop wakes on time, applies the feedback once and goes on. *)
Example wake_after_stalled_workers :
  (λ r : Examples.Monitor * bool,
     (node_state_ r.1, getCurrentValue (state_timer_ r.1), r.2))
  <$> (Examples.fresh
       ≫= λ m, HealthMonitor.wake 2 500 1100 1100 1101
                 (monitorLoop 1000 (reportStalledWorkers 1 m)))
  = Some (UNHEALTHY, 200, true).
Proof. reflexivity. Qed.

(** A monitor without reports stays healthy. *)
Example tick_of_the_fresh_monitor :
  (λ m, (node_state_ m, getCurrentValue (state_timer_ m)))
  <$> (Examples.fresh ≫= HealthMonitor.processReports 2 1000)
  = Some (HEALTHY, 100).
Proof. reflexivity. Qed.

(** With max_queue_stall_duration = 0, a window without samples makes
    isOverloaded divide by zero. *)
Example division_by_zero_without_threshold :
  (Examples.with_queue_stall_duration 0 <$> Examples.fresh)
  ≫= HealthMonitor.isOverloaded 2 1000 50
  = None.
Proof. reflexivity. Qed.

(** C3, as stated, fails: the windows of periods 3 and 4 of the worker
    hold one stall of 120ms, which is at least max_stalls_avg (40ms) and
    at least the sleep period (100ms), so that the worker is stalled and
    one of its windows has sum / count >= sleep_period; but the window of
    period 2, which the code meets first, holds one stall of 50ms, and the
    worker is not counted as critically stalled. *)
Lemma C3_counterexample :
  let t := {| Examples.duration_ := 300;
              Examples.samples := [(960, 50); (860, 120)] |} in
  t ∈ data (worker_stalls_ (internal_info_ Examples.two_windows))
  ∧ HealthMonitor.CriticallyStalled 2 avg_ge Examples.two_windows 1000 50 t
  ∧ HealthMonitor.stalled_worker 2 Examples.two_windows 1000 50 t 0
    = Some (true, 0)
  ∧ critically_stalled_
    <$> HealthMonitor.isStalled 2 1000 50 Examples.two_windows
    = Some 0.
Proof.
  split; [vm_compute; left|]. split; [|split; reflexivity].
  exists 3. split; [unfold in_periods; lia|]. split; [split|].
  - reflexivity.
  - vm_compute. discriminate.
  - vm_compute. discriminate.
Qed.

Lemma C3_witness :
  (∃ (info : StallInfo) (n c : nat),
     HealthMonitor.isStalled 2 1000 50 Examples.monitor = Some info
     ∧ counts (HealthMonitor.Stalled 2 avg_ge_uint64 Examples.monitor 1000 50)
         (data (worker_stalls_ (internal_info_ Examples.monitor))) n
     ∧ counts
         (HealthMonitor.CriticallyStalledFirst 2 avg_ge_uint64
            Examples.monitor 1000 50)
         (data (worker_stalls_ (internal_info_ Examples.monitor))) c
     ∧ critically_stalled_ info = Z.of_nat c
     ∧ stalled_ info
       = PrimFloat.leb
           (PrimFloat.mul 0.5%float (PrimFloat.of_uint63 (Uint63.of_Z 4)))
           (PrimFloat.of_uint63 (Uint63.of_Z (Z.of_nat n))))
  ∧ (let t := {| Examples.duration_ := 300;
                 Examples.samples := [(950, 120)] |} in
     (HealthMonitor.Stalled 2 avg_ge_uint64 Examples.monitor 1000 50 t
      ↔ HealthMonitor.Stalled 2 avg_ge Examples.monitor 1000 50 t)
     ∧ (HealthMonitor.CriticallyStalledFirst 2 avg_ge_uint64
          Examples.monitor 1000 50 t
        ↔ HealthMonitor.CriticallyStalledFirst 2 avg_ge
            Examples.monitor 1000 50 t)).
Proof.
  pose proof (C3_isStalled 2 Examples.monitor 1000 monitor_wf)
    as (_ & Hnode & Hint).
  split; [exact Hnode|].
  apply Hint.
  - vm_compute. split; discriminate.
  - vm_compute. split; discriminate.
  - intros p [Hlo Hhi].
    assert (Hp : p = 2 ∨ p = 3 ∨ p = 4) by lia.
    destruct Hp as [->|[->| ->]]; vm_compute; split; discriminate.
Defined.


Lemma C10_witness :
  is_Some (HealthMonitor.isOverloaded 2 1000 50 Examples.monitor)
  ∧ is_Some (HealthMonitor.isStalled 2 1000 50 Examples.monitor).
Proof.
  refine (let H :=
            C10_no_division_by_zero 2 Examples.monitor 1000 50
              ltac:(reflexivity)
              (λ t _, SampleSeries_empty_window t)
          in conj (proj1 (proj2 (proj2 (proj2 H))))
                  (proj2 (proj2 (proj2 (proj2 (proj2 H)))))).
Defined.

End HealthMonitorFacts.

(* ================================================================== *)
(** ** More properties of the health monitor *)

Module HealthMonitorMore.

Import HealthMonitor HealthMonitorFacts.

Section More.

Context {TS Timer : Type} `{!TimeSeriesOps TS} `{!StateTimerOps Timer}.
Variable kPeriodRange : Z.
Variable kMaxLoopStall : milliseconds.

Abbreviation Monitor := (ServerHealthMonitor (TS := TS) (Timer := Timer)).
Abbreviation isStalled := (HealthMonitor.isStalled kPeriodRange).
Abbreviation isOverloaded := (HealthMonitor.isOverloaded kPeriodRange).
Abbreviation Stalled := (HealthMonitor.Stalled kPeriodRange).
Abbreviation CriticallyStalledFirst :=
  (HealthMonitor.CriticallyStalledFirst kPeriodRange).
Abbreviation calculateNegativeSignal :=
  (HealthMonitor.calculateNegativeSignal kPeriodRange).
Abbreviation processReports := (HealthMonitor.processReports kPeriodRange).
Abbreviation wake := (HealthMonitor.wake kPeriodRange kMaxLoopStall).
Abbreviation call := (HealthMonitor.call kPeriodRange kMaxLoopStall).
Abbreviation calls := (HealthMonitor.calls kPeriodRange kMaxLoopStall).

(** What a call may change is the state of the analysis. *)
Abbreviation kept m m' :=
  (settings m' = settings m
   ∧ sizes m' = sizes m
   ∧ (shutdown_ m = true → shutdown_ m' = true)
   ∧ (stats_ m = None → stats_ m' = None)).

Lemma kept_refl (m : Monitor) : kept m m.
Proof. done. Qed.

Lemma kept_trans (m1 m2 m3 : Monitor) : kept m1 m2 → kept m2 m3 → kept m1 m3.
Proof.
  intros (H1 & H2 & H3 & H4) (H1' & H2' & H3' & H4').
  repeat split; [congruence|congruence|auto|auto].
Qed.

Lemma updateVariables_kept (m : Monitor) now : kept m (updateVariables now m).
Proof.
  unfold updateVariables, sizes. simpl. rewrite !length_fmap. done.
Qed.

Lemma processReports_frame (m m' : Monitor) now :
  processReports now m = Some m' →
  settings m' = settings m
  ∧ shutdown_ m' = shutdown_ m
  ∧ last_entry_time_ m' = last_entry_time_ m
  ∧ (stats_ m = None → stats_ m' = None).
Proof.
  unfold HealthMonitor.processReports, HealthMonitor.calculateNegativeSignal.
  destruct (isStalled now _ _) as [si|]; [|done].
  destruct (isOverloaded now _ _) as [ov|]; [|done].
  cbn [mbind option_bind]. intros [= <-].
  repeat match goal with
         | |- context [if ?c then _ else _] => destruct c
         | |- context [match ?c with HEALTHY => _ | _ => _ end] => destruct c
         end; repeat split; try done; simpl; by intros ->.
Qed.

Lemma processReports_kept (m m' : Monitor) now :
  processReports now m = Some m' → kept m m'.
Proof.
  intros Hm'.
  destruct (processReports_frame _ _ _ Hm') as (Hs & Hsd & _ & Hst).
  split; [done|]. split; [|split; [by rewrite Hsd|done]].
  unfold sizes. rewrite (processReports_info _ _ _ _ Hm').
  apply (updateVariables_kept m now).
Qed.

Lemma add_at_kept idx tp d (m : Monitor) (v : vector TS) :
  add_at idx tp d (worker_stalls_ (internal_info_ m)) = Some v →
  kept m (with_info (set_stalls v (internal_info_ m)) m).
Proof.
  intros Hv. apply add_at_shape in Hv as [Hc Hl].
  unfold sizes. simpl. by rewrite Hc, Hl.
Qed.

Lemma add_at_queue_kept idx tp d (m : Monitor) (v : vector TS) :
  add_at idx tp d (worker_queue_stalls_ (internal_info_ m)) = Some v →
  kept m (with_info (set_queue_stalls v (internal_info_ m)) m).
Proof.
  intros Hv. apply add_at_shape in Hv as [Hc Hl].
  unfold sizes. simpl. by rewrite Hc, Hl.
Qed.

Lemma call_kept (c : Call) (m m' : Monitor) : call c m = Some m' → kept m m'.
Proof.
  destruct c as [now now'|a b c'|delayed|n|idx tp d|idx tp d|]; simpl.
  - intros [= <-]. apply (updateVariables_kept m now).
  - unfold HealthMonitor.wake.
    destruct (shutdown_ (stat_add add_num_loops 1 m)) eqn:Hsd.
    { intros [= <-]. repeat split; try done. simpl. by intros ->. }
    destruct (processReports b _) as [m1|] eqn:Hm1; [|done].
    intros [= <-]. apply processReports_kept in Hm1.
    destruct Hm1 as (H1 & H2 & H3 & H4).
    split; [exact H1|]. split; [exact H2|]. split.
    + intros Hs. change (shutdown_ m = false) in Hsd. congruence.
    + intros Hn. apply H4. simpl. by rewrite Hn.
  - intros [= <-]. unfold reportWatchdogHealth.
    destruct (shutdown_ m) eqn:Hsd; [done|].
    repeat split; done.
  - intros [= <-]. unfold reportStalledWorkers.
    destruct (shutdown_ m) eqn:Hsd; [done|].
    repeat split; done.
  - unfold reportWorkerQueueStall.
    destruct (shutdown_ m) eqn:Hsd; [by intros [= <-]|].
    destruct (add_at _ _ _ _) as [v|] eqn:Hv; [|done].
    intros [= <-].
    destruct (add_at_queue_kept _ _ _ _ _ Hv) as (K1 & K2 & K3 & K4).
    repeat split; done.
  - unfold reportWorkerStall.
    destruct (shutdown_ m) eqn:Hsd; [by intros [= <-]|].
    destruct (add_at _ _ _ _) as [v|] eqn:Hv; [|done].
    intros [= <-].
    destruct (add_at_kept _ _ _ _ _ Hv) as (K1 & K2 & K3 & K4).
    repeat split; done.
  - by intros [= <-].
Qed.

Lemma sizes_wf (m m' : Monitor) : sizes m' = sizes m → wf m → wf m'.
Proof. unfold sizes, wf. intros [= -> -> -> -> ->]. done. Qed.

(** X13. Whatever is called on a monitor, and in whatever order (the
    loop, startUp, the report methods, shutdown): the settings given to
    the constructor are never changed, nor the number of workers, nor the
    size and the capacity of the two vectors, so that a monitor whose
    vectors are as the constructor makes them stays so; shutdown is never
    undone; and a monitor without a StatsHolder never gets one. *)
Theorem X13_settings_and_sizes_are_kept (cs : list Call) (m m' : Monitor) :
  calls cs m = Some m' →
  settings m' = settings m
  ∧ sizes m' = sizes m
  ∧ (wf m → wf m')
  ∧ (shutdown_ m = true → shutdown_ m' = true)
  ∧ (stats_ m = None → stats_ m' = None).
Proof.
  intros Hcalls.
  assert (Hkept : kept m m').
  { revert m Hcalls. induction cs as [|c cs IH]; intros m; simpl.
    - intros [= <-]. apply kept_refl.
    - destruct (call c m) as [m1|] eqn:Hc; [|done]. simpl.
      intros Hcs. eapply kept_trans; [by eapply call_kept|by apply IH]. }
  destruct Hkept as (H1 & H2 & H3 & H4).
  split; [done|]. split; [done|]. split; [by apply sizes_wf|]. by split.
Qed.

(** *** No call is undefined

    The state in which no call is undefined: the vectors are as the
    constructor makes them, max_queue_stall_duration is positive, and
    every queue-stall series gives a zero sum to a window without
    samples. *)
Abbreviation sound m :=
  (wf m
   ∧ 0 < max_queue_stall_duration_ m
   ∧ Forall empty_window_sums_to_zero
       (data (worker_queue_stalls_ (internal_info_ m)))).

Lemma settings_max_queue_stall_duration (m m' : Monitor) :
  settings m' = settings m →
  max_queue_stall_duration_ m' = max_queue_stall_duration_ m.
Proof. unfold settings. intros H. by injection H. Qed.

Lemma isOverloaded_defined (m : Monitor) now hp :
  0 < max_queue_stall_duration_ m →
  Forall empty_window_sums_to_zero
    (data (worker_queue_stalls_ (internal_info_ m))) →
  is_Some (isOverloaded now hp m).
Proof.
  intros Hpos Hall. unfold HealthMonitor.isOverloaded.
  pose proof (count_if_overloaded kPeriodRange m now hp
                (data (worker_queue_stalls_ (internal_info_ m)))) as Hcount.
  destruct (count_if _ _) as [n|]; [by eexists|].
  destruct Hcount as (t & p & Hin & _ & Hdiv). exfalso.
  rewrite Forall_forall in Hall. apply list_elem_of_In in Hin.
  exact (no_division_by_zero m now hp t p Hpos (Hall t Hin) Hdiv).
Qed.

Section Series.

(** The operations of TimeSeries keep that property. *)
Hypothesis update_keeps :
  ∀ (t : TS) (now : TimePoint),
    empty_window_sums_to_zero t → empty_window_sums_to_zero (ts_update t now).
Hypothesis addValue_keeps :
  ∀ (t : TS) (tp : TimePoint) (d : milliseconds),
    empty_window_sums_to_zero t →
    empty_window_sums_to_zero (ts_addValue t tp d).

Lemma updateVariables_sound (m : Monitor) now :
  sound m → sound (updateVariables now m).
Proof.
  intros (Hwf & Hpos & Hall).
  split; [by apply updateVariables_wf|]. split; [done|].
  simpl. apply Forall_fmap. rewrite Forall_forall in *.
  intros t Ht. simpl. by apply update_keeps, Hall.
Qed.

Lemma processReports_defined (m : Monitor) now :
  sound m → ∃ m', processReports now m = Some m' ∧ sound m'.
Proof.
  intros Hsound.
  pose proof (updateVariables_sound m now Hsound) as (Hwf1 & Hpos1 & Hall1).
  destruct (processReports now m) as [m'|] eqn:Hm'.
  - exists m'. split; [done|].
    destruct (processReports_frame _ _ _ Hm') as (Hs & _).
    split; [by eapply processReports_wf; [apply Hsound|]|].
    split.
    + rewrite (settings_max_queue_stall_duration _ _ Hs). apply Hsound.
    + by rewrite (processReports_info _ _ _ _ Hm').
  - exfalso. revert Hm'.
    unfold HealthMonitor.processReports, HealthMonitor.calculateNegativeSignal.
    destruct (isStalled_defined kPeriodRange (updateVariables now m) now
                (sleep_period_ (updateVariables now m) ÷ 2)) as [si ->].
    destruct (isOverloaded_defined (updateVariables now m) now
                (sleep_period_ (updateVariables now m) ÷ 2) Hpos1 Hall1)
      as [ov ->].
    done.
Qed.

Lemma add_at_defined idx tp d (v : vector TS) :
  length (data v) = capacity v →
  ∃ v', add_at idx tp d v = Some v'
        ∧ (Forall empty_window_sums_to_zero (data v) →
           Forall empty_window_sums_to_zero (data v')).
Proof.
  intros Hlen. unfold add_at.
  destruct ((0 <=? idx) && (idx <? Z.of_nat (capacity v))) eqn:Hin;
    [|by eexists].
  apply andb_prop in Hin as [H0 Hlt].
  apply Z.leb_le in H0. apply Z.ltb_lt in Hlt.
  destruct (lookup_lt_is_Some_2 (data v) (Z.to_nat idx)) as [t Ht]; [lia|].
  rewrite Ht. eexists. split; [done|]. simpl.
  intros Hall. apply Forall_insert; [done|].
  apply addValue_keeps. by eapply Forall_lookup_1.
Qed.

Lemma call_defined (c : Call) (m : Monitor) :
  sound m → ∃ m', call c m = Some m' ∧ sound m'.
Proof.
  intros Hsound.
  destruct c as [now now'|a b c'|delayed|n|idx tp d|idx tp d|]; simpl.
  - eexists. split; [done|]. apply (updateVariables_sound m now Hsound).
  - unfold HealthMonitor.wake.
    destruct (shutdown_ (stat_add add_num_loops 1 m)).
    { eexists. split; [done|]. exact Hsound. }
    match goal with
    | |- context [processReports b ?m0] =>
        destruct (processReports_defined m0 b Hsound) as (m1 & -> & Hm1)
    end.
    eexists. split; [done|]. exact Hm1.
  - eexists. split; [done|]. unfold reportWatchdogHealth.
    destruct (shutdown_ m); exact Hsound.
  - eexists. split; [done|]. unfold reportStalledWorkers.
    destruct (shutdown_ m); exact Hsound.
  - unfold reportWorkerQueueStall.
    destruct (shutdown_ m); [by eexists|].
    destruct Hsound as ((H1 & H2 & H3 & H4) & Hpos & Hall).
    destruct (add_at_defined idx tp d
                (worker_queue_stalls_ (internal_info_ m)) H4)
      as (v & Hv & Hall').
    rewrite Hv. eexists. split; [done|].
    apply add_at_shape in Hv as [Hc Hl].
    split; [|split; [done|by apply Hall']].
    unfold wf. simpl. by rewrite Hc, Hl.
  - unfold reportWorkerStall.
    destruct (shutdown_ m); [by eexists|].
    destruct Hsound as ((H1 & H2 & H3 & H4) & Hpos & Hall).
    destruct (add_at_defined idx tp d (worker_stalls_ (internal_info_ m)) H3)
      as (v & Hv & _).
    rewrite Hv. eexists. split; [done|].
    apply add_at_shape in Hv as [Hc Hl].
    split; [|split; done].
    unfold wf. simpl. by rewrite Hc, Hl.
  - eexists. split; [done|]. exact Hsound.
Qed.

(** X14. A monitor whose vectors are as the constructor makes them, whose
    max_queue_stall_duration is positive and whose queue-stall series give
    a zero sum to an empty window, never runs into undefined behaviour:
    whatever is called on it, in whatever order and with whatever
    arguments and clock readings, no division by zero happens, no vector
    is indexed beyond its size, and the monitor is again in such a
    state. *)
Theorem X14_no_call_is_undefined (cs : list Call) (m : Monitor) :
  wf m →
  0 < max_queue_stall_duration_ m →
  Forall empty_window_sums_to_zero
    (data (worker_queue_stalls_ (internal_info_ m))) →
  ∃ m', calls cs m = Some m'
        ∧ wf m'
        ∧ Forall empty_window_sums_to_zero
            (data (worker_queue_stalls_ (internal_info_ m'))).
Proof.
  intros Hwf Hpos Hall.
  assert (Hsound : sound m) by done. clear Hwf Hpos Hall.
  revert m Hsound. induction cs as [|c cs IH]; intros m Hsound; simpl.
  - exists m. split; [done|]. split; apply Hsound.
  - destruct (call_defined c m Hsound) as (m1 & -> & Hm1). simpl.
    by apply IH.
Qed.

End Series.

(** *** The reports of the workers *)

Lemma add_at_lookup idx tp d (v v' : vector TS) (j : nat) :
  add_at idx tp d v = Some v' →
  capacity v' = capacity v
  ∧ data v' !! j
    = if bool_decide (0 ≤ idx < Z.of_nat (capacity v) ∧ j = Z.to_nat idx)
      then (λ t, ts_addValue t tp d) <$> data v !! j
      else data v !! j.
Proof.
  unfold add_at.
  destruct ((0 <=? idx) && (idx <? Z.of_nat (capacity v))) eqn:Hin.
  - apply andb_prop in Hin as [H0 Hlt].
    apply Z.leb_le in H0. apply Z.ltb_lt in Hlt.
    destruct (data v !! Z.to_nat idx) as [t|] eqn:Ht; [|done].
    intros [= <-]. simpl. split; [done|].
    case_bool_decide as Hj.
    + destruct Hj as [_ ->]. rewrite Ht. simpl.
      apply list_lookup_insert_eq. by eapply lookup_lt_Some.
    + apply list_lookup_insert_ne. intros <-. apply Hj. done.
  - intros [= <-]. split; [done|].
    rewrite bool_decide_false; [done|]. intros [[H0 Hlt] _].
    apply andb_false_iff in Hin as [Hin|Hin];
      [apply Z.leb_gt in Hin|apply Z.ltb_ge in Hin]; lia.
Qed.

(** X15. A stall reported for worker [idx] before shutdown, on a monitor
    whose vectors are as the constructor makes them, is added to the
    series of that worker in worker_stalls_ (reportWorkerStall) or in
    worker_queue_stalls_ (reportWorkerQueueStall), with the time point
    taken at the call, and to no other series; a report for an index
    below 0 or not below num_workers changes no series; no vector is
    indexed beyond its size.  Nothing else of the monitor changes: the
    other vector, the capacities, the flags of the watchdog and of the
    loop, the count of stalled workers. *)
Theorem X15_reports_of_a_worker (m : Monitor) (idx : Z) (tp : TimePoint)
    (d : milliseconds) :
  wf m →
  shutdown_ m = false →
  let i := internal_info_ m in
  let added (l : list TS) (j : nat) :=
    if bool_decide (0 ≤ idx < num_workers_ i ∧ j = Z.to_nat idx)
    then (λ t, ts_addValue t tp d) <$> l !! j
    else l !! j in
  ∃ m1 m2 : Monitor,
    reportWorkerStall idx tp d m = Some m1
    ∧ reportWorkerQueueStall idx tp d m = Some m2
    ∧ (∀ j, data (worker_stalls_ (internal_info_ m1)) !! j
            = added (data (worker_stalls_ i)) j)
    ∧ (∀ j, data (worker_queue_stalls_ (internal_info_ m2)) !! j
            = added (data (worker_queue_stalls_ i)) j)
    ∧ worker_queue_stalls_ (internal_info_ m1) = worker_queue_stalls_ i
    ∧ worker_stalls_ (internal_info_ m2) = worker_stalls_ i
    ∧ capacity (worker_stalls_ (internal_info_ m1))
      = capacity (worker_stalls_ i)
    ∧ capacity (worker_queue_stalls_ (internal_info_ m2))
      = capacity (worker_queue_stalls_ i)
    ∧ m1 = with_info (set_stalls (worker_stalls_ (internal_info_ m1)) i) m
    ∧ m2 = with_info
             (set_queue_stalls (worker_queue_stalls_ (internal_info_ m2)) i) m.
Proof.
  intros (H1 & H2 & H3 & H4) Hsd. simpl.
  unfold reportWorkerStall, reportWorkerQueueStall. rewrite Hsd.
  assert (Hdef : ∀ v : vector TS,
            length (data v) = capacity v →
            is_Some (add_at idx tp d v)).
  { intros v Hlen. unfold add_at.
    destruct ((0 <=? idx) && (idx <? Z.of_nat (capacity v))) eqn:Hin;
      [|by eexists].
    apply andb_prop in Hin as [H0 Hlt].
    apply Z.leb_le in H0. apply Z.ltb_lt in Hlt.
    destruct (lookup_lt_is_Some_2 (data v) (Z.to_nat idx)) as [t ->]; [lia|].
    by eexists. }
  destruct (Hdef _ H3) as [v1 Hv1]. destruct (Hdef _ H4) as [v2 Hv2].
  rewrite Hv1, Hv2. simpl. eexists _, _.
  split; [reflexivity|]. split; [reflexivity|]. simpl.
  split; [|split; [|split; [done|split; [done|split; [|split; [|done]]]]]].
  - intros j. rewrite H1. by apply (add_at_lookup idx tp d _ v1 j).
  - intros j. rewrite H2. by apply (add_at_lookup idx tp d _ v2 j).
  - by apply (add_at_lookup idx tp d _ v1 0%nat).
  - by apply (add_at_lookup idx tp d _ v2 0%nat).
Qed.

(** *** The reports of the watchdog *)

(** X16. Before shutdown, the two tests of reportWatchdogHealth amount to
    an assignment: watchdog_delay_ is what was reported last, and
    total_stalled_workers is the number reported last; the two reports do
    not interfere, in either order.  A reported watchdog delay, and a
    reported positive number of stalled workers, make the negative signal
    of calculateNegativeSignal, whatever the series say. *)
Theorem X16_watchdog_reports (m : Monitor) (d d' : bool) (n n' : Z) :
  shutdown_ m = false →
  watchdog_delay_ (internal_info_ (reportWatchdogHealth d m)) = d
  ∧ total_stalled_workers (internal_info_ (reportStalledWorkers n m)) = n
  ∧ reportWatchdogHealth d (reportWatchdogHealth d' m)
    = reportWatchdogHealth d m
  ∧ reportStalledWorkers n (reportStalledWorkers n' m)
    = reportStalledWorkers n m
  ∧ reportWatchdogHealth d (reportStalledWorkers n m)
    = reportStalledWorkers n (reportWatchdogHealth d m)
  ∧ negative_signal (reportWatchdogHealth true m) = true
  ∧ (0 < n → negative_signal (reportStalledWorkers n m) = true)
  ∧ (negative_signal (reportStalledWorkers 0 (reportWatchdogHealth false m))
     = health_monitor_delay_ (internal_info_ m) || stalled_ (stall_info_ m)).
Proof.
  intros Hsd. unfold reportWatchdogHealth, reportStalledWorkers, negative_signal.
  rewrite Hsd. cbn [shutdown_ with_info internal_info_ stall_info_
                    watchdog_delay_ total_stalled_workers
                    health_monitor_delay_]. rewrite Hsd.
  cbn [shutdown_ with_info internal_info_ stall_info_
       watchdog_delay_ total_stalled_workers health_monitor_delay_
       num_workers_ worker_stalls_ worker_queue_stalls_].
  destruct d, d', (watchdog_delay_ (internal_info_ m));
    repeat split; try reflexivity;
    try (by rewrite orb_true_r);
    try (intros Hn; apply Z.ltb_lt in Hn; rewrite Hn;
         by rewrite orb_true_r);
    try (by destruct (health_monitor_delay_ (internal_info_ m))).
Qed.

(** *** After shutdown *)

Lemma stat_add_0 (m : Monitor) : stat_add add_num_loops 0 m = m.
Proof.
  destruct m as [? [[]|] ? ? ? ? ? ? ? ? ? ? ? ?];
    unfold stat_add, with_stats, add_num_loops; simpl; [|done].
  do 3 f_equal. lia.
Qed.

Lemma stat_add_add (a b : Z) (m : Monitor) :
  stat_add add_num_loops a (stat_add add_num_loops b m)
  = stat_add add_num_loops (b + a) m.
Proof.
  destruct m as [? [[]|] ? ? ? ? ? ? ? ? ? ? ? ?];
    unfold stat_add, with_stats, add_num_loops; simpl; [|done].
  do 3 f_equal. lia.
Qed.

Lemma shutdown_again (m : Monitor) : shutdown_ m = true → shutdown m = m.
Proof. destruct m. simpl. by intros ->. Qed.

Lemma call_after_shutdown (c : Call) (m : Monitor) :
  shutdown_ m = true →
  is_startUp c = false →
  call c m = Some (if is_wake c then stat_add add_num_loops 1 m else m).
Proof.
  intros Hsd Hc.
  destruct c as [now now'|a b c'|delayed|n|idx tp d|idx tp d|]; simpl;
    try discriminate.
  - unfold HealthMonitor.wake.
    change (shutdown_ (stat_add add_num_loops 1 m)) with (shutdown_ m).
    by rewrite Hsd.
  - unfold reportWatchdogHealth. by rewrite Hsd.
  - unfold reportStalledWorkers. by rewrite Hsd.
  - unfold reportWorkerQueueStall. by rewrite Hsd.
  - unfold reportWorkerStall. by rewrite Hsd.
  - by rewrite shutdown_again.
Qed.

(** X17. After shutdown the monitor does nothing any more: the loop, when
    it wakes, counts the iteration in health_monitor_num_loops and stops
    without processing the reports and without scheduling itself again;
    the four report methods return at once; shutdown again changes
    nothing.  So after any sequence of such calls the monitor is as it was
    at shutdown, but for the number of iterations counted. *)
Theorem X17_after_shutdown (cs : list Call) (m : Monitor) :
  shutdown_ m = true →
  Forall (λ c, is_startUp c = false) cs →
  (∀ a b c, wake a b c m = Some (stat_add add_num_loops 1 m, false))
  ∧ calls cs m
    = Some (stat_add add_num_loops
              (Z.of_nat (length (filter (λ c, is_wake c = true) cs))) m).
Proof.
  intros Hsd Hcs. split.
  { intros a b c. unfold HealthMonitor.wake.
    change (shutdown_ (stat_add add_num_loops 1 m)) with (shutdown_ m).
    by rewrite Hsd. }
  revert m Hsd. induction Hcs as [|c cs Hc Hcs IH]; intros m Hsd.
  - simpl. by rewrite stat_add_0.
  - simpl. rewrite (call_after_shutdown c m Hsd Hc). simpl.
    rewrite filter_cons. destruct (is_wake c) eqn:Hw.
    + rewrite decide_True by done. rewrite IH by done.
      rewrite stat_add_add. do 2 f_equal. simpl length. lia.
    + rewrite decide_False by done. by apply IH.
Qed.

(** *** One iteration of the loop *)

Lemma counts_le {A : Type} (P Q : A → Prop) (l : list A) (c n : nat) :
  (∀ x, P x → Q x) → counts P l c → counts Q l n → (c ≤ n)%nat.
Proof.
  intros HPQ HP. revert n.
  induction HP as [|x l c Hx HP IH|x l c Hx HP IH]; intros n HQ.
  - lia.
  - inversion HQ as [|? ? n' Hq HQ'|? ? ? Hq HQ']; subst.
    + specialize (IH _ HQ'). lia.
    + destruct Hq. by apply HPQ.
  - inversion HQ as [|? ? n' Hq HQ'|? ? ? Hq HQ']; subst.
    + specialize (IH _ HQ'). lia.
    + by apply IH.
Qed.

Lemma processReports_signals (m m' : Monitor) now :
  processReports now m = Some m' →
  isStalled now (sleep_period_ m ÷ 2) (updateVariables now m)
  = Some (stall_info_ m')
  ∧ isOverloaded now (sleep_period_ m ÷ 2) (updateVariables now m)
    = Some (overloaded_ m').
Proof.
  unfold HealthMonitor.processReports, HealthMonitor.calculateNegativeSignal.
  change (sleep_period_ (updateVariables now m)) with (sleep_period_ m).
  destruct (isStalled now _ _) as [si|]; [|done].
  destruct (isOverloaded now _ _) as [ov|]; [|done].
  cbn [mbind option_bind]. intros [= <-].
  repeat match goal with
         | |- context [if ?c then _ else _] => destruct c
         | |- context [match ?c with HEALTHY => _ | _ => _ end] => destruct c
         end; split; reflexivity.
Qed.

(** X18. After processReports, critically_stalled_ is the number of the
    workers whose first stalled window, in the order of the periods, has
    sum / count >= sleep_period (quotient and comparisons in uint64_t, as
    the code evaluates them); it is never negative, never above the
    number of the workers that count as stalled, and that one never above
    num_workers. *)
Theorem X18_stalled_workers_bounded (m m' : Monitor) (now : TimePoint) :
  wf m →
  processReports now m = Some m' →
  let checked := updateVariables now m in
  let half_period := sleep_period_ m ÷ 2 in
  let workers := data (worker_stalls_ (internal_info_ checked)) in
  ∃ n c : nat,
    counts (Stalled avg_ge_uint64 checked now half_period) workers n
    ∧ counts (CriticallyStalledFirst avg_ge_uint64 checked now half_period)
        workers c
    ∧ critically_stalled_ (stall_info_ m') = Z.of_nat c
    ∧ (c ≤ n)%nat
    ∧ Z.of_nat n ≤ num_workers_ (internal_info_ m')
    ∧ 0 ≤ critically_stalled_ (stall_info_ m')
        ≤ num_workers_ (internal_info_ m').
Proof.
  intros Hwf Hm' checked half_period workers.
  destruct (processReports_signals _ _ _ Hm') as [Hstalled _].
  fold checked half_period in Hstalled.
  unfold HealthMonitor.isStalled in Hstalled. fold workers in Hstalled.
  destruct (count_stalled_spec kPeriodRange checked now half_period workers 0)
    as (n & c & Hcount & Hn & Hc).
  rewrite Hcount in Hstalled. simpl in Hstalled.
  injection Hstalled as Hinfo. rewrite <- Hinfo. simpl.
  assert (Hcn : (c ≤ n)%nat).
  { eapply counts_le; [|exact Hc|exact Hn].
    intros t (p & Hp & Hpred & _). by exists p. }
  assert (Hlen : Z.of_nat n ≤ num_workers_ (internal_info_ m')).
  { apply counts_length in Hn.
    rewrite (processReports_info _ _ _ _ Hm').
    destruct (updateVariables_wf m now Hwf) as (Hnum & _ & Hl & _).
    fold checked in Hnum, Hl |- *. fold workers in Hl. lia. }
  exists n, c. repeat split; try done; lia.
Qed.

(** X19. One iteration of the loop before shutdown: the loop goes on
    and records the time of its next entry; health_monitor_delay_ is set
    exactly when the loop woke up more than kMaxLoopStall later than the
    sleep period after its entry; the flag of the watchdog and the number
    of stalled workers stay as they were reported.  Of the counters,
    num_loops is incremented, and the three indicators are incremented
    exactly when the node is found stalled, overloaded and HEALTHY.  The
    state is UNHEALTHY when the timer is above the sleep period, whatever
    the load; otherwise it is OVERLOADED or HEALTHY by overloaded_. *)
Theorem X19_one_iteration (a b c : TimePoint) (m m' : Monitor) (go : bool) :
  shutdown_ m = false →
  wake a b c m = Some (m', go) →
  go = true
  ∧ last_entry_time_ m' = c
  ∧ health_monitor_delay_ (internal_info_ m')
    = (kMaxLoopStall <? a - last_entry_time_ m - sleep_period_ m)
  ∧ watchdog_delay_ (internal_info_ m') = watchdog_delay_ (internal_info_ m)
  ∧ total_stalled_workers (internal_info_ m')
    = total_stalled_workers (internal_info_ m)
  ∧ stats_ m'
    = (λ s,
         {| health_monitor_num_loops := health_monitor_num_loops s + 1;
            health_monitor_stall_indicator :=
              health_monitor_stall_indicator s
              + (if stalled_ (stall_info_ m') then 1 else 0);
            health_monitor_overload_indicator :=
              health_monitor_overload_indicator s
              + (if overloaded_ m' then 1 else 0);
            health_monitor_state_indicator :=
              health_monitor_state_indicator s
              + (if node_state_ m' is HEALTHY then 1 else 0) |})
      <$> stats_ m
  ∧ node_state_ m'
    = (if sleep_period_ m <? getCurrentValue (state_timer_ m') then UNHEALTHY
       else if overloaded_ m' then OVERLOADED else HEALTHY).
Proof.
  intros Hsd. unfold HealthMonitor.wake.
  change (shutdown_ (stat_add add_num_loops 1 m)) with (shutdown_ m).
  rewrite Hsd.
  unfold HealthMonitor.processReports, HealthMonitor.calculateNegativeSignal.
  destruct (isStalled b _ _) as [[crit st]|]; [|done].
  destruct (isOverloaded b _ _) as [ov|]; [|done].
  cbn [mbind option_bind]. intros [= <- <-].
  split; [done|]. split; [done|].
  repeat match goal with
         | |- context [if negative_signal ?x then _ else _] =>
             destruct (negative_signal x)
         | |- context [if 0 <? ?x then _ else _] => destruct (0 <? x)
         end;
    cbn [sleep_period_ with_node_state with_timer stat_add with_stats
         with_signal with_info updateVariables state_timer_ overloaded_
         stall_info_ stalled_ critically_stalled_ internal_info_ stats_
         node_state_ monitorLoop with_last_entry_time
         health_monitor_delay_ watchdog_delay_ total_stalled_workers
         last_entry_time_];
    destruct (sleep_period_ m <? getCurrentValue _) eqn:Htimer;
    destruct ov, st;
    cbn [sleep_period_ with_node_state with_timer stat_add with_stats
         with_signal with_info updateVariables state_timer_ overloaded_
         stall_info_ stalled_ critically_stalled_ internal_info_ stats_
         node_state_ monitorLoop with_last_entry_time
         health_monitor_delay_ watchdog_delay_ total_stalled_workers
         last_entry_time_];
    rewrite ?Htimer;
    (split; [reflexivity|]); (split; [reflexivity|]);
    (split; [reflexivity|]); (split; [|reflexivity]);
    destruct (stats_ m) as [[]|]; cbn; try reflexivity;
    unfold add_state_indicator, add_overload_indicator, add_stall_indicator,
      add_num_loops; cbn;
    do 2 f_equal; lia.
Qed.

End More.

Lemma X13_witness :
  settings Examples.after_script = settings Examples.monitor
  ∧ sizes Examples.after_script = sizes Examples.monitor
  ∧ wf Examples.after_script.
Proof.
  assert (Hcalls : calls 2 500 Examples.script Examples.monitor
                   = Some Examples.after_script)
    by (vm_compute; reflexivity).
  pose proof (X13_settings_and_sizes_are_kept 2 500 Examples.script
                Examples.monitor Examples.after_script Hcalls)
    as (H1 & H2 & H3 & _).
  split; [exact H1|]. split; [exact H2|]. exact (H3 monitor_wf).
Defined.

Lemma X14_witness :
  ∃ m' : Examples.Monitor,
    calls 2 500 Examples.script Examples.monitor = Some m'
    ∧ wf m'
    ∧ Forall empty_window_sums_to_zero
        (data (worker_queue_stalls_ (internal_info_ m'))).
Proof.
  apply (X14_no_call_is_undefined 2 500
           (λ t now _, SampleSeries_empty_window (ts_update t now))
           (λ t tp d _, SampleSeries_empty_window (ts_addValue t tp d))
           Examples.script Examples.monitor).
  - exact monitor_wf.
  - reflexivity.
  - apply Forall_forall. intros t _. apply SampleSeries_empty_window.
Defined.

Lemma X15_witness :
  ∃ m1 m2 : Examples.Monitor,
    reportWorkerStall 3 960 10 Examples.monitor = Some m1
    ∧ reportWorkerQueueStall 3 960 10 Examples.monitor = Some m2
    ∧ worker_queue_stalls_ (internal_info_ m1)
      = worker_queue_stalls_ (internal_info_ Examples.monitor)
    ∧ worker_stalls_ (internal_info_ m2)
      = worker_stalls_ (internal_info_ Examples.monitor).
Proof.
  assert (Hup : shutdown_ Examples.monitor = false) by reflexivity.
  destruct (X15_reports_of_a_worker Examples.monitor 3 960 10 monitor_wf Hup)
    as (m1 & m2 & H1 & H2 & _ & _ & H5 & H6 & _).
  exists m1, m2. split; [exact H1|]. split; [exact H2|].
  split; [exact H5|exact H6].
Defined.

Lemma X16_witness :
  watchdog_delay_ (internal_info_ (reportWatchdogHealth true Examples.monitor))
  = true
  ∧ negative_signal (reportStalledWorkers 2 Examples.monitor) = true.
Proof.
  assert (Hup : shutdown_ Examples.monitor = false) by reflexivity.
  pose proof (X16_watchdog_reports Examples.monitor true false 2 0 Hup)
    as (H1 & _ & _ & _ & _ & _ & H7 & _).
  split; [exact H1|]. apply H7. lia.
Defined.

Lemma X17_witness :
  calls 2 500 Examples.late_script (shutdown Examples.monitor)
  = Some (stat_add add_num_loops 2 (shutdown Examples.monitor)).
Proof.
  assert (Hdown : shutdown_ (shutdown Examples.monitor) = true)
    by reflexivity.
  assert (Hlate : Forall (λ c : Call, is_startUp c = false)
                    Examples.late_script)
    by (repeat constructor).
  exact (proj2 (X17_after_shutdown 2 500 Examples.late_script
                  (shutdown Examples.monitor) Hdown Hlate)).
Defined.

Lemma X18_witness :
  0 ≤ critically_stalled_ (stall_info_ Examples.after_tick)
    ≤ num_workers_ (internal_info_ Examples.after_tick).
Proof.
  assert (Htick : HealthMonitor.processReports 2 1000 Examples.monitor
                  = Some Examples.after_tick)
    by (vm_compute; reflexivity).
  destruct (X18_stalled_workers_bounded 2 Examples.monitor
              Examples.after_tick 1000 monitor_wf Htick)
    as (n & c & _ & _ & _ & _ & _ & H).
  exact H.
Defined.

Lemma X19_witness :
  Examples.after_wake.2 = true
  ∧ last_entry_time_ Examples.after_wake.1 = 1101
  ∧ health_monitor_delay_ (internal_info_ Examples.after_wake.1)
    = (500 <? 1100 - last_entry_time_ Examples.monitor
              - sleep_period_ Examples.monitor).
Proof.
  assert (Hup : shutdown_ Examples.monitor = false) by reflexivity.
  assert (Hwake : HealthMonitor.wake 2 500 1100 1100 1101 Examples.monitor
                  = Some (Examples.after_wake.1, Examples.after_wake.2))
    by (vm_compute; reflexivity).
  pose proof (X19_one_iteration 2 500 1100 1100 1101 Examples.monitor
                Examples.after_wake.1 Examples.after_wake.2 Hup Hwake)
    as (H1 & H2 & H3 & _).
  split; [exact H1|]. split; [exact H2|exact H3].
Defined.

End HealthMonitorMore.
